(** * k4aviewer device dock control: polling, color settings and the
      per-frame configuration panel

    A shallow embedding of [examples/k4aviewer/k4adevicedockcontrol.cpp].

    The vendor SDK device ([K4ADevice]), the microphone, the observer data
    sources, the error-status singleton and the immediate-mode widgets are
    declared in sibling files; they appear here as explicit interfaces
    (records of operations, logs of the calls they receive, and a per-frame
    record of what the user did to each widget). *)

From Stdlib Require Import ZArith List String Ascii Bool Lia.
Import ListNotations.
Local Open Scope Z_scope.

(* ================================================================== *)
(** ** SDK result codes *)

Inductive k4a_wait_result_t : Type :=
| K4A_WAIT_RESULT_SUCCEEDED
| K4A_WAIT_RESULT_FAILED
| K4A_WAIT_RESULT_TIMEOUT.

Inductive k4a_result_t : Type :=
| K4A_RESULT_SUCCEEDED
| K4A_RESULT_FAILED.

Definition wait_result_eqb (a b : k4a_wait_result_t) : bool :=
  match a, b with
  | K4A_WAIT_RESULT_SUCCEEDED, K4A_WAIT_RESULT_SUCCEEDED => true
  | K4A_WAIT_RESULT_FAILED, K4A_WAIT_RESULT_FAILED => true
  | K4A_WAIT_RESULT_TIMEOUT, K4A_WAIT_RESULT_TIMEOUT => true
  | _, _ => false
  end.

Definition result_eqb (a b : k4a_result_t) : bool :=
  match a, b with
  | K4A_RESULT_SUCCEEDED, K4A_RESULT_SUCCEEDED => true
  | K4A_RESULT_FAILED, K4A_RESULT_FAILED => true
  | _, _ => false
  end.

(* ================================================================== *)
(** ** Timeout counting *)

(** [static constexpr int MaxTimeoutCount = 120;] *)
Definition MaxTimeoutCount : Z := 120.

(** [bool HasTimedOut(k4a_wait_result_t result, int &timeoutCounter)]:
    the returned pair is the result and the new content of the counter.
    The counter is a C++ [int]; it is only ever incremented while below
    [MaxTimeoutCount], so the increment cannot wrap and [Z] is exact. *)
Definition HasTimedOut (result : k4a_wait_result_t) (timeoutCounter : Z)
  : bool * Z :=
  if wait_result_eqb result K4A_WAIT_RESULT_SUCCEEDED then
    (false, 0)
  else if wait_result_eqb result K4A_WAIT_RESULT_TIMEOUT then
    if timeoutCounter <? MaxTimeoutCount then
      (false, timeoutCounter + 1)
    else
      (true, timeoutCounter)
  else
    (true, timeoutCounter).

(* ================================================================== *)
(** ** Observers and the error-status singleton *)

(** What a data source broadcasts to its observers. *)
Inductive Notification (T : Type) : Type :=
| Data (data : T)
| Termination.
Arguments Data {T} data.
Arguments Termination {T}.

(** Modelled from the spec: [K4ADataSource<T>] (declared in
    k4adatasource.h) is "an observer-pattern broadcaster notifying
    registered viewer windows of new sensor samples or stream termination".
    The model keeps what was broadcast, oldest first. *)
Record K4ADataSource (T : Type) : Type := MkDataSource {
  broadcast : list (Notification T)
}.
Arguments MkDataSource {T} broadcast.
Arguments broadcast {T} _.

Definition NotifyObservers {T} (data : T) (ds : K4ADataSource T)
  : K4ADataSource T :=
  MkDataSource (broadcast ds ++ [Data data]).

Definition NotifyTermination {T} (ds : K4ADataSource T) : K4ADataSource T :=
  MkDataSource (broadcast ds ++ [Termination]).

(** Modelled from the spec: [K4AViewerErrorManager] (declared in
    k4aviewererrormanager.h) is the "global error-status singleton" that
    every failure path pushes one error string to.  The model keeps the
    strings pushed, oldest first. *)
Record K4AViewerErrorManager : Type := MkErrorManager {
  statuses : list string
}.

Definition SetErrorStatus (msg : string) (em : K4AViewerErrorManager)
  : K4AViewerErrorManager :=
  MkErrorManager (statuses em ++ [msg]).

(* ================================================================== *)
(** ** The generic polling helper *)

Section PollSensor.

(** [K4ADevice] and the payload type [T] of the template. *)
Context {Device T : Type}.

(** [device.GetSerialNumber()]. *)
Variable GetSerialNumber : Device -> string.

(** The content of the local [T data;] before [pollFn] writes to it. *)
Variable data0 : T.

(** What [PollSensor] receives by reference, plus the error singleton. *)
Record SensorRefs : Type := MkSensorRefs {
  device : Device;
  timeoutCounter : Z;
  dataSource : K4ADataSource T;
  errorManager : K4AViewerErrorManager
}.

(** [std::function<k4a_wait_result_t(K4ADevice &, T &)>]: the status,
    the new content of the [T &] and the device afterwards. *)
Definition PollFn : Type := Device -> T -> k4a_wait_result_t * T * Device.

(** [std::function<void(K4ADevice &)>]. *)
Definition StopFn : Type := Device -> Device.

Definition poll_status (r : k4a_wait_result_t * T * Device) := fst (fst r).
Definition poll_data (r : k4a_wait_result_t * T * Device) := snd (fst r).
Definition poll_device (r : k4a_wait_result_t * T * Device) := snd r.

Definition failureMessage (sensorFriendlyName : string) (d : Device)
    (pollStatus : k4a_wait_result_t) : string :=
  (sensorFriendlyName ++ " on device " ++ GetSerialNumber d ++
     (if wait_result_eqb pollStatus K4A_WAIT_RESULT_TIMEOUT
      then " timed out!" else " failed!"))%string.

Definition PollSensor (sensorFriendlyName : string)
    (pollFn : PollFn) (stopFn : StopFn) (r : SensorRefs) : SensorRefs :=
  let '(pollStatus, data, device1) := pollFn (device r) data0 in
  let '(hasTimedOut, counter1) := HasTimedOut pollStatus (timeoutCounter r) in
  if wait_result_eqb pollStatus K4A_WAIT_RESULT_SUCCEEDED then
    MkSensorRefs device1 counter1
                 (NotifyObservers data (dataSource r)) (errorManager r)
  else if wait_result_eqb pollStatus K4A_WAIT_RESULT_TIMEOUT
          && negb hasTimedOut then
    (* do nothing *)
    MkSensorRefs device1 counter1 (dataSource r) (errorManager r)
  else
    MkSensorRefs (stopFn device1) counter1
                 (NotifyTermination (dataSource r))
                 (SetErrorStatus
                    (failureMessage sensorFriendlyName device1 pollStatus)
                    (errorManager r)).

(** [n] successive calls (one per UI frame) on the same references. *)
Fixpoint PollFrames (n : nat) (sensorFriendlyName : string)
    (pollFn : PollFn) (stopFn : StopFn) (r : SensorRefs) : SensorRefs :=
  match n with
  | O => r
  | S k => PollSensor sensorFriendlyName pollFn stopFn
                      (PollFrames k sensorFriendlyName pollFn stopFn r)
  end.

(** The device after [n] calls of [pollFn] and nothing else. *)
Fixpoint polledOnly (n : nat) (pollFn : PollFn) (d : Device) : Device :=
  match n with
  | O => d
  | S k => poll_device (pollFn (polledOnly k pollFn d) data0)
  end.

End PollSensor.

Arguments SensorRefs : clear implicits.
Arguments MkSensorRefs {Device T}.
Arguments PollFn : clear implicits.
Arguments StopFn : clear implicits.

(* ================================================================== *)
(** ** SDK enumerations used by the panel (k4atypes.h) *)

Inductive k4a_depth_mode_t : Type :=
| K4A_DEPTH_MODE_OFF
| K4A_DEPTH_MODE_NFOV_2X2BINNED
| K4A_DEPTH_MODE_NFOV_UNBINNED
| K4A_DEPTH_MODE_WFOV_2X2BINNED
| K4A_DEPTH_MODE_WFOV_UNBINNED
| K4A_DEPTH_MODE_PASSIVE_IR.

Inductive k4a_image_format_t : Type :=
| K4A_IMAGE_FORMAT_COLOR_MJPG
| K4A_IMAGE_FORMAT_COLOR_NV12
| K4A_IMAGE_FORMAT_COLOR_YUY2
| K4A_IMAGE_FORMAT_COLOR_BGRA32
| K4A_IMAGE_FORMAT_DEPTH16
| K4A_IMAGE_FORMAT_IR16
| K4A_IMAGE_FORMAT_CUSTOM.

Inductive k4a_color_resolution_t : Type :=
| K4A_COLOR_RESOLUTION_OFF
| K4A_COLOR_RESOLUTION_720P
| K4A_COLOR_RESOLUTION_1080P
| K4A_COLOR_RESOLUTION_1440P
| K4A_COLOR_RESOLUTION_1536P
| K4A_COLOR_RESOLUTION_2160P
| K4A_COLOR_RESOLUTION_3072P.

Inductive k4a_fps_t : Type :=
| K4A_FRAMES_PER_SECOND_5
| K4A_FRAMES_PER_SECOND_15
| K4A_FRAMES_PER_SECOND_30.

Inductive k4a_wired_sync_mode_t : Type :=
| K4A_WIRED_SYNC_MODE_STANDALONE
| K4A_WIRED_SYNC_MODE_MASTER
| K4A_WIRED_SYNC_MODE_SUBORDINATE.

Inductive k4a_color_control_command_t : Type :=
| K4A_COLOR_CONTROL_EXPOSURE_TIME_ABSOLUTE
| K4A_COLOR_CONTROL_AUTO_EXPOSURE_PRIORITY
| K4A_COLOR_CONTROL_BRIGHTNESS
| K4A_COLOR_CONTROL_CONTRAST
| K4A_COLOR_CONTROL_SATURATION
| K4A_COLOR_CONTROL_SHARPNESS
| K4A_COLOR_CONTROL_WHITEBALANCE
| K4A_COLOR_CONTROL_BACKLIGHT_COMPENSATION
| K4A_COLOR_CONTROL_GAIN
| K4A_COLOR_CONTROL_POWERLINE_FREQUENCY.

Inductive k4a_color_control_mode_t : Type :=
| K4A_COLOR_CONTROL_MODE_AUTO
| K4A_COLOR_CONTROL_MODE_MANUAL.

Definition depth_mode_eqb (a b : k4a_depth_mode_t) : bool :=
  match a, b with
  | K4A_DEPTH_MODE_OFF, K4A_DEPTH_MODE_OFF
  | K4A_DEPTH_MODE_NFOV_2X2BINNED, K4A_DEPTH_MODE_NFOV_2X2BINNED
  | K4A_DEPTH_MODE_NFOV_UNBINNED, K4A_DEPTH_MODE_NFOV_UNBINNED
  | K4A_DEPTH_MODE_WFOV_2X2BINNED, K4A_DEPTH_MODE_WFOV_2X2BINNED
  | K4A_DEPTH_MODE_WFOV_UNBINNED, K4A_DEPTH_MODE_WFOV_UNBINNED
  | K4A_DEPTH_MODE_PASSIVE_IR, K4A_DEPTH_MODE_PASSIVE_IR => true
  | _, _ => false
  end.

Definition image_format_eqb (a b : k4a_image_format_t) : bool :=
  match a, b with
  | K4A_IMAGE_FORMAT_COLOR_MJPG, K4A_IMAGE_FORMAT_COLOR_MJPG
  | K4A_IMAGE_FORMAT_COLOR_NV12, K4A_IMAGE_FORMAT_COLOR_NV12
  | K4A_IMAGE_FORMAT_COLOR_YUY2, K4A_IMAGE_FORMAT_COLOR_YUY2
  | K4A_IMAGE_FORMAT_COLOR_BGRA32, K4A_IMAGE_FORMAT_COLOR_BGRA32
  | K4A_IMAGE_FORMAT_DEPTH16, K4A_IMAGE_FORMAT_DEPTH16
  | K4A_IMAGE_FORMAT_IR16, K4A_IMAGE_FORMAT_IR16
  | K4A_IMAGE_FORMAT_CUSTOM, K4A_IMAGE_FORMAT_CUSTOM => true
  | _, _ => false
  end.

Definition color_resolution_eqb (a b : k4a_color_resolution_t) : bool :=
  match a, b with
  | K4A_COLOR_RESOLUTION_OFF, K4A_COLOR_RESOLUTION_OFF
  | K4A_COLOR_RESOLUTION_720P, K4A_COLOR_RESOLUTION_720P
  | K4A_COLOR_RESOLUTION_1080P, K4A_COLOR_RESOLUTION_1080P
  | K4A_COLOR_RESOLUTION_1440P, K4A_COLOR_RESOLUTION_1440P
  | K4A_COLOR_RESOLUTION_1536P, K4A_COLOR_RESOLUTION_1536P
  | K4A_COLOR_RESOLUTION_2160P, K4A_COLOR_RESOLUTION_2160P
  | K4A_COLOR_RESOLUTION_3072P, K4A_COLOR_RESOLUTION_3072P => true
  | _, _ => false
  end.

Definition color_mode_eqb (a b : k4a_color_control_mode_t) : bool :=
  match a, b with
  | K4A_COLOR_CONTROL_MODE_AUTO, K4A_COLOR_CONTROL_MODE_AUTO
  | K4A_COLOR_CONTROL_MODE_MANUAL, K4A_COLOR_CONTROL_MODE_MANUAL => true
  | _, _ => false
  end.

(** [SoundIoErrorNone] (soundio.h). *)
Definition SoundIoErrorNone : Z := 0.

(* ================================================================== *)
(** ** The panel's data (k4adevicedockcontrol.h, k4aviewersettingsmanager.h) *)

(** [struct ColorSetting { k4a_color_control_mode_t Mode; int32_t Value; }]. *)
Record ColorSetting : Type := MkColorSetting {
  Mode : k4a_color_control_mode_t;
  Value : Z
}.

(** The ten entries of [m_colorSettingsCache]. *)
Record ColorSettingsCache : Type := MkColorSettingsCache {
  ExposureTimeUs : ColorSetting;
  WhiteBalance : ColorSetting;
  AutoExposurePriority : ColorSetting;
  Brightness : ColorSetting;
  Contrast : ColorSetting;
  Saturation : ColorSetting;
  Sharpness : ColorSetting;
  BacklightCompensation : ColorSetting;
  Gain : ColorSetting;
  PowerlineFrequency : ColorSetting
}.

(** A reference to one entry of the cache, as the C++ passes
    [m_colorSettingsCache.X] by reference. *)
Record CacheEntryRef : Type := MkCacheEntryRef {
  entry_get : ColorSettingsCache -> ColorSetting;
  entry_set : ColorSetting -> ColorSettingsCache -> ColorSettingsCache
}.

Definition ref_ExposureTimeUs : CacheEntryRef :=
  MkCacheEntryRef ExposureTimeUs
    (fun v c => MkColorSettingsCache v (WhiteBalance c)
       (AutoExposurePriority c) (Brightness c) (Contrast c) (Saturation c)
       (Sharpness c) (BacklightCompensation c) (Gain c) (PowerlineFrequency c)).
Definition ref_WhiteBalance : CacheEntryRef :=
  MkCacheEntryRef WhiteBalance
    (fun v c => MkColorSettingsCache (ExposureTimeUs c) v
       (AutoExposurePriority c) (Brightness c) (Contrast c) (Saturation c)
       (Sharpness c) (BacklightCompensation c) (Gain c) (PowerlineFrequency c)).
Definition ref_AutoExposurePriority : CacheEntryRef :=
  MkCacheEntryRef AutoExposurePriority
    (fun v c => MkColorSettingsCache (ExposureTimeUs c) (WhiteBalance c)
       v (Brightness c) (Contrast c) (Saturation c)
       (Sharpness c) (BacklightCompensation c) (Gain c) (PowerlineFrequency c)).
Definition ref_Brightness : CacheEntryRef :=
  MkCacheEntryRef Brightness
    (fun v c => MkColorSettingsCache (ExposureTimeUs c) (WhiteBalance c)
       (AutoExposurePriority c) v (Contrast c) (Saturation c)
       (Sharpness c) (BacklightCompensation c) (Gain c) (PowerlineFrequency c)).
Definition ref_Contrast : CacheEntryRef :=
  MkCacheEntryRef Contrast
    (fun v c => MkColorSettingsCache (ExposureTimeUs c) (WhiteBalance c)
       (AutoExposurePriority c) (Brightness c) v (Saturation c)
       (Sharpness c) (BacklightCompensation c) (Gain c) (PowerlineFrequency c)).
Definition ref_Saturation : CacheEntryRef :=
  MkCacheEntryRef Saturation
    (fun v c => MkColorSettingsCache (ExposureTimeUs c) (WhiteBalance c)
       (AutoExposurePriority c) (Brightness c) (Contrast c) v
       (Sharpness c) (BacklightCompensation c) (Gain c) (PowerlineFrequency c)).
Definition ref_Sharpness : CacheEntryRef :=
  MkCacheEntryRef Sharpness
    (fun v c => MkColorSettingsCache (ExposureTimeUs c) (WhiteBalance c)
       (AutoExposurePriority c) (Brightness c) (Contrast c) (Saturation c)
       v (BacklightCompensation c) (Gain c) (PowerlineFrequency c)).
Definition ref_BacklightCompensation : CacheEntryRef :=
  MkCacheEntryRef BacklightCompensation
    (fun v c => MkColorSettingsCache (ExposureTimeUs c) (WhiteBalance c)
       (AutoExposurePriority c) (Brightness c) (Contrast c) (Saturation c)
       (Sharpness c) v (Gain c) (PowerlineFrequency c)).
Definition ref_Gain : CacheEntryRef :=
  MkCacheEntryRef Gain
    (fun v c => MkColorSettingsCache (ExposureTimeUs c) (WhiteBalance c)
       (AutoExposurePriority c) (Brightness c) (Contrast c) (Saturation c)
       (Sharpness c) (BacklightCompensation c) v (PowerlineFrequency c)).
Definition ref_PowerlineFrequency : CacheEntryRef :=
  MkCacheEntryRef PowerlineFrequency
    (fun v c => MkColorSettingsCache (ExposureTimeUs c) (WhiteBalance c)
       (AutoExposurePriority c) (Brightness c) (Contrast c) (Saturation c)
       (Sharpness c) (BacklightCompensation c) (Gain c) v).

(** [struct K4ADeviceConfiguration]: the pending configuration.
    [DepthDelayOffColorUsec] is an [int32_t],
    [SubordinateDelayOffMasterUsec] a [uint32_t]. *)
Record K4ADeviceConfiguration : Type := MkConfiguration {
  EnableColorCamera : bool;
  EnableDepthCamera : bool;
  ColorFormat : k4a_image_format_t;
  ColorResolution : k4a_color_resolution_t;
  DepthMode : k4a_depth_mode_t;
  Framerate : k4a_fps_t;
  DepthDelayOffColorUsec : Z;
  WiredSyncMode : k4a_wired_sync_mode_t;
  SubordinateDelayOffMasterUsec : Z;
  DisableStreamingIndicator : bool;
  SynchronizedImagesOnly : bool;
  EnableImu : bool;
  EnableMicrophone : bool
}.

Definition set_EnableColorCamera v c :=
  MkConfiguration v (EnableDepthCamera c) (ColorFormat c) (ColorResolution c)
    (DepthMode c) (Framerate c) (DepthDelayOffColorUsec c) (WiredSyncMode c)
    (SubordinateDelayOffMasterUsec c) (DisableStreamingIndicator c)
    (SynchronizedImagesOnly c) (EnableImu c) (EnableMicrophone c).
Definition set_EnableDepthCamera v c :=
  MkConfiguration (EnableColorCamera c) v (ColorFormat c) (ColorResolution c)
    (DepthMode c) (Framerate c) (DepthDelayOffColorUsec c) (WiredSyncMode c)
    (SubordinateDelayOffMasterUsec c) (DisableStreamingIndicator c)
    (SynchronizedImagesOnly c) (EnableImu c) (EnableMicrophone c).
Definition set_ColorFormat v c :=
  MkConfiguration (EnableColorCamera c) (EnableDepthCamera c) v
    (ColorResolution c)
    (DepthMode c) (Framerate c) (DepthDelayOffColorUsec c) (WiredSyncMode c)
    (SubordinateDelayOffMasterUsec c) (DisableStreamingIndicator c)
    (SynchronizedImagesOnly c) (EnableImu c) (EnableMicrophone c).
Definition set_ColorResolution v c :=
  MkConfiguration (EnableColorCamera c) (EnableDepthCamera c) (ColorFormat c)
    v
    (DepthMode c) (Framerate c) (DepthDelayOffColorUsec c) (WiredSyncMode c)
    (SubordinateDelayOffMasterUsec c) (DisableStreamingIndicator c)
    (SynchronizedImagesOnly c) (EnableImu c) (EnableMicrophone c).
Definition set_DepthMode v c :=
  MkConfiguration (EnableColorCamera c) (EnableDepthCamera c) (ColorFormat c)
    (ColorResolution c)
    v (Framerate c) (DepthDelayOffColorUsec c) (WiredSyncMode c)
    (SubordinateDelayOffMasterUsec c) (DisableStreamingIndicator c)
    (SynchronizedImagesOnly c) (EnableImu c) (EnableMicrophone c).
Definition set_Framerate v c :=
  MkConfiguration (EnableColorCamera c) (EnableDepthCamera c) (ColorFormat c)
    (ColorResolution c)
    (DepthMode c) v (DepthDelayOffColorUsec c) (WiredSyncMode c)
    (SubordinateDelayOffMasterUsec c) (DisableStreamingIndicator c)
    (SynchronizedImagesOnly c) (EnableImu c) (EnableMicrophone c).
Definition set_DepthDelayOffColorUsec v c :=
  MkConfiguration (EnableColorCamera c) (EnableDepthCamera c) (ColorFormat c)
    (ColorResolution c)
    (DepthMode c) (Framerate c) v (WiredSyncMode c)
    (SubordinateDelayOffMasterUsec c) (DisableStreamingIndicator c)
    (SynchronizedImagesOnly c) (EnableImu c) (EnableMicrophone c).
Definition set_WiredSyncMode v c :=
  MkConfiguration (EnableColorCamera c) (EnableDepthCamera c) (ColorFormat c)
    (ColorResolution c)
    (DepthMode c) (Framerate c) (DepthDelayOffColorUsec c) v
    (SubordinateDelayOffMasterUsec c) (DisableStreamingIndicator c)
    (SynchronizedImagesOnly c) (EnableImu c) (EnableMicrophone c).
Definition set_SubordinateDelayOffMasterUsec v c :=
  MkConfiguration (EnableColorCamera c) (EnableDepthCamera c) (ColorFormat c)
    (ColorResolution c)
    (DepthMode c) (Framerate c) (DepthDelayOffColorUsec c) (WiredSyncMode c)
    v (DisableStreamingIndicator c)
    (SynchronizedImagesOnly c) (EnableImu c) (EnableMicrophone c).
Definition set_DisableStreamingIndicator v c :=
  MkConfiguration (EnableColorCamera c) (EnableDepthCamera c) (ColorFormat c)
    (ColorResolution c)
    (DepthMode c) (Framerate c) (DepthDelayOffColorUsec c) (WiredSyncMode c)
    (SubordinateDelayOffMasterUsec c) v
    (SynchronizedImagesOnly c) (EnableImu c) (EnableMicrophone c).
Definition set_SynchronizedImagesOnly v c :=
  MkConfiguration (EnableColorCamera c) (EnableDepthCamera c) (ColorFormat c)
    (ColorResolution c)
    (DepthMode c) (Framerate c) (DepthDelayOffColorUsec c) (WiredSyncMode c)
    (SubordinateDelayOffMasterUsec c) (DisableStreamingIndicator c)
    v (EnableImu c) (EnableMicrophone c).
Definition set_EnableImu v c :=
  MkConfiguration (EnableColorCamera c) (EnableDepthCamera c) (ColorFormat c)
    (ColorResolution c)
    (DepthMode c) (Framerate c) (DepthDelayOffColorUsec c) (WiredSyncMode c)
    (SubordinateDelayOffMasterUsec c) (DisableStreamingIndicator c)
    (SynchronizedImagesOnly c) v (EnableMicrophone c).
Definition set_EnableMicrophone v c :=
  MkConfiguration (EnableColorCamera c) (EnableDepthCamera c) (ColorFormat c)
    (ColorResolution c)
    (DepthMode c) (Framerate c) (DepthDelayOffColorUsec c) (WiredSyncMode c)
    (SubordinateDelayOffMasterUsec c) (DisableStreamingIndicator c)
    (SynchronizedImagesOnly c) (EnableImu c) v.

(** [K4AWindowSet::ViewType]. *)
Inductive ViewType : Type := Normal | PointCloudViewer.

(** [enum class ColorControlAction { None, SetAutomatic, SetManual }]. *)
Module ColorControlAction.
Inductive t : Type := None | SetAutomatic | SetManual.
End ColorControlAction.

(* ================================================================== *)
(** ** The immediate-mode widgets *)

(** What the user does to the widgets during one UI frame.  Widgets are
    identified by their label, as ImGui does; [activatedIn id label] is a
    widget drawn between [ImGui::PushID(id)] and [ImGui::PopID()].
    [nodeOpen] is the open state ImGui keeps for a tree node.  A slider or
    input box the user edits in this frame reports its new value (for the
    float slider: the value after [static_cast<int32_t>]).
    [invalidBool label v] is what a checkbox pressed in this frame, and
    given an [int32_t] [v] whose first byte holds neither 0 nor 1 as its
    [bool], leaves in that [int32_t]: C++ does not define it, and builds
    differ. *)
Record FrameInput : Type := MkFrameInput {
  activated : string -> bool;
  activatedIn : string -> string -> bool;
  nodeOpen : string -> bool;
  sliderValue : string -> option Z;
  scalarValue : string -> option Z;
  invalidBool : string -> Z -> Z
}.

(** [ImGui::Button], [ImGui::SmallButton]: true when pressed. *)
Definition Button (io : FrameInput) (label : string) : bool :=
  activated io label.

(** Modelled from the spec: the widgets of k4aimguiextensions.h are the
    "GUI widgets" by which the pending configuration is "mutated live";
    each wraps the ImGui widget of the same name and takes an [enabled]
    flag.  A widget drawn disabled cannot be activated: it reports no
    change and leaves the value it is bound to alone.
    [K4AButton(label, enabled)]: true when pressed. *)
Definition K4AButton (io : FrameInput) (label : string) (enabled : bool)
  : bool :=
  enabled && activated io label.

(** Modelled from the spec: [K4ACheckbox(label, &value, enabled)], as
    [K4AButton]: whether the box was toggled, and the new content of
    [value]. *)
Definition K4ACheckbox (io : FrameInput) (label : string) (value : bool)
    (enabled : bool) : bool * bool :=
  if enabled && activated io label then (true, negb value)
  else (false, value).

(** Modelled from the spec: [K4ARadioButton(label, &v, vButton, enabled)],
    as [K4AButton]: whether the button was pressed, and the new content of
    [v] (a pressed button stores [vButton]). *)
Definition K4ARadioButton {A : Type} (io : FrameInput) (label : string)
    (v : A) (vButton : A) (enabled : bool) : bool * A :=
  if enabled && activated io label then (true, vButton)
  else (false, v).

(** [ImGui::RadioButton(label, &v, vButton)]. *)
Definition RadioButton {A : Type} (io : FrameInput) (label : string)
    (v : A) (vButton : A) : bool * A :=
  if activated io label then (true, vButton) else (false, v).

(** [ImGui::SliderInt(label, &v, min, max)]: whether the value was edited
    and the new content of [v]. *)
Definition SliderInt (io : FrameInput) (label : string) (v : Z) : bool * Z :=
  match sliderValue io label with
  | Some v' => (true, v')
  | None => (false, v)
  end.

(** Modelled from the spec: [K4ASliderInt] and [K4ASliderFloat] (the
    latter followed by the cast back to [int32_t]), as [K4AButton]. *)
Definition K4ASlider (io : FrameInput) (label : string) (v : Z)
    (enabled : bool) : bool * Z :=
  if enabled then SliderInt io label v else (false, v).

(** Modelled from the spec: [K4AInputScalar(label, type, &v, ...,
    enabled)], as [K4AButton]. *)
Definition K4AInputScalar (io : FrameInput) (label : string) (v : Z)
    (enabled : bool) : bool * Z :=
  match scalarValue io label with
  | Some v' => if enabled then (true, v') else (false, v)
  | None => (false, v)
  end.

(** [ImGui::Checkbox(label, reinterpret_cast<bool *>(&value))] on an
    [int32_t]: the box flips the [bool] stored in the first (least
    significant) byte of [value].  Where that byte is 0 or 1 the flip is
    defined; elsewhere the C++ reads an invalid [bool], and what it stores
    is [invalidBool]. *)
Definition CheckboxOnInt32 (io : FrameInput) (label : string) (value : Z)
  : bool * Z :=
  if activated io label then
    (true,
     if value mod 256 =? 0 then value + 1
     else if value mod 256 =? 1 then value - 1
     else invalidBool io label value)
  else (false, value).

(** [ImGui::TreeNode(label)] after an optional
    [ImGui::SetNextTreeNodeOpen(b)]: the forced state, or else the state
    ImGui keeps. *)
Definition TreeNode (io : FrameInput) (label : string)
    (setNextTreeNodeOpen : option bool) : bool :=
  match setNextTreeNodeOpen with
  | Some b => b
  | None => nodeOpen io label
  end.

(* ================================================================== *)
(** ** What lies outside this file *)

(** Calls that reach the device through [K4ADevice]. *)
Inductive DeviceCall (Config : Type) : Type :=
| CallPollCameras
| CallPollImu
| CallStopCameras
| CallStopImu
| CallStartCameras (deviceConfig : Config)
| CallStartImu
| CallSetColorControl (command : k4a_color_control_command_t)
                      (mode : k4a_color_control_mode_t) (value : Z)
| CallGetColorControl (command : k4a_color_control_command_t)
| CallGetSyncCablesConnected
| CallGetCalibrationTransformData (depthMode : k4a_depth_mode_t)
                                  (colorResolution : k4a_color_resolution_t).
Arguments CallPollCameras {Config}.
Arguments CallPollImu {Config}.
Arguments CallStopCameras {Config}.
Arguments CallStopImu {Config}.
Arguments CallStartCameras {Config} deviceConfig.
Arguments CallStartImu {Config}.
Arguments CallSetColorControl {Config} command mode value.
Arguments CallGetColorControl {Config} command.
Arguments CallGetSyncCablesConnected {Config}.
Arguments CallGetCalibrationTransformData {Config} depthMode colorResolution.

(** Calls that reach the microphone through [K4AMicrophone]. *)
Inductive MicCall : Type := CallMicStart | CallMicStop | CallCreateListener.

(** Calls to [K4AWindowManager] and [K4AWindowSet]. *)
Inductive WindowEvent : Type :=
| ClearWindows
| PopDockControl
| StartNormalWindows (withMicrophoneListener : bool)
    (enableDepthCamera : bool) (depthMode : k4a_depth_mode_t)
    (enableColorCamera : bool) (colorFormat : k4a_image_format_t)
    (colorResolution : k4a_color_resolution_t)
| StartPointCloudWindow (depthMode : k4a_depth_mode_t).

(** The vendor SDK and the sibling viewer code this file calls: the types
    it only passes around, the device and microphone operations as
    functions of the hardware state, and the helpers declared in other
    headers.  An output reference is modelled as an argument (its content
    before the call) and a result (its content after).

    [imu_queue_finite] is the one assumption on the hardware: every
    sample taken out of the IMU queue leaves fewer in it, so that draining
    the queue ends. *)
Record K4AExternals : Type := MkExternals {
  Hardware : Type;
  MicHardware : Type;
  K4ACapture : Type;
  k4a_imu_sample_t : Type;
  k4a_device_configuration_t : Type;

  sdk_GetSerialNumber : Hardware -> string;
  sdk_CamerasAreStarted : Hardware -> bool;
  sdk_ImuIsStarted : Hardware -> bool;
  sdk_PollCameras :
    Hardware -> k4a_wait_result_t * option K4ACapture * Hardware;
  sdk_PollImu :
    Hardware -> k4a_imu_sample_t ->
    k4a_wait_result_t * k4a_imu_sample_t * Hardware;
  sdk_StopCameras : Hardware -> Hardware;
  sdk_StopImu : Hardware -> Hardware;
  sdk_StartCameras :
    k4a_device_configuration_t -> Hardware -> k4a_result_t * Hardware;
  sdk_StartImu : Hardware -> k4a_result_t * Hardware;
  sdk_SetColorControl :
    k4a_color_control_command_t -> k4a_color_control_mode_t -> Z ->
    Hardware -> k4a_result_t * Hardware;
  sdk_GetColorControl :
    k4a_color_control_command_t -> ColorSetting ->
    Hardware -> k4a_result_t * ColorSetting * Hardware;
  sdk_GetSyncCablesConnected :
    bool -> bool -> Hardware -> k4a_result_t * (bool * bool) * Hardware;
  sdk_GetCalibrationTransformData :
    k4a_depth_mode_t -> k4a_color_resolution_t ->
    Hardware -> k4a_result_t * Hardware;

  mic_IsStarted : MicHardware -> bool;
  mic_GetStatusCode : MicHardware -> Z;
  mic_Start : MicHardware -> Z * MicHardware;
  mic_Stop : MicHardware -> MicHardware;

  (** the content of an uninitialised [k4a_imu_sample_t] local *)
  imu_sample_uninitialized : k4a_imu_sample_t;
  (** [K4ADeviceConfiguration::ToK4ADeviceConfiguration] *)
  ToK4ADeviceConfiguration :
    K4ADeviceConfiguration -> k4a_device_configuration_t;
  (** [K4ADeviceConfiguration()] *)
  defaultDeviceConfiguration : K4ADeviceConfiguration;
  (** [operator<<] on a color control command (k4atypeoperators.h) *)
  command_to_string : k4a_color_control_command_t -> string;
  soundio_strerror : Z -> string;
  (** [K4AWindowSet::ShowModeSelector(&viewType, enabled,
      pointCloudViewerEnabled, changeViewFn)]: the new content of
      [viewType], and the argument [changeViewFn] is called with, if it
      is called *)
  ShowModeSelector :
    FrameInput -> ViewType -> bool -> bool -> ViewType * option ViewType;

  imu_pending : Hardware -> nat;
  imu_queue_finite : forall h x x' h',
    sdk_PollImu h x = (K4A_WAIT_RESULT_SUCCEEDED, x', h') ->
    (imu_pending h' < imu_pending h)%nat
}.

Section DockControl.

Variable ext : K4AExternals.

(** [K4ADevice]: the hardware behind it and the calls made so far. *)
Record K4ADevice : Type := MkDevice {
  hw : Hardware ext;
  calls : list (DeviceCall (k4a_device_configuration_t ext))
}.

(** [K4AMicrophone]. *)
Record K4AMicrophone : Type := MkMicrophone {
  mic_hw : MicHardware ext;
  mic_calls : list MicCall
}.

(** The members of [K4ADeviceDockControl] and the singletons it uses:
    [errorStatus] is [K4AViewerErrorManager::Instance()], [windows] the
    calls received by the window manager and window set, and
    [savedDeviceConfiguration] what [K4AViewerSettingsManager::Instance()]
    holds. *)
Record World : Type := MkWorld {
  m_device : K4ADevice;
  m_microphone : option K4AMicrophone;
  m_pendingDeviceConfiguration : K4ADeviceConfiguration;
  m_colorSettingsCache : ColorSettingsCache;
  m_cameraTimeoutCounter : Z;
  m_imuTimeoutCounter : Z;
  m_cameraDataSource : K4ADataSource (option (K4ACapture ext));
  m_imuDataSource : K4ADataSource (k4a_imu_sample_t ext);
  m_syncInConnected : bool;
  m_syncOutConnected : bool;
  m_firstRun : bool;
  m_paused : bool;
  m_currentViewType : ViewType;
  errorStatus : K4AViewerErrorManager;
  windows : list WindowEvent;
  savedDeviceConfiguration : K4ADeviceConfiguration
}.

Definition set_m_device (v : K4ADevice) (w : World) : World :=
  MkWorld v (m_microphone w) (m_pendingDeviceConfiguration w)
    (m_colorSettingsCache w) (m_cameraTimeoutCounter w)
    (m_imuTimeoutCounter w) (m_cameraDataSource w) (m_imuDataSource w)
    (m_syncInConnected w) (m_syncOutConnected w) (m_firstRun w) (m_paused w)
    (m_currentViewType w) (errorStatus w) (windows w)
    (savedDeviceConfiguration w).
Definition set_m_microphone (v : option K4AMicrophone) (w : World) : World :=
  MkWorld (m_device w) v (m_pendingDeviceConfiguration w)
    (m_colorSettingsCache w) (m_cameraTimeoutCounter w)
    (m_imuTimeoutCounter w) (m_cameraDataSource w) (m_imuDataSource w)
    (m_syncInConnected w) (m_syncOutConnected w) (m_firstRun w) (m_paused w)
    (m_currentViewType w) (errorStatus w) (windows w)
    (savedDeviceConfiguration w).
Definition set_m_pendingDeviceConfiguration (v : K4ADeviceConfiguration) (w : World) : World :=
  MkWorld (m_device w) (m_microphone w) v (m_colorSettingsCache w)
    (m_cameraTimeoutCounter w) (m_imuTimeoutCounter w)
    (m_cameraDataSource w) (m_imuDataSource w) (m_syncInConnected w)
    (m_syncOutConnected w) (m_firstRun w) (m_paused w) (m_currentViewType w)
    (errorStatus w) (windows w) (savedDeviceConfiguration w).
Definition set_m_colorSettingsCache (v : ColorSettingsCache) (w : World) : World :=
  MkWorld (m_device w) (m_microphone w) (m_pendingDeviceConfiguration w) v
    (m_cameraTimeoutCounter w) (m_imuTimeoutCounter w)
    (m_cameraDataSource w) (m_imuDataSource w) (m_syncInConnected w)
    (m_syncOutConnected w) (m_firstRun w) (m_paused w) (m_currentViewType w)
    (errorStatus w) (windows w) (savedDeviceConfiguration w).
Definition set_m_cameraTimeoutCounter (v : Z) (w : World) : World :=
  MkWorld (m_device w) (m_microphone w) (m_pendingDeviceConfiguration w)
    (m_colorSettingsCache w) v (m_imuTimeoutCounter w)
    (m_cameraDataSource w) (m_imuDataSource w) (m_syncInConnected w)
    (m_syncOutConnected w) (m_firstRun w) (m_paused w) (m_currentViewType w)
    (errorStatus w) (windows w) (savedDeviceConfiguration w).
Definition set_m_imuTimeoutCounter (v : Z) (w : World) : World :=
  MkWorld (m_device w) (m_microphone w) (m_pendingDeviceConfiguration w)
    (m_colorSettingsCache w) (m_cameraTimeoutCounter w) v
    (m_cameraDataSource w) (m_imuDataSource w) (m_syncInConnected w)
    (m_syncOutConnected w) (m_firstRun w) (m_paused w) (m_currentViewType w)
    (errorStatus w) (windows w) (savedDeviceConfiguration w).
Definition set_m_cameraDataSource (v : K4ADataSource (option (K4ACapture ext))) (w : World) : World :=
  MkWorld (m_device w) (m_microphone w) (m_pendingDeviceConfiguration w)
    (m_colorSettingsCache w) (m_cameraTimeoutCounter w)
    (m_imuTimeoutCounter w) v (m_imuDataSource w) (m_syncInConnected w)
    (m_syncOutConnected w) (m_firstRun w) (m_paused w) (m_currentViewType w)
    (errorStatus w) (windows w) (savedDeviceConfiguration w).
Definition set_m_imuDataSource (v : K4ADataSource (k4a_imu_sample_t ext)) (w : World) : World :=
  MkWorld (m_device w) (m_microphone w) (m_pendingDeviceConfiguration w)
    (m_colorSettingsCache w) (m_cameraTimeoutCounter w)
    (m_imuTimeoutCounter w) (m_cameraDataSource w) v (m_syncInConnected w)
    (m_syncOutConnected w) (m_firstRun w) (m_paused w) (m_currentViewType w)
    (errorStatus w) (windows w) (savedDeviceConfiguration w).
Definition set_m_syncInConnected (v : bool) (w : World) : World :=
  MkWorld (m_device w) (m_microphone w) (m_pendingDeviceConfiguration w)
    (m_colorSettingsCache w) (m_cameraTimeoutCounter w)
    (m_imuTimeoutCounter w) (m_cameraDataSource w) (m_imuDataSource w) v
    (m_syncOutConnected w) (m_firstRun w) (m_paused w) (m_currentViewType w)
    (errorStatus w) (windows w) (savedDeviceConfiguration w).
Definition set_m_syncOutConnected (v : bool) (w : World) : World :=
  MkWorld (m_device w) (m_microphone w) (m_pendingDeviceConfiguration w)
    (m_colorSettingsCache w) (m_cameraTimeoutCounter w)
    (m_imuTimeoutCounter w) (m_cameraDataSource w) (m_imuDataSource w)
    (m_syncInConnected w) v (m_firstRun w) (m_paused w)
    (m_currentViewType w) (errorStatus w) (windows w)
    (savedDeviceConfiguration w).
Definition set_m_firstRun (v : bool) (w : World) : World :=
  MkWorld (m_device w) (m_microphone w) (m_pendingDeviceConfiguration w)
    (m_colorSettingsCache w) (m_cameraTimeoutCounter w)
    (m_imuTimeoutCounter w) (m_cameraDataSource w) (m_imuDataSource w)
    (m_syncInConnected w) (m_syncOutConnected w) v (m_paused w)
    (m_currentViewType w) (errorStatus w) (windows w)
    (savedDeviceConfiguration w).
Definition set_m_paused (v : bool) (w : World) : World :=
  MkWorld (m_device w) (m_microphone w) (m_pendingDeviceConfiguration w)
    (m_colorSettingsCache w) (m_cameraTimeoutCounter w)
    (m_imuTimeoutCounter w) (m_cameraDataSource w) (m_imuDataSource w)
    (m_syncInConnected w) (m_syncOutConnected w) (m_firstRun w) v
    (m_currentViewType w) (errorStatus w) (windows w)
    (savedDeviceConfiguration w).
Definition set_m_currentViewType (v : ViewType) (w : World) : World :=
  MkWorld (m_device w) (m_microphone w) (m_pendingDeviceConfiguration w)
    (m_colorSettingsCache w) (m_cameraTimeoutCounter w)
    (m_imuTimeoutCounter w) (m_cameraDataSource w) (m_imuDataSource w)
    (m_syncInConnected w) (m_syncOutConnected w) (m_firstRun w) (m_paused w)
    v (errorStatus w) (windows w) (savedDeviceConfiguration w).
Definition set_errorStatus (v : K4AViewerErrorManager) (w : World) : World :=
  MkWorld (m_device w) (m_microphone w) (m_pendingDeviceConfiguration w)
    (m_colorSettingsCache w) (m_cameraTimeoutCounter w)
    (m_imuTimeoutCounter w) (m_cameraDataSource w) (m_imuDataSource w)
    (m_syncInConnected w) (m_syncOutConnected w) (m_firstRun w) (m_paused w)
    (m_currentViewType w) v (windows w) (savedDeviceConfiguration w).
Definition set_windows (v : list WindowEvent) (w : World) : World :=
  MkWorld (m_device w) (m_microphone w) (m_pendingDeviceConfiguration w)
    (m_colorSettingsCache w) (m_cameraTimeoutCounter w)
    (m_imuTimeoutCounter w) (m_cameraDataSource w) (m_imuDataSource w)
    (m_syncInConnected w) (m_syncOutConnected w) (m_firstRun w) (m_paused w)
    (m_currentViewType w) (errorStatus w) v (savedDeviceConfiguration w).
Definition set_savedDeviceConfiguration (v : K4ADeviceConfiguration) (w : World) : World :=
  MkWorld (m_device w) (m_microphone w) (m_pendingDeviceConfiguration w)
    (m_colorSettingsCache w) (m_cameraTimeoutCounter w)
    (m_imuTimeoutCounter w) (m_cameraDataSource w) (m_imuDataSource w)
    (m_syncInConnected w) (m_syncOutConnected w) (m_firstRun w) (m_paused w)
    (m_currentViewType w) (errorStatus w) (windows w) v.

(* ------------------------------------------------------------------ *)
(** *** [K4ADevice] and [K4AMicrophone] methods *)

Definition called (c : DeviceCall (k4a_device_configuration_t ext))
    (h : Hardware ext) (d : K4ADevice) : K4ADevice :=
  MkDevice h (calls d ++ [c]).

Definition Device_GetSerialNumber (d : K4ADevice) : string :=
  sdk_GetSerialNumber ext (hw d).

Definition Device_CamerasAreStarted (d : K4ADevice) : bool :=
  sdk_CamerasAreStarted ext (hw d).

Definition Device_ImuIsStarted (d : K4ADevice) : bool :=
  sdk_ImuIsStarted ext (hw d).

Definition Device_PollCameras (d : K4ADevice)
  : k4a_wait_result_t * option (K4ACapture ext) * K4ADevice :=
  let '(status, capture, h) := sdk_PollCameras ext (hw d) in
  (status, capture, called CallPollCameras h d).

Definition Device_PollImu (d : K4ADevice) (sample : k4a_imu_sample_t ext)
  : k4a_wait_result_t * k4a_imu_sample_t ext * K4ADevice :=
  let '(status, sample', h) := sdk_PollImu ext (hw d) sample in
  (status, sample', called CallPollImu h d).

Definition Device_StopCameras (d : K4ADevice) : K4ADevice :=
  called CallStopCameras (sdk_StopCameras ext (hw d)) d.

Definition Device_StopImu (d : K4ADevice) : K4ADevice :=
  called CallStopImu (sdk_StopImu ext (hw d)) d.

Definition Device_StartCameras
    (deviceConfig : k4a_device_configuration_t ext) (d : K4ADevice)
  : k4a_result_t * K4ADevice :=
  let '(result, h) := sdk_StartCameras ext deviceConfig (hw d) in
  (result, called (CallStartCameras deviceConfig) h d).

Definition Device_StartImu (d : K4ADevice) : k4a_result_t * K4ADevice :=
  let '(result, h) := sdk_StartImu ext (hw d) in
  (result, called CallStartImu h d).

Definition Device_SetColorControl (command : k4a_color_control_command_t)
    (mode : k4a_color_control_mode_t) (value : Z) (d : K4ADevice)
  : k4a_result_t * K4ADevice :=
  let '(result, h) := sdk_SetColorControl ext command mode value (hw d) in
  (result, called (CallSetColorControl command mode value) h d).

Definition Device_GetColorControl (command : k4a_color_control_command_t)
    (modeAndValue : ColorSetting) (d : K4ADevice)
  : k4a_result_t * ColorSetting * K4ADevice :=
  let '(result, modeAndValue', h) :=
    sdk_GetColorControl ext command modeAndValue (hw d) in
  (result, modeAndValue', called (CallGetColorControl command) h d).

Definition Device_GetSyncCablesConnected (syncIn syncOut : bool)
    (d : K4ADevice) : k4a_result_t * (bool * bool) * K4ADevice :=
  let '(result, cables, h) :=
    sdk_GetSyncCablesConnected ext syncIn syncOut (hw d) in
  (result, cables, called CallGetSyncCablesConnected h d).

Definition Device_GetCalibrationTransformData
    (depthMode : k4a_depth_mode_t) (colorResolution : k4a_color_resolution_t)
    (d : K4ADevice) : k4a_result_t * K4ADevice :=
  let '(result, h) :=
    sdk_GetCalibrationTransformData ext depthMode colorResolution (hw d) in
  (result,
   called (CallGetCalibrationTransformData depthMode colorResolution) h d).

Definition Mic_IsStarted (m : K4AMicrophone) : bool :=
  mic_IsStarted ext (mic_hw m).

Definition Mic_GetStatusCode (m : K4AMicrophone) : Z :=
  mic_GetStatusCode ext (mic_hw m).

Definition Mic_Start (m : K4AMicrophone) : Z * K4AMicrophone :=
  let '(result, h) := mic_Start ext (mic_hw m) in
  (result, MkMicrophone h (mic_calls m ++ [CallMicStart])).

Definition Mic_Stop (m : K4AMicrophone) : K4AMicrophone :=
  MkMicrophone (mic_Stop ext (mic_hw m)) (mic_calls m ++ [CallMicStop]).

Definition Mic_CreateListener (m : K4AMicrophone) : K4AMicrophone :=
  MkMicrophone (mic_hw m) (mic_calls m ++ [CallCreateListener]).

Definition pushError (msg : string) (w : World) : World :=
  set_errorStatus (SetErrorStatus msg (errorStatus w)) w.

Definition pushWindowEvent (e : WindowEvent) (w : World) : World :=
  set_windows (windows w ++ [e]) w.

(* ------------------------------------------------------------------ *)
(** *** Color settings *)

(** [K4ADeviceDockControl::ReadColorSetting(command, cacheEntry)]: the
    result is the new content of [cacheEntry] and the world afterwards. *)
Definition ReadColorSetting (command : k4a_color_control_command_t)
    (cacheEntry : ColorSetting) (w : World) : ColorSetting * World :=
  let '(result, cacheEntry', d) :=
    Device_GetColorControl command cacheEntry (m_device w) in
  let w := set_m_device d w in
  let w :=
    if negb (result_eqb K4A_RESULT_SUCCEEDED result) then
      pushError ("Failed to read color parameter: " ++
                 command_to_string ext command ++ "!")%string w
    else w in
  (cacheEntry', w).

(** [K4ADeviceDockControl::ApplyColorSetting(command, cacheEntry)]. *)
Definition ApplyColorSetting (command : k4a_color_control_command_t)
    (cacheEntry : ColorSetting) (w : World) : ColorSetting * World :=
  let '(result, d) :=
    Device_SetColorControl command (Mode cacheEntry) (Value cacheEntry)
                           (m_device w) in
  let w := set_m_device d w in
  let w :=
    if negb (result_eqb K4A_RESULT_SUCCEEDED result) then
      pushError ("Failed to adjust color parameter: " ++
                 command_to_string ext command ++ "!")%string w
    else w in
  (* The camera can decide to set a different value than the one we give
     it: read it back from the camera and cache that instead. *)
  ReadColorSetting command cacheEntry w.

(** A call [f(command, m_colorSettingsCache.X)] with the entry passed by
    reference. *)
Definition onCacheEntry (entry : CacheEntryRef)
    (f : ColorSetting -> World -> ColorSetting * World) (w : World) : World :=
  let '(cacheEntry', w') := f (entry_get entry (m_colorSettingsCache w)) w in
  set_m_colorSettingsCache
    (entry_set entry cacheEntry' (m_colorSettingsCache w')) w'.

(** [m_colorSettingsCache.X = { mode, value };] *)
Definition assignCacheEntry (entry : CacheEntryRef)
    (mode : k4a_color_control_mode_t) (value : Z) (w : World) : World :=
  set_m_colorSettingsCache
    (entry_set entry (MkColorSetting mode value) (m_colorSettingsCache w)) w.

(** [K4ADeviceDockControl::ApplyDefaultColorSettings()]. *)
Definition ApplyDefaultColorSettings (w : World) : World :=
  let w := assignCacheEntry ref_ExposureTimeUs
             K4A_COLOR_CONTROL_MODE_AUTO 15625 w in
  let w := onCacheEntry ref_ExposureTimeUs
             (ApplyColorSetting K4A_COLOR_CONTROL_EXPOSURE_TIME_ABSOLUTE) w in

  let w := assignCacheEntry ref_WhiteBalance
             K4A_COLOR_CONTROL_MODE_AUTO 4500 w in
  let w := onCacheEntry ref_WhiteBalance
             (ApplyColorSetting K4A_COLOR_CONTROL_WHITEBALANCE) w in

  let w := assignCacheEntry ref_AutoExposurePriority
             K4A_COLOR_CONTROL_MODE_MANUAL 1 w in
  let w := onCacheEntry ref_AutoExposurePriority
             (ApplyColorSetting K4A_COLOR_CONTROL_AUTO_EXPOSURE_PRIORITY) w in

  let w := assignCacheEntry ref_Brightness
             K4A_COLOR_CONTROL_MODE_MANUAL 128 w in
  let w := onCacheEntry ref_Brightness
             (ApplyColorSetting K4A_COLOR_CONTROL_BRIGHTNESS) w in

  let w := assignCacheEntry ref_Contrast
             K4A_COLOR_CONTROL_MODE_MANUAL 5 w in
  let w := onCacheEntry ref_Contrast
             (ApplyColorSetting K4A_COLOR_CONTROL_CONTRAST) w in

  let w := assignCacheEntry ref_Saturation
             K4A_COLOR_CONTROL_MODE_MANUAL 32 w in
  let w := onCacheEntry ref_Saturation
             (ApplyColorSetting K4A_COLOR_CONTROL_SATURATION) w in

  let w := assignCacheEntry ref_Sharpness
             K4A_COLOR_CONTROL_MODE_MANUAL 2 w in
  let w := onCacheEntry ref_Sharpness
             (ApplyColorSetting K4A_COLOR_CONTROL_SHARPNESS) w in

  let w := assignCacheEntry ref_BacklightCompensation
             K4A_COLOR_CONTROL_MODE_MANUAL 0 w in
  let w := onCacheEntry ref_BacklightCompensation
             (ApplyColorSetting K4A_COLOR_CONTROL_BACKLIGHT_COMPENSATION) w in

  let w := assignCacheEntry ref_Gain
             K4A_COLOR_CONTROL_MODE_MANUAL 0 w in
  let w := onCacheEntry ref_Gain
             (ApplyColorSetting K4A_COLOR_CONTROL_GAIN) w in

  let w := assignCacheEntry ref_PowerlineFrequency
             K4A_COLOR_CONTROL_MODE_MANUAL 2 w in
  onCacheEntry ref_PowerlineFrequency
    (ApplyColorSetting K4A_COLOR_CONTROL_POWERLINE_FREQUENCY) w.

(** [K4ADeviceDockControl::LoadColorSettingsCache()]. *)
Definition LoadColorSettingsCache (w : World) : World :=
  let w := onCacheEntry ref_ExposureTimeUs
             (ReadColorSetting K4A_COLOR_CONTROL_EXPOSURE_TIME_ABSOLUTE) w in
  let w := onCacheEntry ref_WhiteBalance
             (ReadColorSetting K4A_COLOR_CONTROL_WHITEBALANCE) w in
  let w := onCacheEntry ref_AutoExposurePriority
             (ReadColorSetting K4A_COLOR_CONTROL_AUTO_EXPOSURE_PRIORITY) w in
  let w := onCacheEntry ref_Brightness
             (ReadColorSetting K4A_COLOR_CONTROL_BRIGHTNESS) w in
  let w := onCacheEntry ref_Contrast
             (ReadColorSetting K4A_COLOR_CONTROL_CONTRAST) w in
  let w := onCacheEntry ref_Saturation
             (ReadColorSetting K4A_COLOR_CONTROL_SATURATION) w in
  let w := onCacheEntry ref_Sharpness
             (ReadColorSetting K4A_COLOR_CONTROL_SHARPNESS) w in
  let w := onCacheEntry ref_BacklightCompensation
             (ReadColorSetting K4A_COLOR_CONTROL_BACKLIGHT_COMPENSATION) w in
  let w := onCacheEntry ref_Gain
             (ReadColorSetting K4A_COLOR_CONTROL_GAIN) w in
  onCacheEntry ref_PowerlineFrequency
    (ReadColorSetting K4A_COLOR_CONTROL_POWERLINE_FREQUENCY) w.

(** [K4ADeviceDockControl::RefreshSyncCableStatus()]. *)
Definition RefreshSyncCableStatus (w : World) : World :=
  let '(result, (syncIn, syncOut), d) :=
    Device_GetSyncCablesConnected (m_syncInConnected w)
                                  (m_syncOutConnected w) (m_device w) in
  let w := set_m_syncOutConnected syncOut
             (set_m_syncInConnected syncIn (set_m_device d w)) in
  if negb (result_eqb result K4A_RESULT_SUCCEEDED) then
    pushError "Failed to read sync cable state!" w
  else w.

(** [K4ADeviceDockControl::DeviceIsStarted()]. *)
Definition DeviceIsStarted (w : World) : bool :=
  Device_CamerasAreStarted (m_device w) || Device_ImuIsStarted (m_device w)
  || match m_microphone w with
     | Some mic => Mic_IsStarted mic
     | None => false
     end.

(* ------------------------------------------------------------------ *)
(** *** Polling *)

(** The camera poll function passed to [PollSensor]. *)
Definition pollCamerasFn : PollFn K4ADevice (option (K4ACapture ext)) :=
  fun device _ =>
    let '(status, p, device') := Device_PollCameras device in
    (status, p, device').

(** The [while] loop of the IMU poll function.  [fuel] bounds the number
    of further iterations; the result is the last status, the content of
    [result], the device and [gotSample]. *)
Fixpoint drainImu (fuel : nat) (device : K4ADevice)
    (result : k4a_imu_sample_t ext) (gotSample : bool)
  : k4a_wait_result_t * k4a_imu_sample_t ext * K4ADevice * bool :=
  let '(status, result', device') := Device_PollImu device result in
  if wait_result_eqb K4A_WAIT_RESULT_SUCCEEDED status then
    match fuel with
    | S fuel' => drainImu fuel' device' result' true
    | O => (status, result', device', true)
    end
  else
    (status, result', device', gotSample).

(** The IMU poll function passed to [PollSensor]: drain the queue.  The
    queue holds at most [imu_pending] samples, which bounds the loop. *)
Definition pollImuFn : PollFn K4ADevice (k4a_imu_sample_t ext) :=
  fun device result =>
    let '(status, result', device', gotSample) :=
      drainImu (imu_pending ext (hw device)) device result false in
    let status :=
      if gotSample && wait_result_eqb status K4A_WAIT_RESULT_TIMEOUT
      then K4A_WAIT_RESULT_SUCCEEDED else status in
    (status, result', device').

(** [K4ADeviceDockControl::StopMicrophone()]. *)
Definition StopMicrophone (w : World) : World :=
  match m_microphone w with
  | Some mic => set_m_microphone (Some (Mic_Stop mic)) w
  | None => w
  end.

Definition pollCameras (w : World) : World :=
  let r := PollSensor Device_GetSerialNumber None "Cameras"
             pollCamerasFn Device_StopCameras
             (MkSensorRefs (m_device w) (m_cameraTimeoutCounter w)
                           (m_cameraDataSource w) (errorStatus w)) in
  set_errorStatus (errorManager r)
    (set_m_cameraDataSource (dataSource r)
       (set_m_cameraTimeoutCounter (timeoutCounter r)
          (set_m_device (device r) w))).

Definition pollImu (w : World) : World :=
  let r := PollSensor Device_GetSerialNumber (imu_sample_uninitialized ext)
             "IMU" pollImuFn Device_StopImu
             (MkSensorRefs (m_device w) (m_imuTimeoutCounter w)
                           (m_imuDataSource w) (errorStatus w)) in
  set_errorStatus (errorManager r)
    (set_m_imuDataSource (dataSource r)
       (set_m_imuTimeoutCounter (timeoutCounter r)
          (set_m_device (device r) w))).

Definition checkMicrophone (w : World) : World :=
  match m_microphone w with
  | Some mic =>
      if negb (Mic_GetStatusCode mic =? SoundIoErrorNone) then
        StopMicrophone
          (pushError ("Microphone on device " ++
                      Device_GetSerialNumber (m_device w) ++ " failed!")%string
                     w)
      else w
  | None => w
  end.

(** [K4ADeviceDockControl::PollDevice()]. *)
Definition PollDevice (w : World) : World :=
  let w := if Device_CamerasAreStarted (m_device w) then pollCameras w
           else w in
  let w := if Device_ImuIsStarted (m_device w) then pollImu w else w in
  checkMicrophone w.

(* ------------------------------------------------------------------ *)
(** *** Starting and stopping *)

(** The character written [\n] in C++. *)
Definition newline : ascii := ascii_of_nat 10.

(** [K4ADeviceDockControl::StartCameras()]. *)
Definition StartCameras (w : World) : bool * World :=
  if Device_CamerasAreStarted (m_device w) then (false, w)
  else
    let deviceConfig :=
      ToK4ADeviceConfiguration ext (m_pendingDeviceConfiguration w) in
    let '(result, d) := Device_StartCameras deviceConfig (m_device w) in
    let w := set_m_device d w in
    if negb (result_eqb result K4A_RESULT_SUCCEEDED) then
      (false,
       pushError ("Failed to start device!" ++ String newline
          "If you unplugged the device, you must close and reopen the device.")
         %string w)
    else (true, w).

(** [K4ADeviceDockControl::StartMicrophone()]. *)
Definition StartMicrophone (w : World) : bool * World :=
  match m_microphone w with
  | None =>
      (false,
       pushError ("Failed to find microphone for device: " ++
                  Device_GetSerialNumber (m_device w) ++ "!")%string w)
  | Some mic =>
      if Mic_IsStarted mic then (false, w)
      else
        let '(startResult, mic') := Mic_Start mic in
        let w := set_m_microphone (Some mic') w in
        if negb (startResult =? SoundIoErrorNone) then
          (false,
           pushError ("Failed to start microphone: " ++
                      soundio_strerror ext startResult ++ "!")%string w)
        else (true, w)
  end.

(** [K4ADeviceDockControl::StartImu()]. *)
Definition StartImu (w : World) : bool * World :=
  if Device_ImuIsStarted (m_device w) then (false, w)
  else
    let '(startResult, d) := Device_StartImu (m_device w) in
    let w := set_m_device d w in
    if negb (result_eqb startResult K4A_RESULT_SUCCEEDED) then
      (false, pushError "Failed to start IMU!" w)
    else (true, w).

(** [K4ADeviceDockControl::SetViewType(viewType)].  In the [Normal] case
    the C++ calls [m_microphone->CreateListener()] whenever
    [EnableMicrophone] is set; with no microphone that dereferences a null
    pointer, and the C++ has no defined result.  The function is total
    here (it goes on without a listener), but that branch stands for no
    behaviour of the code; [listenerAvailable] is the condition that
    excludes it. *)
Definition SetViewType (viewType : ViewType) (w : World) : World :=
  let w := pushWindowEvent ClearWindows w in
  let cfg := m_pendingDeviceConfiguration w in
  match viewType with
  | Normal =>
      let '(listener, w) :=
        if EnableMicrophone cfg then
          match m_microphone w with
          | Some mic =>
              (true, set_m_microphone (Some (Mic_CreateListener mic)) w)
          | None => (false, w)
          end
        else (false, w) in
      let w := pushWindowEvent
                 (StartNormalWindows listener
                    (EnableDepthCamera cfg) (DepthMode cfg)
                    (EnableColorCamera cfg) (ColorFormat cfg)
                    (ColorResolution cfg)) w in
      set_m_currentViewType viewType w
  | PointCloudViewer =>
      let '(getCalibrationResult, d) :=
        Device_GetCalibrationTransformData (DepthMode cfg)
          (ColorResolution cfg) (m_device w) in
      let w := set_m_device d w in
      if negb (result_eqb getCalibrationResult K4A_RESULT_SUCCEEDED) then
        pushError "Failed to get calibration data!" w
      else
        let w := pushWindowEvent (StartPointCloudWindow (DepthMode cfg)) w in
        set_m_currentViewType viewType w
  end.

(** [K4ADeviceDockControl::Start()]. *)
Definition Start (w : World) : World :=
  let enableCameras :=
    EnableColorCamera (m_pendingDeviceConfiguration w)
    || EnableDepthCamera (m_pendingDeviceConfiguration w) in
  let w := if enableCameras then snd (StartCameras w) else w in
  let w := if EnableImu (m_pendingDeviceConfiguration w)
           then snd (StartImu w) else w in
  let w := if EnableMicrophone (m_pendingDeviceConfiguration w)
           then snd (StartMicrophone w) else w in
  let w := SetViewType Normal w in
  set_m_paused false w.

(** [K4ADeviceDockControl::Stop()]. *)
Definition Stop (w : World) : World :=
  let w := pushWindowEvent ClearWindows w in
  let w := set_m_device (Device_StopCameras (m_device w)) w in
  let w := set_m_device (Device_StopImu (m_device w)) w in
  StopMicrophone w.

(** [K4ADeviceDockControl::ApplyDefaultConfiguration()]. *)
Definition ApplyDefaultConfiguration (w : World) : World :=
  set_m_pendingDeviceConfiguration (savedDeviceConfiguration w) w.

(** [K4ADeviceDockControl::SaveDefaultConfiguration()]. *)
Definition SaveDefaultConfiguration (w : World) : World :=
  set_savedDeviceConfiguration (m_pendingDeviceConfiguration w) w.

(** [K4ADeviceDockControl::ResetDefaultConfiguration()]. *)
Definition ResetDefaultConfiguration (w : World) : World :=
  SaveDefaultConfiguration
    (set_m_pendingDeviceConfiguration (defaultDeviceConfiguration ext) w).

(* ------------------------------------------------------------------ *)
(** *** Color controls *)

(** [K4ADeviceDockControl::ShowColorControlAutoButton(currentMode,
    actionToUpdate, id)]: the new content of [actionToUpdate]. *)
Definition ShowColorControlAutoButton (io : FrameInput)
    (currentMode : k4a_color_control_mode_t)
    (actionToUpdate : ColorControlAction.t) (id : string)
  : ColorControlAction.t :=
  if color_mode_eqb currentMode K4A_COLOR_CONTROL_MODE_MANUAL then
    if activatedIn io id "A" then ColorControlAction.SetAutomatic
    else actionToUpdate
  else
    if activatedIn io id "M" then ColorControlAction.SetManual
    else actionToUpdate.

(** [K4ADeviceDockControl::ShowColorControl(command, cacheEntry,
    showControl)]; [showControl] returns the action and the new content of
    the entry it was given. *)
Definition ShowColorControl (command : k4a_color_control_command_t)
    (showControl : ColorSetting -> ColorControlAction.t * ColorSetting)
    (cacheEntry : ColorSetting) (w : World) : ColorSetting * World :=
  let '(action, cacheEntry) := showControl cacheEntry in
  match action with
  | ColorControlAction.None => (cacheEntry, w)
  | ColorControlAction.SetManual =>
      ApplyColorSetting command
        (MkColorSetting K4A_COLOR_CONTROL_MODE_MANUAL (Value cacheEntry)) w
  | ColorControlAction.SetAutomatic =>
      ApplyColorSetting command
        (MkColorSetting K4A_COLOR_CONTROL_MODE_AUTO (Value cacheEntry)) w
  end.

Definition manualIf (changed : bool) : ColorControlAction.t :=
  if changed then ColorControlAction.SetManual else ColorControlAction.None.

(** The lambdas given to [ShowColorControl] in [Show]. *)
Definition showExposureTime (io : FrameInput) (cacheEntry : ColorSetting)
  : ColorControlAction.t * ColorSetting :=
  let '(changed, v) :=
    K4ASlider io "Exposure Time" (Value cacheEntry)
      (color_mode_eqb (Mode cacheEntry) K4A_COLOR_CONTROL_MODE_MANUAL) in
  let result := manualIf changed in
  let cacheEntry := MkColorSetting (Mode cacheEntry) v in
  (ShowColorControlAutoButton io (Mode cacheEntry) result "exposure",
   cacheEntry).

Definition showWhiteBalance (io : FrameInput) (cacheEntry : ColorSetting)
  : ColorControlAction.t * ColorSetting :=
  let '(changed, v) :=
    K4ASlider io "White Balance" (Value cacheEntry)
      (color_mode_eqb (Mode cacheEntry) K4A_COLOR_CONTROL_MODE_MANUAL) in
  let result := manualIf changed in
  (* White balance must be stepped in units of 10. *)
  let v := if changed then v - Z.rem v 10 else v in
  let cacheEntry := MkColorSetting (Mode cacheEntry) v in
  (ShowColorControlAutoButton io (Mode cacheEntry) result "whitebalance",
   cacheEntry).

Definition showSlider (io : FrameInput) (label : string)
    (cacheEntry : ColorSetting) : ColorControlAction.t * ColorSetting :=
  let '(changed, v) := SliderInt io label (Value cacheEntry) in
  (manualIf changed, MkColorSetting (Mode cacheEntry) v).

Definition showCheckbox (io : FrameInput) (label : string)
    (cacheEntry : ColorSetting) : ColorControlAction.t * ColorSetting :=
  let '(changed, v) := CheckboxOnInt32 io label (Value cacheEntry) in
  (manualIf changed, MkColorSetting (Mode cacheEntry) v).

Definition showPowerlineFrequency (io : FrameInput)
    (cacheEntry : ColorSetting) : ColorControlAction.t * ColorSetting :=
  let '(u1, v) := RadioButton io "50Hz" (Value cacheEntry) 1 in
  let '(u2, v) := RadioButton io "60Hz" v 2 in
  (manualIf (u1 || u2), MkColorSetting (Mode cacheEntry) v).

(** The body of [if (ImGui::TreeNode("Color Controls"))] in [Show]. *)
Definition ShowColorControls (io : FrameInput) (w : World) : World :=
  let w := onCacheEntry ref_ExposureTimeUs
             (ShowColorControl K4A_COLOR_CONTROL_EXPOSURE_TIME_ABSOLUTE
                               (showExposureTime io)) w in
  let w := onCacheEntry ref_WhiteBalance
             (ShowColorControl K4A_COLOR_CONTROL_WHITEBALANCE
                               (showWhiteBalance io)) w in
  let w := onCacheEntry ref_Brightness
             (ShowColorControl K4A_COLOR_CONTROL_BRIGHTNESS
                               (showSlider io "Brightness")) w in
  let w := onCacheEntry ref_Contrast
             (ShowColorControl K4A_COLOR_CONTROL_CONTRAST
                               (showSlider io "Contrast")) w in
  let w := onCacheEntry ref_Saturation
             (ShowColorControl K4A_COLOR_CONTROL_SATURATION
                               (showSlider io "Saturation")) w in
  let w := onCacheEntry ref_Sharpness
             (ShowColorControl K4A_COLOR_CONTROL_SHARPNESS
                               (showSlider io "Sharpness")) w in
  let w := onCacheEntry ref_Gain
             (ShowColorControl K4A_COLOR_CONTROL_GAIN
                               (showSlider io "Gain")) w in
  let w := onCacheEntry ref_AutoExposurePriority
             (ShowColorControl K4A_COLOR_CONTROL_AUTO_EXPOSURE_PRIORITY
                (showCheckbox io "Auto Exposure Priority")) w in
  let w := onCacheEntry ref_BacklightCompensation
             (ShowColorControl K4A_COLOR_CONTROL_BACKLIGHT_COMPENSATION
                (showCheckbox io "Backlight Compensation")) w in
  let w := onCacheEntry ref_PowerlineFrequency
             (ShowColorControl K4A_COLOR_CONTROL_POWERLINE_FREQUENCY
                               (showPowerlineFrequency io)) w in
  if Button io "Reset to default##RGB" then ApplyDefaultColorSettings w
  else w.

(* ------------------------------------------------------------------ *)
(** *** The configuration widgets of [Show]

    Calls that only draw ([ImGui::Text], [SameLine], [Indent],
    [Separator], [PushItemWidth], the button color changers, the firmware
    version node) change nothing the program reads back and are left out. *)

(** [updated |= K4ARadioButton(label, &field, vButton, enabled)] on a
    field of the pending configuration. *)
Definition radioOn {A : Type} (io : FrameInput) (label : string)
    (get : K4ADeviceConfiguration -> A)
    (set : A -> K4ADeviceConfiguration -> K4ADeviceConfiguration)
    (vButton : A) (enabled : bool)
    (acc : bool * K4ADeviceConfiguration) : bool * K4ADeviceConfiguration :=
  let '(updated, cfg) := acc in
  let '(pressed, v) := K4ARadioButton io label (get cfg) vButton enabled in
  (updated || pressed, set v cfg).

(** [K4ACheckbox(label, &field, enabled)] on a field of the pending
    configuration. *)
Definition checkboxOn (io : FrameInput) (label : string)
    (get : K4ADeviceConfiguration -> bool)
    (set : bool -> K4ADeviceConfiguration -> K4ADeviceConfiguration)
    (enabled : bool) (cfg : K4ADeviceConfiguration)
  : bool * K4ADeviceConfiguration :=
  let '(changed, v) := K4ACheckbox io label (get cfg) enabled in
  (changed, set v cfg).

(** The five depth mode radio buttons, each
    [depthModeUpdated |= K4ARadioButton(...)]. *)
Definition DepthModeButtons (io : FrameInput) (depthSettingsEditable : bool)
    (acc : bool * K4ADeviceConfiguration) : bool * K4ADeviceConfiguration :=
  let acc := radioOn io "NFOV Binned" DepthMode set_DepthMode
               K4A_DEPTH_MODE_NFOV_2X2BINNED depthSettingsEditable acc in
  let acc := radioOn io "NFOV Unbinned  " DepthMode set_DepthMode
               K4A_DEPTH_MODE_NFOV_UNBINNED depthSettingsEditable acc in
  let acc := radioOn io "WFOV Binned" DepthMode set_DepthMode
               K4A_DEPTH_MODE_WFOV_2X2BINNED depthSettingsEditable acc in
  let acc := radioOn io "WFOV Unbinned  " DepthMode set_DepthMode
               K4A_DEPTH_MODE_WFOV_UNBINNED depthSettingsEditable acc in
  radioOn io "Passive IR" DepthMode set_DepthMode
          K4A_DEPTH_MODE_PASSIVE_IR depthSettingsEditable acc.

(** The body of [if (ImGui::TreeNode("Depth Configuration"))]. *)
Definition DepthConfigurationNode (io : FrameInput)
    (deviceIsStarted firstRun depthEnabledStateChanged : bool)
    (cfg : K4ADeviceConfiguration) : K4ADeviceConfiguration :=
  let depthSettingsEditable := negb deviceIsStarted && EnableDepthCamera cfg in
  let '(depthModeUpdated, cfg) :=
    DepthModeButtons io depthSettingsEditable
                     (depthEnabledStateChanged, cfg) in
  if depthModeUpdated || firstRun then
    if depth_mode_eqb (DepthMode cfg) K4A_DEPTH_MODE_WFOV_UNBINNED then
      set_Framerate K4A_FRAMES_PER_SECOND_15 cfg
    else cfg
  else cfg.

(** Whether the "Depth Configuration" node is open in this frame. *)
Definition depthNodeOpen (io : FrameInput)
    (firstRun depthEnabledStateChanged : bool)
    (cfg : K4ADeviceConfiguration) : bool :=
  TreeNode io "Depth Configuration"
    (if firstRun || depthEnabledStateChanged
     then Some (EnableDepthCamera cfg) else None).

(** From the "Enable Depth Camera" checkbox to the end of the depth
    node. *)
Definition ShowDepthCamera (io : FrameInput)
    (deviceIsStarted firstRun : bool) (cfg : K4ADeviceConfiguration)
  : K4ADeviceConfiguration :=
  let '(depthEnabledStateChanged, cfg) :=
    checkboxOn io "Enable Depth Camera" EnableDepthCamera
               set_EnableDepthCamera (negb deviceIsStarted) cfg in
  if depthNodeOpen io firstRun depthEnabledStateChanged cfg then
    DepthConfigurationNode io deviceIsStarted firstRun
                           depthEnabledStateChanged cfg
  else cfg.

Definition imageFormatSupportsHighResolution (cfg : K4ADeviceConfiguration)
  : bool :=
  negb (image_format_eqb (ColorFormat cfg) K4A_IMAGE_FORMAT_COLOR_NV12)
  && negb (image_format_eqb (ColorFormat cfg) K4A_IMAGE_FORMAT_COLOR_YUY2).

(** The four color format radio buttons, each
    [colorFormatUpdated |= K4ARadioButton(...)]. *)
Definition ColorFormatButtons (io : FrameInput) (colorSettingsEditable : bool)
    (acc : bool * K4ADeviceConfiguration) : bool * K4ADeviceConfiguration :=
  let acc := radioOn io "MJPG" ColorFormat set_ColorFormat
               K4A_IMAGE_FORMAT_COLOR_MJPG colorSettingsEditable acc in
  let acc := radioOn io "BGRA" ColorFormat set_ColorFormat
               K4A_IMAGE_FORMAT_COLOR_BGRA32 colorSettingsEditable acc in
  let acc := radioOn io "NV12" ColorFormat set_ColorFormat
               K4A_IMAGE_FORMAT_COLOR_NV12 colorSettingsEditable acc in
  radioOn io "YUY2" ColorFormat set_ColorFormat
          K4A_IMAGE_FORMAT_COLOR_YUY2 colorSettingsEditable acc.

(** The format buttons, then: uncompressed formats are only supported at
    720p. *)
Definition ColorFormatPart (io : FrameInput)
    (colorSettingsEditable firstRun : bool) (cfg : K4ADeviceConfiguration)
  : K4ADeviceConfiguration :=
  let '(colorFormatUpdated, cfg) :=
    ColorFormatButtons io colorSettingsEditable (false, cfg) in
  if colorFormatUpdated || firstRun then
    if negb (imageFormatSupportsHighResolution cfg) then
      set_ColorResolution K4A_COLOR_RESOLUTION_720P cfg
    else cfg
  else cfg.

(** The six resolution radio buttons, each
    [colorResolutionUpdated |= K4ARadioButton(...)]. *)
Definition ColorResolutionButtons (io : FrameInput)
    (colorSettingsEditable highRes : bool)
    (acc : bool * K4ADeviceConfiguration) : bool * K4ADeviceConfiguration :=
  let acc := radioOn io " 720p" ColorResolution set_ColorResolution
               K4A_COLOR_RESOLUTION_720P colorSettingsEditable acc in
  let acc := radioOn io "1080p" ColorResolution set_ColorResolution
               K4A_COLOR_RESOLUTION_1080P
               (colorSettingsEditable && highRes) acc in
  let acc := radioOn io "1440p" ColorResolution set_ColorResolution
               K4A_COLOR_RESOLUTION_1440P
               (colorSettingsEditable && highRes) acc in
  let acc := radioOn io "2160p" ColorResolution set_ColorResolution
               K4A_COLOR_RESOLUTION_2160P
               (colorSettingsEditable && highRes) acc in
  let acc := radioOn io "1536p" ColorResolution set_ColorResolution
               K4A_COLOR_RESOLUTION_1536P
               (colorSettingsEditable && highRes) acc in
  radioOn io "3072p" ColorResolution set_ColorResolution
          K4A_COLOR_RESOLUTION_3072P
          (colorSettingsEditable && highRes) acc.

(** The body of [if (ImGui::TreeNode("Color Configuration"))].  The
    constant [imageFormatSupportsHighResolution] is computed once, after
    the format buttons; it reads [ColorFormat] only, which nothing after
    those buttons writes. *)
Definition ColorConfigurationNode (io : FrameInput)
    (deviceIsStarted firstRun colorEnableStateChanged : bool)
    (cfg : K4ADeviceConfiguration) : K4ADeviceConfiguration :=
  let colorSettingsEditable := negb deviceIsStarted && EnableColorCamera cfg in
  let cfg := ColorFormatPart io colorSettingsEditable firstRun cfg in
  let '(colorResolutionUpdated, cfg) :=
    ColorResolutionButtons io colorSettingsEditable
      (imageFormatSupportsHighResolution cfg)
      (colorEnableStateChanged, cfg) in
  if colorResolutionUpdated || firstRun then
    if color_resolution_eqb (ColorResolution cfg) K4A_COLOR_RESOLUTION_3072P
    then
      (* 4K supports up to 15FPS *)
      set_Framerate K4A_FRAMES_PER_SECOND_15 cfg
    else cfg
  else cfg.

(** Whether the "Color Configuration" node is open in this frame. *)
Definition colorNodeOpen (io : FrameInput)
    (firstRun colorEnableStateChanged : bool)
    (cfg : K4ADeviceConfiguration) : bool :=
  TreeNode io "Color Configuration"
    (if firstRun || colorEnableStateChanged
     then Some (EnableColorCamera cfg) else None).

(** From the "Enable Color Camera" checkbox to the end of the color
    configuration node. *)
Definition ShowColorCamera (io : FrameInput)
    (deviceIsStarted firstRun : bool) (cfg : K4ADeviceConfiguration)
  : K4ADeviceConfiguration :=
  let '(colorEnableStateChanged, cfg) :=
    checkboxOn io "Enable Color Camera" EnableColorCamera
               set_EnableColorCamera (negb deviceIsStarted) cfg in
  if colorNodeOpen io firstRun colorEnableStateChanged cfg then
    ColorConfigurationNode io deviceIsStarted firstRun
                           colorEnableStateChanged cfg
  else cfg.

Definition supports30fps (cfg : K4ADeviceConfiguration) : bool :=
  negb (EnableColorCamera cfg
        && color_resolution_eqb (ColorResolution cfg)
                                K4A_COLOR_RESOLUTION_3072P)
  && negb (EnableDepthCamera cfg
           && depth_mode_eqb (DepthMode cfg) K4A_DEPTH_MODE_WFOV_UNBINNED).

Definition enableFramerate (deviceIsStarted : bool)
    (cfg : K4ADeviceConfiguration) : bool :=
  negb deviceIsStarted && (EnableColorCamera cfg || EnableDepthCamera cfg).

(** The [enabled] argument of the "30 FPS" radio button. *)
Definition fps30Selectable (deviceIsStarted : bool)
    (cfg : K4ADeviceConfiguration) : bool :=
  enableFramerate deviceIsStarted cfg && supports30fps cfg.

(** The three framerate radio buttons. *)
Definition ShowFramerate (io : FrameInput) (deviceIsStarted : bool)
    (cfg : K4ADeviceConfiguration) : K4ADeviceConfiguration :=
  let supports30fps := supports30fps cfg in
  let enableFramerate := enableFramerate deviceIsStarted cfg in
  let acc := (false, cfg) in
  let acc := radioOn io "30 FPS" Framerate set_Framerate
               K4A_FRAMES_PER_SECOND_30
               (enableFramerate && supports30fps) acc in
  let acc := radioOn io "15 FPS" Framerate set_Framerate
               K4A_FRAMES_PER_SECOND_15 enableFramerate acc in
  let acc := radioOn io " 5 FPS" Framerate set_Framerate
               K4A_FRAMES_PER_SECOND_5 enableFramerate acc in
  snd acc.

Definition synchronizedImagesAvailable (cfg : K4ADeviceConfiguration)
  : bool :=
  EnableColorCamera cfg && EnableDepthCamera cfg.

(** [m_pendingDeviceConfiguration.SynchronizedImagesOnly &=
    synchronizedImagesAvailable;] *)
Definition clearSynchronizedImagesOnly (cfg : K4ADeviceConfiguration)
  : K4ADeviceConfiguration :=
  set_SynchronizedImagesOnly
    (SynchronizedImagesOnly cfg && synchronizedImagesAvailable cfg) cfg.

(** From the "Disable streaming LED" checkbox to the microphone
    checkbox. *)
Definition ShowSensorToggles (io : FrameInput) (deviceIsStarted : bool)
    (haveMicrophone : bool) (cfg : K4ADeviceConfiguration)
  : K4ADeviceConfiguration :=
  let cfg := snd (checkboxOn io "Disable streaming LED"
                    DisableStreamingIndicator set_DisableStreamingIndicator
                    (negb deviceIsStarted) cfg) in
  let cfg := snd (checkboxOn io "Enable IMU" EnableImu set_EnableImu
                    (negb deviceIsStarted) cfg) in
  let cfg := clearSynchronizedImagesOnly cfg in
  if haveMicrophone then
    snd (checkboxOn io "Enable Microphone" EnableMicrophone
           set_EnableMicrophone (negb deviceIsStarted) cfg)
  else
    set_EnableMicrophone false cfg.

(** The "Internal Sync" node.  The C++ reuses the constant
    [synchronizedImagesAvailable] computed before the microphone checkbox;
    the two flags it reads are not written in between, so computing it
    here gives the same value. *)
Definition ShowInternalSync (io : FrameInput) (deviceIsStarted : bool)
    (cfg : K4ADeviceConfiguration) : K4ADeviceConfiguration :=
  if TreeNode io "Internal Sync" None then
    let cfg := snd (checkboxOn io "Synchronized images only"
                      SynchronizedImagesOnly set_SynchronizedImagesOnly
                      (negb deviceIsStarted
                       && synchronizedImagesAvailable cfg) cfg) in
    set_DepthDelayOffColorUsec
      (snd (K4AInputScalar io "Depth delay (us)"
              (DepthDelayOffColorUsec cfg) (negb deviceIsStarted))) cfg
  else cfg.

(** The "External Sync" node. *)
Definition ShowExternalSync (io : FrameInput) (deviceIsStarted : bool)
    (w : World) : World :=
  if TreeNode io "External Sync"
       (if m_firstRun w && (m_syncInConnected w || m_syncOutConnected w)
        then Some true else None) then
    let w := if Button io "Refresh" then RefreshSyncCableStatus w else w in
    let cfg := m_pendingDeviceConfiguration w in
    let syncModesSupported :=
      (m_syncInConnected w || m_syncOutConnected w)
      && (EnableColorCamera cfg || EnableDepthCamera cfg) in
    let cfg := if negb syncModesSupported
               then set_WiredSyncMode K4A_WIRED_SYNC_MODE_STANDALONE cfg
               else cfg in
    let acc := (false, cfg) in
    let acc := radioOn io "Standalone" WiredSyncMode set_WiredSyncMode
                 K4A_WIRED_SYNC_MODE_STANDALONE (negb deviceIsStarted) acc in
    let acc := radioOn io "Master" WiredSyncMode set_WiredSyncMode
                 K4A_WIRED_SYNC_MODE_MASTER
                 (negb deviceIsStarted && syncModesSupported) acc in
    let acc := radioOn io "Sub" WiredSyncMode set_WiredSyncMode
                 K4A_WIRED_SYNC_MODE_SUBORDINATE
                 (negb deviceIsStarted && syncModesSupported) acc in
    let cfg := snd acc in
    let cfg := set_SubordinateDelayOffMasterUsec
                 (snd (K4AInputScalar io "Delay off master (us)"
                         (SubordinateDelayOffMasterUsec cfg)
                         (negb deviceIsStarted))) cfg in
    set_m_pendingDeviceConfiguration cfg w
  else w.

(** Widgets that are handed fields of [m_pendingDeviceConfiguration]:
    [edit w] is what they do to the configuration, given the members they
    read. *)
Definition onPending
    (edit : World -> K4ADeviceConfiguration -> K4ADeviceConfiguration)
    (w : World) : World :=
  set_m_pendingDeviceConfiguration
    (edit w (m_pendingDeviceConfiguration w)) w.

(** [if (ImGui::TreeNode("Color Controls")) { ... }]. *)
Definition ShowColorControlsNode (io : FrameInput) (w : World) : World :=
  if TreeNode io "Color Controls" None then ShowColorControls io w else w.

(** [m_microphone] is not null. *)
Definition haveMicrophone (w : World) : bool :=
  match m_microphone w with Some _ => true | None => false end.

(** The "Restore", "Save" and "Reset" buttons. *)
Definition ShowSettingsButtons (io : FrameInput) (deviceIsStarted : bool)
    (w : World) : World :=
  let w := if K4AButton io "Restore" (negb deviceIsStarted)
           then ApplyDefaultConfiguration w else w in
  let w := if K4AButton io "Save" (negb deviceIsStarted)
           then SaveDefaultConfiguration w else w in
  if K4AButton io "Reset" (negb deviceIsStarted)
  then ResetDefaultConfiguration w else w.

(** The "Start" button, or "Stop", the view selector and
    "Pause"/"Resume". *)
Definition ShowStartStop (io : FrameInput) (deviceIsStarted : bool)
    (w : World) : World :=
  let cfg := m_pendingDeviceConfiguration w in
  let enableCameras := EnableColorCamera cfg || EnableDepthCamera cfg in
  if negb deviceIsStarted then
    let validStartMode :=
      enableCameras || EnableMicrophone cfg || EnableImu cfg in
    if K4AButton io "Start" validStartMode then Start w else w
  else
    let w := if K4AButton io "Stop" true then Stop w else w in
    let cfg := m_pendingDeviceConfiguration w in
    let pointCloudViewerAvailable :=
      EnableDepthCamera cfg
      && negb (depth_mode_eqb (DepthMode cfg) K4A_DEPTH_MODE_PASSIVE_IR)
      && Device_CamerasAreStarted (m_device w) in
    let '(viewType, change) :=
      ShowModeSelector ext io (m_currentViewType w) true
                       pointCloudViewerAvailable in
    let w := set_m_currentViewType viewType w in
    let w := match change with
             | Some t => SetViewType t w
             | None => w
             end in
    if m_paused w then
      if Button io "Resume" then set_m_paused false w else w
    else
      if Button io "Pause" then set_m_paused true w else w.

(** The configuration part of the panel: from the "Enable Depth Camera"
    checkbox to the "Reset" button. *)
Definition ShowConfiguration (io : FrameInput) (deviceIsStarted : bool)
    (w : World) : World :=
  let w := onPending
             (fun w => ShowDepthCamera io deviceIsStarted (m_firstRun w)) w in
  let w := onPending
             (fun w => ShowColorCamera io deviceIsStarted (m_firstRun w)) w in
  let w := ShowColorControlsNode io w in
  let w := onPending (fun _ => ShowFramerate io deviceIsStarted) w in
  let w := onPending
             (fun w => ShowSensorToggles io deviceIsStarted (haveMicrophone w))
             w in
  let w := onPending (fun _ => ShowInternalSync io deviceIsStarted) w in
  let w := ShowExternalSync io deviceIsStarted w in
  ShowSettingsButtons io deviceIsStarted w.

(** Everything [Show] does after polling. *)
Definition ShowControls (io : FrameInput) (deviceIsStarted : bool)
    (w : World) : World :=
  let w := ShowConfiguration io deviceIsStarted w in
  let w := ShowStartStop io deviceIsStarted w in
  set_m_firstRun false w.

(** [K4ADeviceDockControl::Show()]. *)
Definition Show (io : FrameInput) (w : World) : World :=
  if Button io "Close device" then
    pushWindowEvent PopDockControl w
  else
    let deviceIsStarted := DeviceIsStarted w in
    let w := if negb (m_paused w) then PollDevice w else w in
    ShowControls io deviceIsStarted w.

End DockControl.

Arguments MkDevice {ext}.
Arguments MkMicrophone {ext}.
Arguments MkWorld {ext}.

(* ================================================================== *)
(** ** Concrete sensors and a simulated device

    Small closed instances on which the definitions above run; the
    examples and instances among the properties below are stated on
    them. *)

(** A device that is just the journal of what was done to it, polled
    for a number. *)
Definition Journal : Type := list string.

Definition journalSerial : Journal -> string := fun _ => "000123"%string.

Definition silentPoll : PollFn Journal Z :=
  fun d x => (K4A_WAIT_RESULT_TIMEOUT, x, d ++ ["poll"%string]).

Definition brokenPoll : PollFn Journal Z :=
  fun d x => (K4A_WAIT_RESULT_FAILED, x, d ++ ["poll"%string]).

Definition goodPoll : PollFn Journal Z :=
  fun d x => (K4A_WAIT_RESULT_SUCCEEDED, 7, d ++ ["poll"%string]).

Definition journalStop : StopFn Journal := fun d => d ++ ["stop"%string].

Definition journalRefs (counter : Z) : SensorRefs Journal Z :=
  MkSensorRefs [] counter (MkDataSource []) (MkErrorManager []).

(** A simulated camera: started flags, a queue of IMU samples (numbers)
    and what an empty queue answers, the replies the camera queue will
    give, and color-control registers that keep values within 0..255. *)
Record SimHardware : Type := MkSim {
  sim_camerasStarted : bool;
  sim_imuStarted : bool;
  sim_cameraReplies : list (k4a_wait_result_t * option Z);
  sim_imuQueue : list Z;
  sim_imuBroken : bool;
  sim_color : k4a_color_control_command_t -> ColorSetting
}.

Definition command_eqb (a b : k4a_color_control_command_t) : bool :=
  match a, b with
  | K4A_COLOR_CONTROL_EXPOSURE_TIME_ABSOLUTE,
    K4A_COLOR_CONTROL_EXPOSURE_TIME_ABSOLUTE
  | K4A_COLOR_CONTROL_AUTO_EXPOSURE_PRIORITY,
    K4A_COLOR_CONTROL_AUTO_EXPOSURE_PRIORITY
  | K4A_COLOR_CONTROL_BRIGHTNESS, K4A_COLOR_CONTROL_BRIGHTNESS
  | K4A_COLOR_CONTROL_CONTRAST, K4A_COLOR_CONTROL_CONTRAST
  | K4A_COLOR_CONTROL_SATURATION, K4A_COLOR_CONTROL_SATURATION
  | K4A_COLOR_CONTROL_SHARPNESS, K4A_COLOR_CONTROL_SHARPNESS
  | K4A_COLOR_CONTROL_WHITEBALANCE, K4A_COLOR_CONTROL_WHITEBALANCE
  | K4A_COLOR_CONTROL_BACKLIGHT_COMPENSATION,
    K4A_COLOR_CONTROL_BACKLIGHT_COMPENSATION
  | K4A_COLOR_CONTROL_GAIN, K4A_COLOR_CONTROL_GAIN
  | K4A_COLOR_CONTROL_POWERLINE_FREQUENCY,
    K4A_COLOR_CONTROL_POWERLINE_FREQUENCY => true
  | _, _ => false
  end.

Definition sim_PollCameras (h : SimHardware)
  : k4a_wait_result_t * option Z * SimHardware :=
  match sim_cameraReplies h with
  | [] => (K4A_WAIT_RESULT_TIMEOUT, None, h)
  | (status, capture) :: rest =>
      (status, capture,
       MkSim (sim_camerasStarted h) (sim_imuStarted h) rest
             (sim_imuQueue h) (sim_imuBroken h) (sim_color h))
  end.

Definition sim_PollImu (h : SimHardware) (sample : Z)
  : k4a_wait_result_t * Z * SimHardware :=
  match sim_imuQueue h with
  | [] =>
      (if sim_imuBroken h then K4A_WAIT_RESULT_FAILED
       else K4A_WAIT_RESULT_TIMEOUT, sample, h)
  | s :: rest =>
      (K4A_WAIT_RESULT_SUCCEEDED, s,
       MkSim (sim_camerasStarted h) (sim_imuStarted h)
             (sim_cameraReplies h) rest (sim_imuBroken h) (sim_color h))
  end.

Definition sim_setStarted (cameras imu : bool) (h : SimHardware)
  : SimHardware :=
  MkSim cameras imu (sim_cameraReplies h) (sim_imuQueue h)
        (sim_imuBroken h) (sim_color h).

Definition sim_SetColorControl (command : k4a_color_control_command_t)
    (mode : k4a_color_control_mode_t) (value : Z) (h : SimHardware)
  : k4a_result_t * SimHardware :=
  (K4A_RESULT_SUCCEEDED,
   MkSim (sim_camerasStarted h) (sim_imuStarted h) (sim_cameraReplies h)
         (sim_imuQueue h) (sim_imuBroken h)
         (fun c => if command_eqb c command
                   then MkColorSetting mode (Z.max 0 (Z.min 255 value))
                   else sim_color h c)).

Definition sim_PollImu_consumes (h : SimHardware) (x x' : Z)
    (h' : SimHardware)
    (H : sim_PollImu h x = (K4A_WAIT_RESULT_SUCCEEDED, x', h'))
  : (List.length (sim_imuQueue h') < List.length (sim_imuQueue h))%nat.
Proof.
  unfold sim_PollImu in H. destruct (sim_imuQueue h) as [|s rest] eqn:E.
  - destruct (sim_imuBroken h); discriminate H.
  - injection H as _ <-. simpl. apply Nat.lt_succ_diag_r.
Defined.

Definition simExternals : K4AExternals :=
  {| Hardware := SimHardware;
     MicHardware := bool * Z;
     K4ACapture := Z;
     k4a_imu_sample_t := Z;
     k4a_device_configuration_t := K4ADeviceConfiguration;
     sdk_GetSerialNumber := fun _ => "000123"%string;
     sdk_CamerasAreStarted := sim_camerasStarted;
     sdk_ImuIsStarted := sim_imuStarted;
     sdk_PollCameras := sim_PollCameras;
     sdk_PollImu := sim_PollImu;
     sdk_StopCameras := fun h => sim_setStarted false (sim_imuStarted h) h;
     sdk_StopImu := fun h => sim_setStarted (sim_camerasStarted h) false h;
     sdk_StartCameras := fun _ h =>
       (K4A_RESULT_SUCCEEDED, sim_setStarted true (sim_imuStarted h) h);
     sdk_StartImu := fun h =>
       (K4A_RESULT_SUCCEEDED, sim_setStarted (sim_camerasStarted h) true h);
     sdk_SetColorControl := sim_SetColorControl;
     sdk_GetColorControl := fun command _ h =>
       (K4A_RESULT_SUCCEEDED, sim_color h command, h);
     sdk_GetSyncCablesConnected := fun _ _ h =>
       (K4A_RESULT_SUCCEEDED, (false, false), h);
     sdk_GetCalibrationTransformData := fun _ _ h =>
       (K4A_RESULT_SUCCEEDED, h);
     mic_IsStarted := fst;
     mic_GetStatusCode := snd;
     mic_Start := fun m => (0, (true, snd m));
     mic_Stop := fun m => (false, snd m);
     imu_sample_uninitialized := 0;
     ToK4ADeviceConfiguration := fun cfg => cfg;
     defaultDeviceConfiguration :=
       MkConfiguration true true K4A_IMAGE_FORMAT_COLOR_MJPG
         K4A_COLOR_RESOLUTION_720P K4A_DEPTH_MODE_NFOV_UNBINNED
         K4A_FRAMES_PER_SECOND_30 0 K4A_WIRED_SYNC_MODE_STANDALONE 0
         false true true true;
     command_to_string := fun _ => "command"%string;
     soundio_strerror := fun _ => "error"%string;
     ShowModeSelector := fun _ viewType _ _ => (viewType, None);
     imu_pending := fun h => List.length (sim_imuQueue h);
     imu_queue_finite := sim_PollImu_consumes |}.

Definition simHardware (camerasStarted imuStarted : bool)
    (imuQueue : list Z) : SimHardware :=
  MkSim camerasStarted imuStarted [] imuQueue false
        (fun _ => MkColorSetting K4A_COLOR_CONTROL_MODE_MANUAL 0).

Definition simCache : ColorSettingsCache :=
  let zero := MkColorSetting K4A_COLOR_CONTROL_MODE_MANUAL 0 in
  MkColorSettingsCache zero zero zero zero zero zero zero zero zero zero.

(** A dock control on the simulated device, without a microphone. *)
Definition simWorld (h : SimHardware) (cfg : K4ADeviceConfiguration)
    (firstRun paused : bool) : World simExternals :=
  MkWorld (MkDevice (h : Hardware simExternals) []) None cfg simCache 0 0
          (MkDataSource []) (MkDataSource []) false false firstRun paused
          Normal (MkErrorManager []) [] cfg.

(** A frame in which the user touches nothing and every tree node is
    collapsed. *)
Definition quietInput : FrameInput :=
  MkFrameInput (fun _ => false) (fun _ _ => false) (fun _ => false)
               (fun _ => None) (fun _ => None) (fun _ v => v).

(** A frame in which the user presses exactly one button. *)
Definition pressOnly (label : string) : FrameInput :=
  MkFrameInput (fun l => String.eqb l label) (fun _ _ => false)
               (fun _ => false) (fun _ => None) (fun _ => None)
               (fun _ v => v).

(** A saved configuration with the depth camera disabled but its mode
    left at WFOV Unbinned, at 30 FPS. *)
Definition wideDepthDisabled : K4ADeviceConfiguration :=
  MkConfiguration true false K4A_IMAGE_FORMAT_COLOR_MJPG
    K4A_COLOR_RESOLUTION_720P K4A_DEPTH_MODE_WFOV_UNBINNED
    K4A_FRAMES_PER_SECOND_30 0 K4A_WIRED_SYNC_MODE_STANDALONE 0
    false false false false.

(** The same with the depth camera enabled. *)
Definition wideDepthEnabled : K4ADeviceConfiguration :=
  set_EnableDepthCamera true wideDepthDisabled.

(** A configuration asking for synchronized images with the depth camera
    disabled. *)
Definition syncOnlyWithoutDepth : K4ADeviceConfiguration :=
  set_SynchronizedImagesOnly true wideDepthDisabled.

(* ================================================================== *)
(** ** Reading the call logs *)

Definition isPollCameras {C} (c : DeviceCall C) : bool :=
  match c with CallPollCameras => true | _ => false end.

Definition isPollImu {C} (c : DeviceCall C) : bool :=
  match c with CallPollImu => true | _ => false end.

Definition isStart {C} (c : DeviceCall C) : bool :=
  match c with CallStartCameras _ | CallStartImu => true | _ => false end.

Definition count {A} (p : A -> bool) (l : list A) : nat :=
  List.length (filter p l).

(** The error strings of [ApplyColorSetting] and [ReadColorSetting]. *)
Definition adjustFailure (ext : K4AExternals)
    (command : k4a_color_control_command_t) : string :=
  ("Failed to adjust color parameter: " ++ command_to_string ext command
   ++ "!")%string.

Definition readFailure (ext : K4AExternals)
    (command : k4a_color_control_command_t) : string :=
  ("Failed to read color parameter: " ++ command_to_string ext command
   ++ "!")%string.

(** [callsAdded P w w']: from [w] to [w'] the device received further
    calls only, each of which satisfies [P]. *)
Definition callsAdded {ext} (P : DeviceCall (k4a_device_configuration_t ext)
                                 -> Prop)
    (w w' : World ext) : Prop :=
  exists l, calls ext (m_device ext w') = calls ext (m_device ext w) ++ l
            /\ Forall P l.

(** Successive successful IMU polls: starting from hardware [h] with the
    output sample holding [x], the polls deliver [samples] in order, and
    the next poll returns [status], which is not success, leaving [x'] in
    the output sample and the hardware as [h']. *)
Inductive ImuQueueRun (ext : K4AExternals)
  : Hardware ext -> k4a_imu_sample_t ext -> list (k4a_imu_sample_t ext) ->
    k4a_wait_result_t -> k4a_imu_sample_t ext -> Hardware ext -> Prop :=
| run_end h x status x' h' :
    sdk_PollImu ext h x = (status, x', h') ->
    status <> K4A_WAIT_RESULT_SUCCEEDED ->
    ImuQueueRun ext h x [] status x' h'
| run_sample h x s h1 samples status x' h' :
    sdk_PollImu ext h x = (K4A_WAIT_RESULT_SUCCEEDED, s, h1) ->
    ImuQueueRun ext h1 s samples status x' h' ->
    ImuQueueRun ext h x (s :: samples) status x' h'.

(** [deviceStep P w w']: a step that leaves the pending configuration
    alone and makes only device calls satisfying [P]. *)
Definition deviceStep {ext} (P : DeviceCall (k4a_device_configuration_t ext)
                                 -> Prop)
    (w w' : World ext) : Prop :=
  m_pendingDeviceConfiguration ext w' = m_pendingDeviceConfiguration ext w
  /\ callsAdded P w w'.

(** Kinds of device calls a predicate on calls lets through. *)
Definition AllowsColor {C} (P : DeviceCall C -> Prop) : Prop :=
  (forall c m v, P (CallSetColorControl c m v))
  /\ (forall c, P (CallGetColorControl c)).

Definition AllowsStop {C} (P : DeviceCall C -> Prop) : Prop :=
  P CallStopCameras /\ P CallStopImu.

Definition AllowsPoll {C} (P : DeviceCall C -> Prop) : Prop :=
  P CallPollCameras /\ P CallPollImu.

Definition AllowsCalibration {C} (P : DeviceCall C -> Prop) : Prop :=
  forall d r, P (CallGetCalibrationTransformData d r).

Definition AllowsSync {C} (P : DeviceCall C -> Prop) : Prop :=
  P CallGetSyncCablesConnected.

(** The start calls [Start] can make from a given pending
    configuration. *)
Definition AllowsStart {ext} (P : DeviceCall (k4a_device_configuration_t ext)
                                  -> Prop)
    (cfg : K4ADeviceConfiguration) : Prop :=
  P (CallStartCameras (ToK4ADeviceConfiguration ext cfg)) /\ P CallStartImu.

(** [SynchronizedImagesOnly] implies that both cameras are enabled. *)
Definition syncOnlyConsistent (cfg : K4ADeviceConfiguration) : bool :=
  implb (SynchronizedImagesOnly cfg) (synchronizedImagesAvailable cfg).

(** A frame in which the user only operates widgets bound to the pending
    configuration: no button is pressed, the color controls are folded
    away and the view selector is left alone. *)
Definition editsConfigurationOnly (ext : K4AExternals) (io : FrameInput)
  : Prop :=
  activated io "Close device" = false
  /\ nodeOpen io "Color Controls" = false
  /\ activated io "Refresh" = false
  /\ activated io "Restore" = false
  /\ activated io "Save" = false
  /\ activated io "Reset" = false
  /\ activated io "Start" = false
  /\ activated io "Stop" = false
  /\ activated io "Pause" = false
  /\ activated io "Resume" = false
  /\ (forall viewType enabled pointCloud,
         ShowModeSelector ext io viewType enabled pointCloud
         = (viewType, None)).

(* ================================================================== *)
(** ** Sequences of poll results *)

(** The timeout counter after a sequence of poll results, oldest first:
    [HasTimedOut] applied to each in turn. *)
Definition counterAfter (results : list k4a_wait_result_t) (c : Z) : Z :=
  fold_left (fun c r => snd (HasTimedOut r c)) results c.

(** The number of timeouts among [results] since the last success; a
    failed poll in between neither counts nor starts the count again. *)
Definition timeoutsSinceSuccess (results : list k4a_wait_result_t) : nat :=
  fold_left (fun n r => match r with
                        | K4A_WAIT_RESULT_SUCCEEDED => O
                        | K4A_WAIT_RESULT_TIMEOUT => S n
                        | K4A_WAIT_RESULT_FAILED => n
                        end) results O.

(** A sensor whose device is the list of results its next polls will
    give (an exhausted list times out); stopping it changes nothing. *)
Definition scriptedPoll : PollFn (list k4a_wait_result_t) Z :=
  fun d x => match d with
             | [] => (K4A_WAIT_RESULT_TIMEOUT, x, [])
             | status :: rest => (status, x, rest)
             end.

Definition scriptedRefs (script : list k4a_wait_result_t) (counter : Z)
  : SensorRefs (list k4a_wait_result_t) Z :=
  MkSensorRefs script counter (MkDataSource []) (MkErrorManager []).

(* ================================================================== *)
(** ** Frames that leave the color controls alone *)

(** The user touches none of the widgets in the "Color Controls" node. *)
Definition colorControlsUntouched (io : FrameInput) : Prop :=
  (sliderValue io "Exposure Time" = None
   /\ sliderValue io "White Balance" = None
   /\ sliderValue io "Brightness" = None
   /\ sliderValue io "Contrast" = None
   /\ sliderValue io "Saturation" = None
   /\ sliderValue io "Sharpness" = None
   /\ sliderValue io "Gain" = None)
  /\ (activatedIn io "exposure" "A" = false
      /\ activatedIn io "exposure" "M" = false
      /\ activatedIn io "whitebalance" "A" = false
      /\ activatedIn io "whitebalance" "M" = false)
  /\ (activated io "Auto Exposure Priority" = false
      /\ activated io "Backlight Compensation" = false
      /\ activated io "50Hz" = false
      /\ activated io "60Hz" = false
      /\ activated io "Reset to default##RGB" = false).

(* ================================================================== *)
(** ** Parts of the state a step leaves alone *)

(** A reading [proj] of the state that does not depend on the member
    written by the setter [set]. *)
Definition ignores {ext : K4AExternals} {A B : Type}
    (set : B -> World ext -> World ext) (proj : World ext -> A) : Prop :=
  forall v w, proj (set v w) = proj w.

(** What only polling writes: the two timeout counters and what the two
    data sources have broadcast. *)
Definition sensorState {ext : K4AExternals} (w : World ext)
  : Z * Z * K4ADataSource (option (K4ACapture ext))
    * K4ADataSource (k4a_imu_sample_t ext) :=
  (m_cameraTimeoutCounter ext w, m_imuTimeoutCounter ext w,
   m_cameraDataSource ext w, m_imuDataSource ext w).

(** Successive UI frames, oldest first. *)
Definition ShowFrames (ext : K4AExternals) (ios : list FrameInput)
    (w : World ext) : World ext :=
  fold_left (fun w io => Show ext io w) ios w.

Definition fps_eqb (a b : k4a_fps_t) : bool :=
  match a, b with
  | K4A_FRAMES_PER_SECOND_5, K4A_FRAMES_PER_SECOND_5
  | K4A_FRAMES_PER_SECOND_15, K4A_FRAMES_PER_SECOND_15
  | K4A_FRAMES_PER_SECOND_30, K4A_FRAMES_PER_SECOND_30 => true
  | _, _ => false
  end.

(** Uncompressed formats are only supported at 720p: the color resolution
    is one the color format allows. *)
Definition resolutionFitsFormat (cfg : K4ADeviceConfiguration) : bool :=
  imageFormatSupportsHighResolution cfg
  || color_resolution_eqb (ColorResolution cfg) K4A_COLOR_RESOLUTION_720P.

(** The framerate is one the enabled cameras can run at: 30 FPS only if
    [supports30fps]. *)
Definition framerateSupported (cfg : K4ADeviceConfiguration) : bool :=
  supports30fps cfg
  || negb (fps_eqb (Framerate cfg) K4A_FRAMES_PER_SECOND_30).

(** What the configuration widgets before the "External Sync" node do to
    the pending configuration, in the order of the code. *)
Definition editedConfiguration (io : FrameInput)
    (deviceIsStarted firstRun haveMicrophone : bool)
    (cfg : K4ADeviceConfiguration) : K4ADeviceConfiguration :=
  ShowInternalSync io deviceIsStarted
    (ShowSensorToggles io deviceIsStarted haveMicrophone
       (ShowFramerate io deviceIsStarted
          (ShowColorCamera io deviceIsStarted firstRun
             (ShowDepthCamera io deviceIsStarted firstRun cfg)))).

(** The simulated dock control with a microphone that is not started and
    reports the given status. *)
Definition simWorldWithMicrophone (h : SimHardware)
    (cfg : K4ADeviceConfiguration) (firstRun paused : bool) (status : Z)
  : World simExternals :=
  set_m_microphone simExternals
    (Some (MkMicrophone ((false, status) : MicHardware simExternals) []))
    (simWorld h cfg firstRun paused).

(** Calls that only a started device is sent: polls, stops and the
    calibration request of the point cloud view. *)
Definition startedOnly {C} (c : DeviceCall C) : bool :=
  match c with
  | CallPollCameras | CallPollImu | CallStopCameras | CallStopImu
  | CallGetCalibrationTransformData _ _ => true
  | _ => false
  end.

(** A frame in which the node with the given label is open and the user
    touches nothing. *)
Definition openOnly (label : string) : FrameInput :=
  MkFrameInput (fun _ => false) (fun _ _ => false)
               (fun l => String.eqb l label) (fun _ => None) (fun _ => None)
               (fun _ v => v).

(** A configuration with the color camera at 1080p in the NV12 format,
    which supports 720p only. *)
Definition uncompressed1080p : K4ADeviceConfiguration :=
  MkConfiguration true true K4A_IMAGE_FORMAT_COLOR_NV12
    K4A_COLOR_RESOLUTION_1080P K4A_DEPTH_MODE_NFOV_UNBINNED
    K4A_FRAMES_PER_SECOND_30 0 K4A_WIRED_SYNC_MODE_STANDALONE 0
    false true true false.

(** A configuration in master mode. *)
Definition masterMode : K4ADeviceConfiguration :=
  MkConfiguration true true K4A_IMAGE_FORMAT_COLOR_MJPG
    K4A_COLOR_RESOLUTION_720P K4A_DEPTH_MODE_NFOV_UNBINNED
    K4A_FRAMES_PER_SECOND_30 0 K4A_WIRED_SYNC_MODE_MASTER 0
    false true true false.

(** The simulated device with a camera whose color controls cannot be
    read: [GetColorControl] fails and leaves its output references as
    they are. *)
Definition unreadableExternals : K4AExternals :=
  {| Hardware := SimHardware;
     MicHardware := bool * Z;
     K4ACapture := Z;
     k4a_imu_sample_t := Z;
     k4a_device_configuration_t := K4ADeviceConfiguration;
     sdk_GetSerialNumber := fun _ => "000123"%string;
     sdk_CamerasAreStarted := sim_camerasStarted;
     sdk_ImuIsStarted := sim_imuStarted;
     sdk_PollCameras := sim_PollCameras;
     sdk_PollImu := sim_PollImu;
     sdk_StopCameras := fun h => sim_setStarted false (sim_imuStarted h) h;
     sdk_StopImu := fun h => sim_setStarted (sim_camerasStarted h) false h;
     sdk_StartCameras := fun _ h =>
       (K4A_RESULT_SUCCEEDED, sim_setStarted true (sim_imuStarted h) h);
     sdk_StartImu := fun h =>
       (K4A_RESULT_SUCCEEDED, sim_setStarted (sim_camerasStarted h) true h);
     sdk_SetColorControl := sim_SetColorControl;
     sdk_GetColorControl := fun _ setting h =>
       (K4A_RESULT_FAILED, setting, h);
     sdk_GetSyncCablesConnected := fun _ _ h =>
       (K4A_RESULT_SUCCEEDED, (false, false), h);
     sdk_GetCalibrationTransformData := fun _ _ h =>
       (K4A_RESULT_SUCCEEDED, h);
     mic_IsStarted := fst;
     mic_GetStatusCode := snd;
     mic_Start := fun m => (0, (true, snd m));
     mic_Stop := fun m => (false, snd m);
     imu_sample_uninitialized := 0;
     ToK4ADeviceConfiguration := fun cfg => cfg;
     defaultDeviceConfiguration := defaultDeviceConfiguration simExternals;
     command_to_string := fun _ => "command"%string;
     soundio_strerror := fun _ => "error"%string;
     ShowModeSelector := fun _ viewType _ _ => (viewType, None);
     imu_pending := fun h => List.length (sim_imuQueue h);
     imu_queue_finite := sim_PollImu_consumes |}.

(** A dock control on that device, without a microphone. *)
Definition unreadableWorld : World unreadableExternals :=
  MkWorld (MkDevice (simHardware false false [] : Hardware unreadableExternals)
                    [])
          None (defaultDeviceConfiguration unreadableExternals) simCache 0 0
          (MkDataSource []) (MkDataSource []) false false true false
          Normal (MkErrorManager []) []
          (defaultDeviceConfiguration unreadableExternals).

(** A frame in which the user drags every slider to 5005 and presses the
    "M" button of every color control. *)
Definition slidersDragged : FrameInput :=
  MkFrameInput (fun _ => false) (fun _ label => String.eqb label "M")
               (fun _ => false) (fun _ => Some 5005) (fun _ => None)
               (fun _ v => v).

(** What [SetViewType Normal], and so [Start], needs to be defined: the
    C++ dereferences [m_microphone] whenever [EnableMicrophone] is set, so
    a microphone has to be there then. *)
Definition listenerAvailable {ext : K4AExternals} (w : World ext) : bool :=
  implb (EnableMicrophone (m_pendingDeviceConfiguration ext w))
        (haveMicrophone ext w).

(* ================================================================== *)
(** * Properties *)

(* ================================================================== *)
(** ** [HasTimedOut] and [PollSensor] *)

Lemma wait_result_eqb_spec a b : reflect (a = b) (wait_result_eqb a b).
Proof. destruct a, b; simpl; constructor; congruence. Qed.

Lemma HasTimedOut_succeeded c :
  HasTimedOut K4A_WAIT_RESULT_SUCCEEDED c = (false, 0).
Proof. reflexivity. Qed.

Lemma HasTimedOut_failed c :
  HasTimedOut K4A_WAIT_RESULT_FAILED c = (true, c).
Proof. reflexivity. Qed.

Lemma HasTimedOut_timeout_below c :
  c < MaxTimeoutCount ->
  HasTimedOut K4A_WAIT_RESULT_TIMEOUT c = (false, c + 1).
Proof.
  intros H. unfold HasTimedOut. simpl.
  destruct (Z.ltb_spec c MaxTimeoutCount); [reflexivity | lia].
Qed.

Lemma HasTimedOut_timeout_at_limit c :
  MaxTimeoutCount <= c ->
  HasTimedOut K4A_WAIT_RESULT_TIMEOUT c = (true, c).
Proof.
  intros H. unfold HasTimedOut. simpl.
  destruct (Z.ltb_spec c MaxTimeoutCount); [lia | reflexivity].
Qed.

Section PollSensorFacts.

Context {Device T : Type}.
Variable GetSerialNumber : Device -> string.
Variable data0 : T.
Variable sensorFriendlyName : string.
Variable pollFn : PollFn Device T.
Variable stopFn : StopFn Device.

Local Abbreviation poll := (PollSensor GetSerialNumber data0 sensorFriendlyName
                             pollFn stopFn).
Local Abbreviation frames n := (PollFrames GetSerialNumber data0 n sensorFriendlyName
                                 pollFn stopFn).
Local Abbreviation polled r := (pollFn (device r) data0).

(** The three branches of [PollSensor], by the status [pollFn] returns. *)
Lemma PollSensor_on_success r :
  poll_status (polled r) = K4A_WAIT_RESULT_SUCCEEDED ->
  poll r = MkSensorRefs (poll_device (polled r)) 0
             (NotifyObservers (poll_data (polled r)) (dataSource r))
             (errorManager r).
Proof.
  unfold PollSensor, poll_status, poll_data, poll_device.
  destruct (pollFn (device r) data0) as [[st data] d1]; simpl.
  intros ->. reflexivity.
Qed.

Lemma PollSensor_on_failure r :
  poll_status (polled r) = K4A_WAIT_RESULT_FAILED ->
  poll r = MkSensorRefs (stopFn (poll_device (polled r))) (timeoutCounter r)
             (NotifyTermination (dataSource r))
             (SetErrorStatus
                (sensorFriendlyName ++ " on device " ++
                 GetSerialNumber (poll_device (polled r)) ++ " failed!")
                (errorManager r)).
Proof.
  unfold PollSensor, poll_status, poll_data, poll_device.
  destruct (pollFn (device r) data0) as [[st data] d1]; simpl.
  intros ->. reflexivity.
Qed.

Lemma PollSensor_on_timeout_below r :
  poll_status (polled r) = K4A_WAIT_RESULT_TIMEOUT ->
  timeoutCounter r < MaxTimeoutCount ->
  poll r = MkSensorRefs (poll_device (polled r)) (timeoutCounter r + 1)
             (dataSource r) (errorManager r).
Proof.
  unfold PollSensor, poll_status, poll_data, poll_device.
  destruct (pollFn (device r) data0) as [[st data] d1]; simpl.
  intros -> Hc. rewrite (HasTimedOut_timeout_below _ Hc). reflexivity.
Qed.

Lemma PollSensor_on_timeout_at_limit r :
  poll_status (polled r) = K4A_WAIT_RESULT_TIMEOUT ->
  MaxTimeoutCount <= timeoutCounter r ->
  poll r = MkSensorRefs (stopFn (poll_device (polled r))) (timeoutCounter r)
             (NotifyTermination (dataSource r))
             (SetErrorStatus
                (sensorFriendlyName ++ " on device " ++
                 GetSerialNumber (poll_device (polled r)) ++ " timed out!")
                (errorManager r)).
Proof.
  unfold PollSensor, poll_status, poll_data, poll_device.
  destruct (pollFn (device r) data0) as [[st data] d1]; simpl.
  intros -> Hc. rewrite (HasTimedOut_timeout_at_limit _ Hc). reflexivity.
Qed.

(** Consecutive timeouts starting from a counter at zero: the first 120
    only count.  [polledOnly data0 k pollFn (device r)] is the device the
    poll number [k + 1] is made on. *)
Lemma PollFrames_timeouts_counted r n :
  (forall k, (k < n)%nat ->
             poll_status (pollFn (polledOnly data0 k pollFn (device r)) data0)
             = K4A_WAIT_RESULT_TIMEOUT) ->
  timeoutCounter r = 0 ->
  (n <= 120)%nat ->
  frames n r = MkSensorRefs (polledOnly data0 n pollFn (device r))
                 (Z.of_nat n) (dataSource r) (errorManager r).
Proof.
  intros Hto H0. induction n as [|n IH]; intros Hn.
  - simpl. destruct r; simpl in *. subst. reflexivity.
  - cbn [PollFrames]. rewrite IH by (try lia; intros k Hk; apply Hto; lia).
    rewrite PollSensor_on_timeout_below; cbn [device timeoutCounter];
      [ | apply Hto; lia | unfold MaxTimeoutCount; lia ].
    cbn [polledOnly dataSource errorManager]. f_equal. lia.
Qed.

(** C1 (as amended). Whatever the sensor, a poll that times out
    increments the timeout counter only while the counter is below 120,
    and then does nothing else: the device is as [pollFn] left it
    ([stopFn] is not called), the data source and the error status are
    untouched.  With the counter at 120 or more the timeout is fatal and
    the counter is left as it is: an error status ending in " timed out!"
    is set, [stopFn] is called on the device and the data source is
    notified of termination.  Hence, from a counter at zero, if the first
    [n <= 120] polls time out they cause no stop and no termination
    notification and leave the counter at [n], and if the first 121 polls
    time out the 121st is fatal and leaves the counter at 120. *)
Theorem PollSensor_timeout_threshold :
  (forall r,
      poll_status (polled r) = K4A_WAIT_RESULT_TIMEOUT ->
      (timeoutCounter r < 120 ->
       poll r = MkSensorRefs (poll_device (polled r)) (timeoutCounter r + 1)
                  (dataSource r) (errorManager r))
      /\ (120 <= timeoutCounter r ->
          poll r = MkSensorRefs (stopFn (poll_device (polled r)))
                     (timeoutCounter r)
                     (NotifyTermination (dataSource r))
                     (SetErrorStatus
                        (sensorFriendlyName ++ " on device " ++
                         GetSerialNumber (poll_device (polled r)) ++
                         " timed out!")
                        (errorManager r))))
  /\ (forall r n,
         timeoutCounter r = 0 ->
         (n <= 120)%nat ->
         (forall k, (k < n)%nat ->
            poll_status (pollFn (polledOnly data0 k pollFn (device r)) data0)
            = K4A_WAIT_RESULT_TIMEOUT) ->
         frames n r = MkSensorRefs (polledOnly data0 n pollFn (device r))
                        (Z.of_nat n) (dataSource r) (errorManager r))
  /\ (forall r,
         timeoutCounter r = 0 ->
         (forall k, (k < 121)%nat ->
            poll_status (pollFn (polledOnly data0 k pollFn (device r)) data0)
            = K4A_WAIT_RESULT_TIMEOUT) ->
         frames 121 r =
           MkSensorRefs (stopFn (polledOnly data0 121 pollFn (device r))) 120
             (NotifyTermination (dataSource r))
             (SetErrorStatus
                (sensorFriendlyName ++ " on device " ++
                 GetSerialNumber (polledOnly data0 121 pollFn (device r)) ++
                 " timed out!")
                (errorManager r))).
Proof.
  split; [ | split ].
  - intros r Hto. split; intros Hc.
    + apply PollSensor_on_timeout_below; [exact Hto | exact Hc].
    + apply PollSensor_on_timeout_at_limit; [exact Hto | exact Hc].
  - intros r n H0 Hn Hto. apply PollFrames_timeouts_counted; assumption.
  - intros r H0 Hto.
    change (frames 121 r) with (poll (frames 120 r)).
    rewrite (PollFrames_timeouts_counted r 120) by
      (try lia; try exact H0; intros k Hk; apply Hto; lia).
    rewrite PollSensor_on_timeout_at_limit; cbn [device timeoutCounter];
      [ | apply Hto; lia | unfold MaxTimeoutCount; lia ].
    reflexivity.
Qed.

(** C3. A poll result that is neither success nor timeout is fatal at
    once, whatever the timeout counter holds: an error status (ending in
    " failed!") is set, [stopFn] is called on the device and the data
    source is notified of termination; the counter is left as it is. *)
Theorem PollSensor_failure_is_fatal r :
  poll_status (polled r) <> K4A_WAIT_RESULT_SUCCEEDED ->
  poll_status (polled r) <> K4A_WAIT_RESULT_TIMEOUT ->
  poll r = MkSensorRefs (stopFn (poll_device (polled r))) (timeoutCounter r)
             (NotifyTermination (dataSource r))
             (SetErrorStatus
                (sensorFriendlyName ++ " on device " ++
                 GetSerialNumber (poll_device (polled r)) ++ " failed!")
                (errorManager r)).
Proof.
  intros Hs Ht. apply PollSensor_on_failure.
  destruct (poll_status (polled r)); congruence.
Qed.

(** C4. A successful poll resets the timeout counter to zero, whatever
    it held, and notifies the observers with the polled payload; the
    device is as [pollFn] left it ([stopFn] is not called), no termination
    is notified and no error status is set. *)
Theorem PollSensor_success_resets r :
  poll_status (polled r) = K4A_WAIT_RESULT_SUCCEEDED ->
  poll r = MkSensorRefs (poll_device (polled r)) 0
             (MkDataSource
                (broadcast (dataSource r) ++ [Data (poll_data (polled r))]))
             (errorManager r).
Proof. intros Hs. apply PollSensor_on_success. exact Hs. Qed.

End PollSensorFacts.

Lemma PollSensor_timeout_threshold_witness :
  PollSensor (fun _ => "000123"%string) 0 "Cameras" scriptedPoll
             (fun d => d)
             (scriptedRefs [K4A_WAIT_RESULT_TIMEOUT;
                            K4A_WAIT_RESULT_SUCCEEDED] 0)
  = MkSensorRefs [K4A_WAIT_RESULT_SUCCEEDED] 1
                 (MkDataSource []) (MkErrorManager [])
  /\ PollFrames journalSerial 0 120 "Cameras" silentPoll journalStop
                (journalRefs 0)
     = MkSensorRefs (polledOnly 0 120 silentPoll []) 120
                    (MkDataSource []) (MkErrorManager [])
  /\ PollFrames journalSerial 0 121 "Cameras" silentPoll journalStop
                (journalRefs 0)
     = MkSensorRefs (polledOnly 0 121 silentPoll [] ++ ["stop"%string]) 120
                    (MkDataSource [Termination])
                    (MkErrorManager
                       ["Cameras on device 000123 timed out!"%string]).
Proof.
  split; [ | split ].
  - destruct (PollSensor_timeout_threshold (fun _ => "000123"%string) 0
                "Cameras" scriptedPoll (fun d => d))
      as [H _].
    apply (H (scriptedRefs [K4A_WAIT_RESULT_TIMEOUT;
                            K4A_WAIT_RESULT_SUCCEEDED] 0) eq_refl).
    reflexivity.
  - destruct (PollSensor_timeout_threshold journalSerial 0 "Cameras"
                silentPoll journalStop)
      as [_ [H120 _]].
    exact (H120 (journalRefs 0) 120%nat eq_refl (le_n 120)
                (fun _ _ => eq_refl)).
  - destruct (PollSensor_timeout_threshold journalSerial 0 "Cameras"
                silentPoll journalStop)
      as [_ [_ H121]].
    exact (H121 (journalRefs 0) eq_refl (fun _ _ => eq_refl)).
Defined.

(** C1, as stated, fails where the counter has reached the threshold: a
    timeout then leaves the counter at 120 instead of incrementing it. *)
Lemma PollSensor_timeout_not_counted_at_limit :
  timeoutCounter
    (PollSensor journalSerial 0 "Cameras" silentPoll journalStop
                (journalRefs 120)) = 120
  /\ ~ (forall r : SensorRefs Journal Z,
           timeoutCounter
             (PollSensor journalSerial 0 "Cameras" silentPoll journalStop r)
           = timeoutCounter r + 1).
Proof.
  split; [reflexivity | ].
  intros H. specialize (H (journalRefs 120)). discriminate H.
Qed.

Lemma PollSensor_failure_is_fatal_witness :
  PollSensor journalSerial 0 "IMU" brokenPoll journalStop (journalRefs 57)
  = MkSensorRefs ["poll"%string; "stop"%string] 57
                 (MkDataSource [Termination])
                 (MkErrorManager ["IMU on device 000123 failed!"%string]).
Proof.
  apply (PollSensor_failure_is_fatal journalSerial 0 "IMU" brokenPoll
           journalStop (journalRefs 57)); simpl; discriminate.
Defined.

Lemma PollSensor_success_resets_witness :
  PollSensor journalSerial 0 "IMU" goodPoll journalStop (journalRefs 57)
  = MkSensorRefs ["poll"%string] 0 (MkDataSource [Data 7])
                 (MkErrorManager []).
Proof.
  apply (PollSensor_success_resets journalSerial 0 "IMU" goodPoll
           journalStop (journalRefs 57)); reflexivity.
Defined.

(* ================================================================== *)
(** ** Color settings *)

Section ColorSettingFacts.

Variable ext : K4AExternals.

Local Abbreviation World := (World ext).
Local Abbreviation failed r := (negb (result_eqb K4A_RESULT_SUCCEEDED r)).

Lemma ReadColorSetting_eq command cacheEntry (w : World) :
  let read :=
    sdk_GetColorControl ext command cacheEntry (hw ext (m_device ext w)) in
  ReadColorSetting ext command cacheEntry w =
  (snd (fst read),
   set_errorStatus ext
     (MkErrorManager
        (statuses (errorStatus ext w) ++
         (if failed (fst (fst read)) then [readFailure ext command] else [])))
     (set_m_device ext
        (MkDevice (snd read)
           (calls ext (m_device ext w) ++ [CallGetColorControl command]))
        w)).
Proof.
  unfold ReadColorSetting, Device_GetColorControl, called.
  destruct (sdk_GetColorControl ext command cacheEntry _) as [[r e] h].
  destruct w as [? ? ? ? ? ? ? ? ? ? ? ? ? [errs] ? ?], r; cbn;
    rewrite ?app_nil_r; reflexivity.
Qed.

Lemma ApplyColorSetting_eq command cacheEntry (w : World) :
  let written :=
    sdk_SetColorControl ext command (Mode cacheEntry) (Value cacheEntry)
                        (hw ext (m_device ext w)) in
  let read := sdk_GetColorControl ext command cacheEntry (snd written) in
  ApplyColorSetting ext command cacheEntry w =
  (snd (fst read),
   set_errorStatus ext
     (MkErrorManager
        (statuses (errorStatus ext w) ++
         (if failed (fst written) then [adjustFailure ext command] else []) ++
         (if failed (fst (fst read)) then [readFailure ext command] else [])))
     (set_m_device ext
        (MkDevice (snd read)
           (calls ext (m_device ext w) ++
            [CallSetColorControl command (Mode cacheEntry) (Value cacheEntry);
             CallGetColorControl command]))
        w)).
Proof.
  unfold ApplyColorSetting, Device_SetColorControl, called.
  destruct (sdk_SetColorControl ext command _ _ _) as [r h1].
  cbn [fst snd]. rewrite ReadColorSetting_eq.
  destruct w as [? ? ? ? ? ? ? ? ? ? ? ? ? [errs] ? ?], r; cbn;
    rewrite <- ?app_assoc; reflexivity.
Qed.

(** C2 (as amended). [ApplyColorSetting] hands the entry's mode and
    value to [SetColorControl] and then, whatever that call returned,
    calls [GetColorControl] on the device as the write left it, with the
    entry's mode and value as the output references.  The content of the
    cache entry afterwards is what that call left in them: when the read
    succeeds, the mode and value the hardware reported; when it fails,
    whatever the failed call left there, together with an error status
    (the last one set), so that a read that fails without writing its
    outputs leaves the requested mode and value in the cache.  A failed
    write only adds an error status of its own. *)
Theorem ApplyColorSetting_caches_read_back command cacheEntry (w : World) :
  let written :=
    sdk_SetColorControl ext command (Mode cacheEntry) (Value cacheEntry)
                        (hw ext (m_device ext w)) in
  let read := sdk_GetColorControl ext command cacheEntry (snd written) in
  let after := ApplyColorSetting ext command cacheEntry w in
  fst after = snd (fst read)
  /\ calls ext (m_device ext (snd after)) =
     calls ext (m_device ext w) ++
     [CallSetColorControl command (Mode cacheEntry) (Value cacheEntry);
      CallGetColorControl command]
  /\ hw ext (m_device ext (snd after)) = snd read
  /\ statuses (errorStatus ext (snd after)) =
     statuses (errorStatus ext w) ++
     (if failed (fst written) then [adjustFailure ext command] else []) ++
     (if failed (fst (fst read)) then [readFailure ext command] else [])
  /\ (fst (fst read) = K4A_RESULT_SUCCEEDED ->
      last (statuses (errorStatus ext (snd after))) ""%string
      = last (statuses (errorStatus ext w) ++
              (if failed (fst written) then [adjustFailure ext command]
               else [])) ""%string)
  /\ (fst (fst read) <> K4A_RESULT_SUCCEEDED ->
      last (statuses (errorStatus ext (snd after))) ""%string
      = readFailure ext command
      /\ (snd (fst read) = cacheEntry -> fst after = cacheEntry)).
Proof.
  cbv zeta. rewrite ApplyColorSetting_eq. cbn [fst snd].
  set (written := sdk_SetColorControl ext command _ _ _).
  set (read := sdk_GetColorControl ext command cacheEntry (snd written)).
  split; [reflexivity | ].
  split; [destruct w; reflexivity | ].
  split; [destruct w; reflexivity | ].
  assert (E : statuses (errorStatus ext
                (set_errorStatus ext
                   (MkErrorManager
                      (statuses (errorStatus ext w) ++
                       (if failed (fst written)
                        then [adjustFailure ext command] else []) ++
                       (if failed (fst (fst read))
                        then [readFailure ext command] else [])))
                   (set_m_device ext
                      (MkDevice (snd read)
                         (calls ext (m_device ext w) ++
                          [CallSetColorControl command (Mode cacheEntry)
                             (Value cacheEntry);
                           CallGetColorControl command]))
                      w)))
              = statuses (errorStatus ext w) ++
                (if failed (fst written)
                 then [adjustFailure ext command] else []) ++
                (if failed (fst (fst read))
                 then [readFailure ext command] else []))
    by (destruct w; reflexivity).
  rewrite E. split; [reflexivity | split ].
  - intros ->. cbn. rewrite app_nil_r. reflexivity.
  - intros Hfailed. split; [ | intros H; exact H ].
    destruct (fst (fst read)); [congruence | ]. cbn.
    rewrite app_assoc. apply last_last.
Qed.

Local Abbreviation devCalls w := (calls ext (m_device ext w)).

Lemma onCacheEntry_device entry f (w : World) :
  m_device ext (onCacheEntry ext entry f w)
  = m_device ext (snd (f (entry_get entry (m_colorSettingsCache ext w)) w)).
Proof.
  unfold onCacheEntry.
  destruct (f (entry_get entry (m_colorSettingsCache ext w)) w) as [e w'].
  destruct w'; reflexivity.
Qed.

Lemma ApplyColorSetting_calls command cacheEntry (w : World) :
  devCalls (snd (ApplyColorSetting ext command cacheEntry w)) =
  devCalls w ++
  [CallSetColorControl command (Mode cacheEntry) (Value cacheEntry);
   CallGetColorControl command].
Proof. rewrite ApplyColorSetting_eq. destruct w; reflexivity. Qed.



End ColorSettingFacts.

(** On the simulated camera, whose registers keep values within 0..255,
    a request for brightness 300 leaves 255 in the cache. *)
Example ApplyColorSetting_clamped :
  fst (ApplyColorSetting simExternals K4A_COLOR_CONTROL_BRIGHTNESS
         (MkColorSetting K4A_COLOR_CONTROL_MODE_MANUAL 300)
         (simWorld (simHardware false false [])
                   (defaultDeviceConfiguration simExternals) true false))
  = MkColorSetting K4A_COLOR_CONTROL_MODE_MANUAL 255.
Proof. reflexivity. Qed.

Lemma ApplyColorSetting_caches_read_back_witness :
  let request := MkColorSetting K4A_COLOR_CONTROL_MODE_MANUAL 300 in
  let after := ApplyColorSetting unreadableExternals
                 K4A_COLOR_CONTROL_BRIGHTNESS request unreadableWorld in
  last (statuses (errorStatus unreadableExternals (snd after))) ""%string
  = "Failed to read color parameter: command!"%string
  /\ fst after = request.
Proof.
  intros request after.
  destruct (ApplyColorSetting_caches_read_back unreadableExternals
              K4A_COLOR_CONTROL_BRIGHTNESS request unreadableWorld)
    as (_ & _ & _ & _ & _ & H).
  destruct H as [Hlast Hkept]; [discriminate | ].
  split; [exact Hlast | apply Hkept; reflexivity].
Defined.

(** C2, as stated, fails where the read-back fails: on a camera whose
    color controls cannot be read, a request for brightness 300 is written
    (the register keeps 255), the failed read leaves the entry alone, and
    the cache ends up holding the requested 300, not what the hardware
    holds. *)
Lemma ApplyColorSetting_failed_read_keeps_request :
  let request := MkColorSetting K4A_COLOR_CONTROL_MODE_MANUAL 300 in
  let after := ApplyColorSetting unreadableExternals
                 K4A_COLOR_CONTROL_BRIGHTNESS request unreadableWorld in
  fst after = request
  /\ sim_color (hw unreadableExternals
                  (m_device unreadableExternals (snd after)))
               K4A_COLOR_CONTROL_BRIGHTNESS
     = MkColorSetting K4A_COLOR_CONTROL_MODE_MANUAL 255
  /\ calls unreadableExternals (m_device unreadableExternals (snd after))
     = [CallSetColorControl K4A_COLOR_CONTROL_BRIGHTNESS
          K4A_COLOR_CONTROL_MODE_MANUAL 300;
        CallGetColorControl K4A_COLOR_CONTROL_BRIGHTNESS]
  /\ statuses (errorStatus unreadableExternals (snd after))
     = ["Failed to read color parameter: command!"%string].
Proof. repeat split. Qed.

(* ================================================================== *)
(** ** Polling the device *)

Section PollFacts.

Variable ext : K4AExternals.

Local Abbreviation World := (World ext).
Local Abbreviation devCalls w := (calls ext (m_device ext w)).

Lemma ImuQueueRun_bounded h x samples status x' h' :
  ImuQueueRun ext h x samples status x' h' ->
  (List.length samples <= imu_pending ext h)%nat.
Proof.
  induction 1 as [ | h x s h1 samples status x' h' Hpoll _ IH ]; simpl.
  - apply Nat.le_0_l.
  - apply imu_queue_finite in Hpoll. lia.
Qed.

(** The queue always drains: some poll ends the run. *)
Lemma ImuQueueRun_exists h x :
  exists samples status x' h', ImuQueueRun ext h x samples status x' h'.
Proof.
  remember (imu_pending ext h) as n eqn:Hn.
  assert (Hle : (imu_pending ext h <= n)%nat) by lia. clear Hn.
  revert h x Hle. induction n as [|n IH]; intros h x Hle.
  - destruct (sdk_PollImu ext h x) as [[status x1] h1] eqn:Hpoll.
    destruct (wait_result_eqb_spec status K4A_WAIT_RESULT_SUCCEEDED) as [->|Hne].
    + apply imu_queue_finite in Hpoll. lia.
    + exists [], status, x1, h1. now constructor.
  - destruct (sdk_PollImu ext h x) as [[status x1] h1] eqn:Hpoll.
    destruct (wait_result_eqb_spec status K4A_WAIT_RESULT_SUCCEEDED) as [->|Hne].
    + pose proof (imu_queue_finite ext _ _ _ _ Hpoll) as Hlt.
      destruct (IH h1 x1 ltac:(lia)) as (samples & status & x' & h' & Hrun).
      exists (x1 :: samples), status, x', h'.
      eapply run_sample; eassumption.
    + exists [], status, x1, h1. now constructor.
Qed.

Lemma last_cons_default {A} (l : list A) (s x : A) :
  last (s :: l) x = last l s.
Proof.
  revert s x. induction l as [|a l IH]; intros s x; [reflexivity | ].
  change (last (s :: a :: l) x) with (last (a :: l) x).
  rewrite (IH a x), (IH a s). reflexivity.
Qed.

(** The final, unsuccessful poll of a run is handed the most recently
    delivered sample. *)
Lemma ImuQueueRun_last h x samples status x' h' :
  ImuQueueRun ext h x samples status x' h' ->
  exists hlast,
    sdk_PollImu ext hlast (last samples x) = (status, x', h').
Proof.
  induction 1 as [ h x status x' h' Hpoll _
                 | h x s h1 samples status x' h' Hpoll Hrun IH ].
  - exists h. exact Hpoll.
  - destruct IH as [hlast Hlast]. exists hlast.
    rewrite last_cons_default. exact Hlast.
Qed.

Lemma drainImu_run h x samples status x' h' :
  ImuQueueRun ext h x samples status x' h' ->
  forall fuel log gotSample,
    (List.length samples <= fuel)%nat ->
    drainImu ext fuel (MkDevice h log) x gotSample =
    (status, x',
     MkDevice h' (log ++ repeat CallPollImu (S (List.length samples))),
     match samples with [] => gotSample | _ :: _ => true end).
Proof.
  induction 1 as [ h x status x' h' Hpoll Hne
                 | h x s h1 samples status x' h' Hpoll Hrun IH ];
    intros fuel log gotSample Hfuel.
  - destruct fuel; simpl; unfold Device_PollImu, called; simpl;
      rewrite Hpoll;
      destruct status; try congruence; reflexivity.
  - destruct fuel as [|fuel]; [simpl in Hfuel; lia | ].
    simpl. unfold Device_PollImu, called; simpl. rewrite Hpoll. simpl.
    rewrite IH by (simpl in Hfuel; lia).
    rewrite <- app_assoc. simpl.
    destruct samples; reflexivity.
Qed.

Lemma pollImuFn_run d x samples status x' h' :
  ImuQueueRun ext (hw ext d) x samples status x' h' ->
  pollImuFn ext d x =
  (match samples, status with
   | _ :: _, K4A_WAIT_RESULT_TIMEOUT => K4A_WAIT_RESULT_SUCCEEDED
   | _, _ => status
   end,
   x',
   MkDevice h' (calls ext d ++ repeat CallPollImu (S (List.length samples)))).
Proof.
  intros Hrun. unfold pollImuFn. destruct d as [h log]. simpl in *.
  rewrite (drainImu_run _ _ _ _ _ _ Hrun)
    by (eapply ImuQueueRun_bounded; eassumption).
  destruct samples, status; reflexivity.
Qed.

(** What polling the IMU does to the panel, by the run of the queue. *)
Lemma pollImu_eq (w : World) samples status x' h' :
  ImuQueueRun ext (hw ext (m_device ext w)) (imu_sample_uninitialized ext)
              samples status x' h' ->
  pollImu ext w =
  let r := PollSensor (Device_GetSerialNumber ext)
             (imu_sample_uninitialized ext) "IMU"
             (fun d _ =>
                (match samples, status with
                 | _ :: _, K4A_WAIT_RESULT_TIMEOUT => K4A_WAIT_RESULT_SUCCEEDED
                 | _, _ => status
                 end, x',
                 MkDevice h' (devCalls w ++
                              repeat CallPollImu (S (List.length samples)))))
             (Device_StopImu ext)
             (MkSensorRefs (m_device ext w) (m_imuTimeoutCounter ext w)
                           (m_imuDataSource ext w) (errorStatus ext w)) in
  set_errorStatus ext (errorManager r)
    (set_m_imuDataSource ext (dataSource r)
       (set_m_imuTimeoutCounter ext (timeoutCounter r)
          (set_m_device ext (device r) w))).
Proof.
  intros Hrun. unfold pollImu, PollSensor. cbn [device].
  rewrite (pollImuFn_run _ _ _ _ _ _ Hrun). reflexivity.
Qed.

(** C9. The IMU poll function polls until a poll does not succeed (which
    always happens), every successful poll overwriting the sample, so that
    the final poll is handed the most recently delivered one.  If at least
    one sample was read and the final poll timed out, it reports success,
    and [PollSensor] then resets the IMU timeout counter and notifies the
    observers once; a timeout with no sample read is reported as a
    timeout and counts toward the threshold. *)
Theorem pollImuFn_drains_queue (w : World) :
  let d := m_device ext w in
  let x := imu_sample_uninitialized ext in
  (exists samples status x' h',
      ImuQueueRun ext (hw ext d) x samples status x' h')
  /\ (forall samples status x' h',
         ImuQueueRun ext (hw ext d) x samples status x' h' ->
         pollImuFn ext d x =
         (match samples, status with
          | _ :: _, K4A_WAIT_RESULT_TIMEOUT => K4A_WAIT_RESULT_SUCCEEDED
          | _, _ => status
          end,
          x',
          MkDevice h' (calls ext d ++
                       repeat CallPollImu (S (List.length samples))))
         /\ (exists hlast,
                sdk_PollImu ext hlast (last samples x) = (status, x', h'))
         /\ (status = K4A_WAIT_RESULT_TIMEOUT ->
             match samples with
             | _ :: _ =>
                 m_imuTimeoutCounter ext (pollImu ext w) = 0
                 /\ m_imuDataSource ext (pollImu ext w) =
                    NotifyObservers x' (m_imuDataSource ext w)
             | [] =>
                 m_imuTimeoutCounter ext (pollImu ext w) =
                 (if m_imuTimeoutCounter ext w <? 120
                  then m_imuTimeoutCounter ext w + 1
                  else m_imuTimeoutCounter ext w)
                 /\ m_imuDataSource ext (pollImu ext w) =
                    (if m_imuTimeoutCounter ext w <? 120
                     then m_imuDataSource ext w
                     else NotifyTermination (m_imuDataSource ext w))
             end)).
Proof.
  cbv zeta. split; [apply ImuQueueRun_exists | ].
  intros samples status x' h' Hrun. split; [ | split ].
  - apply pollImuFn_run. exact Hrun.
  - eapply ImuQueueRun_last. exact Hrun.
  - intros ->. rewrite (pollImu_eq _ _ _ _ _ Hrun).
    destruct samples as [|s samples].
    + unfold PollSensor, HasTimedOut, MaxTimeoutCount. cbn.
      destruct (m_imuTimeoutCounter ext w <? 120); destruct w; cbn;
        split; reflexivity.
    + unfold PollSensor. destruct w; cbn. split; reflexivity.
Qed.

End PollFacts.

(** On the simulated device: three queued samples are drained in one
    poll, the last one is kept and the trailing timeout is reported as
    success; an empty queue is a timeout. *)
Example pollImuFn_three_samples :
  pollImuFn simExternals
    (MkDevice (simHardware false true [5; 6; 7] : Hardware simExternals) []) 0
  = (K4A_WAIT_RESULT_SUCCEEDED, 7,
     MkDevice (simHardware false true [] : Hardware simExternals)
              [CallPollImu; CallPollImu; CallPollImu; CallPollImu])
  /\ pollImuFn simExternals
       (MkDevice (simHardware false true [] : Hardware simExternals) []) 0
     = (K4A_WAIT_RESULT_TIMEOUT, 0,
        MkDevice (simHardware false true [] : Hardware simExternals)
                 [CallPollImu]).
Proof. split; reflexivity. Qed.

Lemma pollImuFn_drains_queue_witness :
  let w := simWorld (simHardware false true [5; 6; 7])
                    (defaultDeviceConfiguration simExternals) true false in
  pollImuFn simExternals (m_device simExternals w) 0
  = (K4A_WAIT_RESULT_SUCCEEDED, 7,
     MkDevice (simHardware false true [] : Hardware simExternals)
              [CallPollImu; CallPollImu; CallPollImu; CallPollImu])
  /\ m_imuTimeoutCounter simExternals (pollImu simExternals w) = 0.
Proof.
  intros w.
  assert (Hrun : ImuQueueRun simExternals
                   (hw simExternals (m_device simExternals w)) 0 [5; 6; 7]
                   K4A_WAIT_RESULT_TIMEOUT 7 (simHardware false true [])).
  { eapply run_sample; [reflexivity | ].
    eapply run_sample; [reflexivity | ].
    eapply run_sample; [reflexivity | ].
    apply run_end; [reflexivity | discriminate]. }
  destruct (proj2 (pollImuFn_drains_queue simExternals w) _ _ _ _ Hrun)
    as [Hfn [_ Hcounter]].
  split; [exact Hfn | exact (proj1 (Hcounter eq_refl))].
Defined.

(* ================================================================== *)
(** ** Which calls a frame makes *)

Section CallFacts.

Variable ext : K4AExternals.

Local Abbreviation World := (World ext).
Local Abbreviation Call := (DeviceCall (k4a_device_configuration_t ext)).
Local Abbreviation devCalls w := (calls ext (m_device ext w)).
Local Abbreviation pending w := (m_pendingDeviceConfiguration ext w).

Variable P : Call -> Prop.

Lemma callsAdded_same (w w' : World) :
  m_device ext w' = m_device ext w -> callsAdded P w w'.
Proof. intros H. exists []. rewrite H, app_nil_r. split; constructor. Qed.

Lemma callsAdded_refl (w : World) : callsAdded P w w.
Proof. apply callsAdded_same. reflexivity. Qed.

Lemma callsAdded_trans (w1 w2 w3 : World) :
  callsAdded P w1 w2 -> callsAdded P w2 w3 -> callsAdded P w1 w3.
Proof.
  intros (l1 & E1 & F1) (l2 & E2 & F2). exists (l1 ++ l2).
  rewrite E2, E1, app_assoc. split; [reflexivity | ].
  apply Forall_app. split; assumption.
Qed.

Lemma callsAdded_one (w w' : World) c :
  devCalls w' = devCalls w ++ [c] -> P c -> callsAdded P w w'.
Proof. intros E Hc. exists [c]. split; [exact E | repeat constructor; exact Hc]. Qed.

Lemma callsAdded_device (w1 w1' w2 w2' : World) :
  m_device ext w1' = m_device ext w1 ->
  m_device ext w2' = m_device ext w2 ->
  callsAdded P w1 w2 -> callsAdded P w1' w2'.
Proof. unfold callsAdded. intros -> ->. exact (fun H => H). Qed.

Lemma deviceStep_refl (w : World) : deviceStep P w w.
Proof. split; [reflexivity | apply callsAdded_refl]. Qed.

Lemma deviceStep_trans (w1 w2 w3 : World) :
  deviceStep P w1 w2 -> deviceStep P w2 w3 -> deviceStep P w1 w3.
Proof.
  intros [E1 A1] [E2 A2]. split; [congruence | ].
  eapply callsAdded_trans; eassumption.
Qed.

Lemma deviceStep_same (w w' : World) :
  pending w' = pending w -> m_device ext w' = m_device ext w ->
  deviceStep P w w'.
Proof. intros E D. split; [exact E | apply callsAdded_same; exact D]. Qed.

Lemma deviceStep_if (b : bool) (w w1 w2 : World) :
  deviceStep P w w1 -> deviceStep P w w2 ->
  deviceStep P w (if b then w1 else w2).
Proof. destruct b; trivial. Qed.

(* ------------------------------------------------------------------ *)
(** *** Color controls *)

Lemma ApplyColorSetting_step command e (w : World) :
  AllowsColor P -> deviceStep P w (snd (ApplyColorSetting ext command e w)).
Proof.
  intros [Hset Hget]. rewrite ApplyColorSetting_eq. cbn [snd]. split.
  - destruct w; reflexivity.
  - eexists. split; [destruct w; reflexivity | ].
    repeat constructor; auto.
Qed.

Lemma onCacheEntry_step entry f (w : World) :
  (forall e w0, deviceStep P w0 (snd (f e w0))) ->
  deviceStep P w (onCacheEntry ext entry f w).
Proof.
  intros Hf. unfold onCacheEntry.
  specialize (Hf (entry_get entry (m_colorSettingsCache ext w)) w).
  destruct (f (entry_get entry (m_colorSettingsCache ext w)) w) as [e w'].
  cbn [snd] in Hf. destruct Hf as [E A]. split.
  - rewrite <- E. destruct w'; reflexivity.
  - eapply callsAdded_device; [reflexivity | | exact A].
    destruct w'; reflexivity.
Qed.

Lemma ShowColorControl_step command showControl e (w : World) :
  AllowsColor P ->
  deviceStep P w (snd (ShowColorControl ext command showControl e w)).
Proof.
  intros HP. unfold ShowColorControl.
  destruct (showControl e) as [[ | | ] e'].
  - apply deviceStep_refl.
  - apply ApplyColorSetting_step, HP.
  - apply ApplyColorSetting_step, HP.
Qed.

Lemma assignCacheEntry_step entry mode value (w : World) :
  deviceStep P w (assignCacheEntry ext entry mode value w).
Proof. apply deviceStep_same; destruct w; reflexivity. Qed.

Lemma ApplyDefaultColorSettings_step (w : World) :
  AllowsColor P -> deviceStep P w (ApplyDefaultColorSettings ext w).
Proof.
  intros HP. unfold ApplyDefaultColorSettings.
  repeat (eapply deviceStep_trans;
          [ | first [ apply onCacheEntry_step; intros;
                      apply ApplyColorSetting_step, HP
                    | apply assignCacheEntry_step ] ]).
  apply deviceStep_refl.
Qed.

Lemma ShowColorControls_step io (w : World) :
  AllowsColor P -> deviceStep P w (ShowColorControls ext io w).
Proof.
  intros HP. unfold ShowColorControls.
  apply deviceStep_if.
  - eapply deviceStep_trans; [ | apply ApplyDefaultColorSettings_step, HP ].
    repeat (eapply deviceStep_trans;
            [ | apply onCacheEntry_step; intros;
                apply ShowColorControl_step, HP ]).
    apply deviceStep_refl.
  - repeat (eapply deviceStep_trans;
            [ | apply onCacheEntry_step; intros;
                apply ShowColorControl_step, HP ]).
    apply deviceStep_refl.
Qed.

(* ------------------------------------------------------------------ *)
(** *** Sync cables, settings, view type *)

Lemma RefreshSyncCableStatus_step (w : World) :
  AllowsSync P -> deviceStep P w (RefreshSyncCableStatus ext w).
Proof.
  intros HP. unfold RefreshSyncCableStatus, Device_GetSyncCablesConnected.
  destruct (sdk_GetSyncCablesConnected ext _ _ _) as [[r [i o]] h].
  split.
  - destruct r; destruct w; reflexivity.
  - apply callsAdded_one with (c := CallGetSyncCablesConnected);
      [destruct r; destruct w; reflexivity | exact HP].
Qed.

Lemma ShowExternalSync_calls io b (w : World) :
  AllowsSync P -> callsAdded P w (ShowExternalSync ext io b w).
Proof.
  intros HP. unfold ShowExternalSync.
  destruct (TreeNode io "External Sync" _); [ | apply callsAdded_refl ].
  destruct (Button io "Refresh").
  - eapply callsAdded_device;
      [reflexivity | | apply (RefreshSyncCableStatus_step w HP)].
    destruct (RefreshSyncCableStatus ext w); reflexivity.
  - apply callsAdded_same. destruct w; reflexivity.
Qed.

Lemma ShowSettingsButtons_device io b (w : World) :
  m_device ext (ShowSettingsButtons ext io b w) = m_device ext w.
Proof.
  unfold ShowSettingsButtons, ResetDefaultConfiguration,
    SaveDefaultConfiguration, ApplyDefaultConfiguration.
  destruct (K4AButton io "Restore" _), (K4AButton io "Save" _),
    (K4AButton io "Reset" _); destruct w; reflexivity.
Qed.

Lemma StopMicrophone_step (w : World) :
  deviceStep P w (StopMicrophone ext w).
Proof.
  unfold StopMicrophone. destruct (m_microphone ext w);
    apply deviceStep_same; destruct w; reflexivity.
Qed.

Lemma SetViewType_step viewType (w : World) :
  AllowsCalibration P -> deviceStep P w (SetViewType ext viewType w).
Proof.
  intros HP. unfold SetViewType, Device_GetCalibrationTransformData.
  destruct viewType.
  - apply deviceStep_same;
      destruct w as [? [mic|] [] ? ? ? ? ? ? ? ? ? ? ? ? ?];
      cbn; destruct EnableMicrophone0; reflexivity.
  - cbn [m_pendingDeviceConfiguration m_device pushWindowEvent set_windows].
    destruct (sdk_GetCalibrationTransformData ext _ _ _) as [r h]. split.
    + destruct r; destruct w; reflexivity.
    + eapply callsAdded_one; [ | apply HP ].
      destruct r; destruct w; reflexivity.
Qed.

(* ------------------------------------------------------------------ *)
(** *** Start and stop *)

Lemma StartCameras_step (w : World) :
  AllowsStart P (pending w) -> deviceStep P w (snd (StartCameras ext w)).
Proof.
  intros [HP _]. unfold StartCameras, Device_StartCameras.
  destruct (Device_CamerasAreStarted ext (m_device ext w));
    [apply deviceStep_refl | ].
  destruct (sdk_StartCameras ext _ _) as [r h]. split.
  - destruct r; destruct w; reflexivity.
  - eapply callsAdded_one; [ | exact HP ].
    destruct r; destruct w; reflexivity.
Qed.

Lemma StartImu_step (w : World) :
  AllowsStart P (pending w) -> deviceStep P w (snd (StartImu ext w)).
Proof.
  intros [_ HP]. unfold StartImu, Device_StartImu.
  destruct (Device_ImuIsStarted ext (m_device ext w));
    [apply deviceStep_refl | ].
  destruct (sdk_StartImu ext _) as [r h]. split.
  - destruct r; destruct w; reflexivity.
  - eapply callsAdded_one; [ | exact HP ].
    destruct r; destruct w; reflexivity.
Qed.

Lemma StartMicrophone_step (w : World) :
  deviceStep P w (snd (StartMicrophone ext w)).
Proof.
  unfold StartMicrophone. destruct (m_microphone ext w) as [mic|].
  - destruct (Mic_IsStarted ext mic); [apply deviceStep_refl | ].
    destruct (Mic_Start ext mic) as [r mic'].
    apply deviceStep_same;
      destruct (negb (r =? SoundIoErrorNone)); destruct w; reflexivity.
  - apply deviceStep_same; destruct w; reflexivity.
Qed.

Lemma Start_step (w : World) :
  AllowsStart P (pending w) -> AllowsCalibration P ->
  deviceStep P w (Start ext w).
Proof.
  intros Hstart Hcal. unfold Start.
  eapply deviceStep_trans; [ | apply deviceStep_same; reflexivity ].
  eapply deviceStep_trans; [ | apply SetViewType_step, Hcal ].
  assert (H1 : deviceStep P w
                 (if EnableColorCamera (pending w)
                     || EnableDepthCamera (pending w)
                  then snd (StartCameras ext w) else w)).
  { apply deviceStep_if;
      [apply StartCameras_step, Hstart | apply deviceStep_refl]. }
  set (w1 := if EnableColorCamera (pending w) || EnableDepthCamera (pending w)
             then snd (StartCameras ext w) else w) in *.
  assert (H2 : deviceStep P w1
                 (if EnableImu (pending w1)
                  then snd (StartImu ext w1) else w1)).
  { apply deviceStep_if; [ | apply deviceStep_refl ].
    apply StartImu_step. rewrite (proj1 H1). exact Hstart. }
  set (w2 := if EnableImu (pending w1) then snd (StartImu ext w1) else w1)
    in *.
  eapply deviceStep_trans; [exact H1 | ].
  eapply deviceStep_trans; [exact H2 | ].
  apply deviceStep_if; [apply StartMicrophone_step | apply deviceStep_refl].
Qed.

Lemma Stop_step (w : World) :
  AllowsStop P -> deviceStep P w (Stop ext w).
Proof.
  intros [Hc Hi]. unfold Stop.
  eapply deviceStep_trans; [ | apply StopMicrophone_step ].
  split; [destruct w; reflexivity | ].
  exists [CallStopCameras; CallStopImu]. split.
  - destruct w; cbn. rewrite <- app_assoc. reflexivity.
  - repeat constructor; assumption.
Qed.

Lemma ShowStartStop_step io b (w : World) :
  AllowsStop P -> AllowsCalibration P ->
  (activated io "Start" = true -> AllowsStart P (pending w)) ->
  deviceStep P w (ShowStartStop ext io b w).
Proof.
  intros Hstop Hcal Hstart. unfold ShowStartStop.
  destruct (negb b).
  - unfold K4AButton.
    destruct (EnableColorCamera (pending w) || EnableDepthCamera (pending w)
              || EnableMicrophone (pending w) || EnableImu (pending w));
      cbn [andb]; [ | apply deviceStep_refl ].
    destruct (activated io "Start") eqn:Hpressed; [ | apply deviceStep_refl ].
    apply Start_step; [apply Hstart; reflexivity | exact Hcal].
  - set (w1 := if K4AButton io "Stop" true then Stop ext w else w).
    assert (H1 : deviceStep P w w1).
    { apply deviceStep_if; [apply Stop_step, Hstop | apply deviceStep_refl]. }
    destruct (ShowModeSelector ext io (m_currentViewType ext w1) true _)
      as [viewType change].
    set (w2 := set_m_currentViewType ext viewType w1).
    assert (H2 : deviceStep P w1 w2)
      by (apply deviceStep_same; destruct w1; reflexivity).
    set (w3 := match change with
               | Some t => SetViewType ext t w2
               | None => w2
               end).
    assert (H3 : deviceStep P w2 w3).
    { subst w3. destruct change;
        [apply SetViewType_step, Hcal | apply deviceStep_refl]. }
    eapply deviceStep_trans; [exact H1 | ].
    eapply deviceStep_trans; [exact H2 | ].
    eapply deviceStep_trans; [exact H3 | ].
    destruct (m_paused ext w3), (Button io "Resume"), (Button io "Pause");
      first [ apply deviceStep_refl
            | apply deviceStep_same; destruct w3; reflexivity ].
Qed.

End CallFacts.

Section FrameFacts.

Variable ext : K4AExternals.

Local Abbreviation World := (World ext).
Local Abbreviation Call := (DeviceCall (k4a_device_configuration_t ext)).
Local Abbreviation devCalls w := (calls ext (m_device ext w)).
Local Abbreviation pending w := (m_pendingDeviceConfiguration ext w).

Lemma count_app {A} (p : A -> bool) (l l' : list A) :
  count p (l ++ l') = (count p l + count p l')%nat.
Proof. unfold count. rewrite filter_app, length_app. reflexivity. Qed.

Lemma count_none {A} (p : A -> bool) (l : list A) :
  Forall (fun c => p c = false) l -> count p l = 0%nat.
Proof.
  unfold count. induction 1 as [|c l Hc _ IH]; simpl; [reflexivity | ].
  rewrite Hc. exact IH.
Qed.

Lemma count_repeat {A} (p : A -> bool) (c : A) (n : nat) :
  count p (repeat c n) = if p c then n else 0%nat.
Proof.
  unfold count. induction n as [|n IH]; simpl.
  - destruct (p c); reflexivity.
  - destruct (p c); simpl; [rewrite IH | exact IH]; reflexivity.
Qed.

Lemma callsAdded_count (P : Call -> Prop) (p : Call -> bool) (w w' : World) :
  (forall c, P c -> p c = false) ->
  callsAdded P w w' ->
  count p (devCalls w') = count p (devCalls w).
Proof.
  intros HP (l & E & F). rewrite E, count_app, (count_none p l); [lia | ].
  eapply Forall_impl; [ | exact F ]. exact HP.
Qed.

(* ------------------------------------------------------------------ *)
(** *** [PollDevice] *)

Lemma PollSensor_device_cases {Device T} (serial : Device -> string)
    (data0 : T) name (pollFn : PollFn Device T) (stopFn : StopFn Device) r :
  exists stopped : bool,
    device (PollSensor serial data0 name pollFn stopFn r)
    = if stopped then stopFn (poll_device (pollFn (device r) data0))
      else poll_device (pollFn (device r) data0).
Proof.
  unfold PollSensor, poll_device.
  destruct (pollFn (device r) data0) as [[status data] d1].
  destruct (HasTimedOut status (timeoutCounter r)) as [timedOut c].
  destruct status, timedOut; cbn;
    first [ now (exists false) | now (exists true) ].
Qed.

Lemma pollCameras_calls (w : World) :
  exists stopped : bool,
    devCalls (pollCameras ext w)
    = devCalls w ++
      CallPollCameras :: (if stopped then [CallStopCameras] else []).
Proof.
  unfold pollCameras.
  destruct (PollSensor_device_cases (Device_GetSerialNumber ext) None
              "Cameras" (pollCamerasFn ext) (Device_StopCameras ext)
              (MkSensorRefs (m_device ext w) (m_cameraTimeoutCounter ext w)
                 (m_cameraDataSource ext w) (errorStatus ext w)))
    as [stopped E].
  exists stopped. cbn [m_device set_errorStatus set_m_cameraDataSource
                       set_m_cameraTimeoutCounter set_m_device].
  rewrite E. cbn [device]. unfold pollCamerasFn, Device_PollCameras, called.
  destruct (sdk_PollCameras ext (hw ext (m_device ext w))) as [[st p] h].
  destruct stopped; cbn; [rewrite <- app_assoc | ]; reflexivity.
Qed.

Lemma pollImu_calls (w : World) samples status x' h' :
  ImuQueueRun ext (hw ext (m_device ext w)) (imu_sample_uninitialized ext)
              samples status x' h' ->
  exists stopped : bool,
    devCalls (pollImu ext w)
    = devCalls w ++ repeat CallPollImu (S (List.length samples))
      ++ (if stopped then [CallStopImu] else []).
Proof.
  intros Hrun. unfold pollImu.
  destruct (PollSensor_device_cases (Device_GetSerialNumber ext)
              (imu_sample_uninitialized ext)
              "IMU" (pollImuFn ext) (Device_StopImu ext)
              (MkSensorRefs (m_device ext w) (m_imuTimeoutCounter ext w)
                 (m_imuDataSource ext w) (errorStatus ext w)))
    as [stopped E].
  exists stopped. cbn [m_device set_errorStatus set_m_imuDataSource
                       set_m_imuTimeoutCounter set_m_device].
  rewrite E. cbn [device]. rewrite (pollImuFn_run _ _ _ _ _ _ _ Hrun).
  destruct stopped; cbn; rewrite ?app_nil_r, <- ?app_assoc; reflexivity.
Qed.

Lemma checkMicrophone_same (w : World) :
  m_device ext (checkMicrophone ext w) = m_device ext w
  /\ pending (checkMicrophone ext w) = pending w.
Proof.
  unfold checkMicrophone, StopMicrophone, pushError.
  destruct (m_microphone ext w) as [mic|] eqn:Hmic; [ | now split ].
  destruct (negb (Mic_GetStatusCode ext mic =? SoundIoErrorNone));
    [ | now split ].
  destruct w; cbn in *. rewrite Hmic. now split.
Qed.

Lemma pollCameras_pending (w : World) :
  pending (pollCameras ext w) = pending w.
Proof. reflexivity. Qed.

Lemma pollImu_pending (w : World) : pending (pollImu ext w) = pending w.
Proof. reflexivity. Qed.

Lemma PollDevice_step (P : Call -> Prop) (w : World) :
  AllowsPoll P -> AllowsStop P -> deviceStep P w (PollDevice ext w).
Proof.
  intros [Hpc Hpi] [Hsc Hsi]. unfold PollDevice.
  set (w1 := if Device_CamerasAreStarted ext (m_device ext w)
             then pollCameras ext w else w).
  set (w2 := if Device_ImuIsStarted ext (m_device ext w1)
             then pollImu ext w1 else w1).
  assert (H1 : deviceStep P w w1).
  { subst w1. apply deviceStep_if; [ | apply deviceStep_refl ].
    split; [apply pollCameras_pending | ].
    destruct (pollCameras_calls w) as [stopped E]. eexists. split; [exact E | ].
    destruct stopped; repeat constructor; assumption. }
  assert (H2 : deviceStep P w1 w2).
  { subst w2. apply deviceStep_if; [ | apply deviceStep_refl ].
    split; [apply pollImu_pending | ].
    destruct (ImuQueueRun_exists ext (hw ext (m_device ext w1))
                (imu_sample_uninitialized ext))
      as (samples & status & x' & h' & Hrun).
    destruct (pollImu_calls w1 _ _ _ _ Hrun) as [stopped E].
    eexists. split; [exact E | ].
    apply Forall_app. split.
    - apply Forall_forall. intros c Hin. apply repeat_spec in Hin.
      subst c. exact Hpi.
    - destruct stopped; repeat constructor; assumption. }
  eapply deviceStep_trans; [exact H1 | ].
  eapply deviceStep_trans; [exact H2 | ].
  destruct (checkMicrophone_same w2) as [D E].
  apply deviceStep_same; assumption.
Qed.

(* ------------------------------------------------------------------ *)
(** *** [ShowControls] *)

Lemma ShowStartStop_pending io b (w : World) :
  pending (ShowStartStop ext io b w) = pending w.
Proof.
  apply (ShowStartStop_step ext (fun _ => True) io b w);
    repeat split; trivial.
Qed.

Lemma ShowControls_pending io b (w : World) :
  pending (ShowControls ext io b w) = pending (ShowConfiguration ext io b w).
Proof.
  unfold ShowControls. cbv zeta.
  change (pending (set_m_firstRun ext false ?x)) with (pending x).
  apply ShowStartStop_pending.
Qed.

Lemma ShowColorControlsNode_step (P : Call -> Prop) io (w : World) :
  AllowsColor P -> deviceStep P w (ShowColorControlsNode ext io w).
Proof.
  intros HP. unfold ShowColorControlsNode.
  apply deviceStep_if;
    [apply ShowColorControls_step, HP | apply deviceStep_refl].
Qed.

Lemma onPending_calls (P : Call -> Prop) edit (w : World) :
  callsAdded P w (onPending ext edit w).
Proof. apply callsAdded_same. destruct w; reflexivity. Qed.

Lemma ShowConfiguration_calls (P : Call -> Prop) io b (w : World) :
  AllowsColor P -> AllowsSync P ->
  callsAdded P w (ShowConfiguration ext io b w).
Proof.
  intros Hcolor Hsync. unfold ShowConfiguration. cbv zeta.
  eapply callsAdded_trans;
    [ | apply callsAdded_same, ShowSettingsButtons_device ].
  eapply callsAdded_trans; [ | apply ShowExternalSync_calls, Hsync ].
  eapply callsAdded_trans; [ | apply onPending_calls ].
  eapply callsAdded_trans; [ | apply onPending_calls ].
  eapply callsAdded_trans; [ | apply onPending_calls ].
  eapply callsAdded_trans;
    [ | apply (ShowColorControlsNode_step P), Hcolor ].
  eapply callsAdded_trans; [ | apply onPending_calls ].
  apply onPending_calls.
Qed.

Lemma ShowControls_calls (P : Call -> Prop) io b (w : World) :
  AllowsColor P -> AllowsSync P -> AllowsStop P -> AllowsCalibration P ->
  (activated io "Start" = true ->
   AllowsStart P (pending (ShowControls ext io b w))) ->
  callsAdded P w (ShowControls ext io b w).
Proof.
  intros Hcolor Hsync Hstop Hcal Hstart.
  rewrite ShowControls_pending in Hstart.
  unfold ShowControls. cbv zeta.
  eapply callsAdded_trans; [ | apply callsAdded_same; reflexivity ].
  eapply callsAdded_trans;
    [ apply ShowConfiguration_calls; assumption
    | apply ShowStartStop_step; assumption ].
Qed.

End FrameFacts.

(* ================================================================== *)
(** ** One frame of [Show] *)

Section ShowFacts.

Variable ext : K4AExternals.

Local Abbreviation World := (World ext).
Local Abbreviation Call := (DeviceCall (k4a_device_configuration_t ext)).
Local Abbreviation devCalls w := (calls ext (m_device ext w)).
Local Abbreviation pending w := (m_pendingDeviceConfiguration ext w).

Lemma Show_closed io (w : World) :
  Button io "Close device" = true ->
  Show ext io w = pushWindowEvent ext PopDockControl w.
Proof. unfold Show. intros ->. reflexivity. Qed.

Lemma Show_paused io (w : World) :
  Button io "Close device" = false -> m_paused ext w = true ->
  Show ext io w = ShowControls ext io (DeviceIsStarted ext w) w.
Proof. unfold Show. intros -> ->. reflexivity. Qed.

Lemma Show_running io (w : World) :
  Button io "Close device" = false -> m_paused ext w = false ->
  Show ext io w
  = ShowControls ext io (DeviceIsStarted ext w) (PollDevice ext w).
Proof. unfold Show. intros -> ->. reflexivity. Qed.

(** The panel's widgets never poll. *)
Lemma ShowControls_no_poll io b (w : World) :
  count isPollCameras (devCalls (ShowControls ext io b w))
  = count isPollCameras (devCalls w)
  /\ count isPollImu (devCalls (ShowControls ext io b w))
     = count isPollImu (devCalls w).
Proof.
  assert (H : callsAdded
                (fun c : Call => isPollCameras c = false
                                 /\ isPollImu c = false)
                w (ShowControls ext io b w)).
  { apply ShowControls_calls; repeat split; reflexivity. }
  split; eapply callsAdded_count; try exact H; intros c [Hc Hi]; assumption.
Qed.

Lemma PollDevice_camera_polls (w : World) :
  count isPollCameras (devCalls (PollDevice ext w))
  = (count isPollCameras (devCalls w)
     + if Device_CamerasAreStarted ext (m_device ext w) then 1 else 0)%nat.
Proof.
  unfold PollDevice.
  set (w1 := if Device_CamerasAreStarted ext (m_device ext w)
             then pollCameras ext w else w).
  set (w2 := if Device_ImuIsStarted ext (m_device ext w1)
             then pollImu ext w1 else w1).
  rewrite (proj1 (checkMicrophone_same ext w2)).
  assert (H2 : count isPollCameras (devCalls w2)
               = count isPollCameras (devCalls w1)).
  { subst w2. destruct (Device_ImuIsStarted ext (m_device ext w1));
      [ | reflexivity ].
    destruct (ImuQueueRun_exists ext (hw ext (m_device ext w1))
                (imu_sample_uninitialized ext))
      as (samples & status & x' & h' & Hrun).
    destruct (pollImu_calls ext w1 _ _ _ _ Hrun) as [stopped E].
    rewrite E, !count_app, count_repeat. cbn [isPollCameras].
    destruct stopped; cbn; lia. }
  rewrite H2. subst w1.
  destruct (Device_CamerasAreStarted ext (m_device ext w)); [ | lia ].
  destruct (pollCameras_calls ext w) as [stopped E].
  rewrite E, count_app. destruct stopped; cbn; lia.
Qed.

Lemma PollDevice_imu_polls (w : World) :
  let w1 := if Device_CamerasAreStarted ext (m_device ext w)
            then pollCameras ext w else w in
  exists samples status x' h',
    ImuQueueRun ext (hw ext (m_device ext w1)) (imu_sample_uninitialized ext)
                samples status x' h'
    /\ count isPollImu (devCalls (PollDevice ext w))
       = (count isPollImu (devCalls w)
          + if Device_ImuIsStarted ext (m_device ext w1)
            then S (List.length samples) else 0)%nat.
Proof.
  intros w1. unfold PollDevice. fold w1.
  set (w2 := if Device_ImuIsStarted ext (m_device ext w1)
             then pollImu ext w1 else w1).
  rewrite (proj1 (checkMicrophone_same ext w2)).
  assert (H1 : count isPollImu (devCalls w1) = count isPollImu (devCalls w)).
  { subst w1. destruct (Device_CamerasAreStarted ext (m_device ext w));
      [ | reflexivity ].
    destruct (pollCameras_calls ext w) as [stopped E].
    rewrite E, count_app. destruct stopped; cbn; lia. }
  destruct (ImuQueueRun_exists ext (hw ext (m_device ext w1))
              (imu_sample_uninitialized ext))
    as (samples & status & x' & h' & Hrun).
  exists samples, status, x', h'. split; [exact Hrun | ].
  rewrite <- H1. subst w2.
  destruct (Device_ImuIsStarted ext (m_device ext w1)); [ | lia ].
  destruct (pollImu_calls ext w1 _ _ _ _ Hrun) as [stopped E].
  rewrite E, !count_app, count_repeat. cbn [isPollImu].
  destruct stopped; cbn; lia.
Qed.

Lemma checkMicrophone_absent (w : World) :
  m_microphone ext w = None -> checkMicrophone ext w = w.
Proof. unfold checkMicrophone. intros ->. reflexivity. Qed.

(** C7 (as amended). A call to [Show] runs [PollDevice] exactly once
    when the "Close device" button is not pressed and the panel is not
    paused, and not at all otherwise; nothing else in the frame polls.
    Within [PollDevice] the camera queue is polled once if the cameras are
    started and not otherwise; the IMU is polled if (after the camera
    poll) the IMU is started and not otherwise, the one such poll calling
    the device once per sample the queue delivers and once more; and
    without a microphone the microphone check does nothing. *)
Theorem Show_polls_once_unless_paused io (w : World) :
  (Button io "Close device" = true ->
   Show ext io w = pushWindowEvent ext PopDockControl w
   /\ devCalls (Show ext io w) = devCalls w)
  /\ (Button io "Close device" = false -> m_paused ext w = true ->
      Show ext io w = ShowControls ext io (DeviceIsStarted ext w) w
      /\ count isPollCameras (devCalls (Show ext io w))
         = count isPollCameras (devCalls w)
      /\ count isPollImu (devCalls (Show ext io w))
         = count isPollImu (devCalls w))
  /\ (Button io "Close device" = false -> m_paused ext w = false ->
      let w1 := if Device_CamerasAreStarted ext (m_device ext w)
                then pollCameras ext w else w in
      let w2 := if Device_ImuIsStarted ext (m_device ext w1)
                then pollImu ext w1 else w1 in
      Show ext io w
      = ShowControls ext io (DeviceIsStarted ext w) (PollDevice ext w)
      /\ PollDevice ext w = checkMicrophone ext w2
      /\ (m_microphone ext w = None -> PollDevice ext w = w2)
      /\ count isPollCameras (devCalls (Show ext io w))
         = (count isPollCameras (devCalls w)
            + if Device_CamerasAreStarted ext (m_device ext w)
              then 1 else 0)%nat
      /\ exists samples status x' h',
          ImuQueueRun ext (hw ext (m_device ext w1))
                      (imu_sample_uninitialized ext) samples status x' h'
          /\ count isPollImu (devCalls (Show ext io w))
             = (count isPollImu (devCalls w)
                + if Device_ImuIsStarted ext (m_device ext w1)
                  then S (List.length samples) else 0)%nat).
Proof.
  split; [ | split ].
  - intros Hclose. rewrite (Show_closed io w Hclose). split; reflexivity.
  - intros Hopen Hpaused. rewrite (Show_paused io w Hopen Hpaused).
    split; [reflexivity | apply ShowControls_no_poll].
  - intros Hopen Hrunning w1 w2.
    rewrite (Show_running io w Hopen Hrunning).
    destruct (ShowControls_no_poll io (DeviceIsStarted ext w)
                (PollDevice ext w)) as [Hc Hi].
    split; [reflexivity | ]. split; [reflexivity | ]. split.
    { intros Hmic. change (PollDevice ext w) with (checkMicrophone ext w2).
      apply checkMicrophone_absent. subst w2 w1.
      destruct (Device_CamerasAreStarted ext (m_device ext w)),
        (Device_ImuIsStarted ext _); exact Hmic. }
    split.
    { rewrite Hc. apply PollDevice_camera_polls. }
    destruct (PollDevice_imu_polls w) as (samples & status & x' & h' & Hrun & E).
    exists samples, status, x', h'. split; [exact Hrun | ].
    rewrite Hi. exact E.
Qed.

End ShowFacts.

Lemma Show_polls_once_unless_paused_witness :
  let w := simWorld (simHardware true true [5; 6])
                    (defaultDeviceConfiguration simExternals) false false in
  count isPollCameras
        (calls simExternals (m_device simExternals
                               (Show simExternals quietInput w))) = 1%nat.
Proof.
  intros w.
  destruct (Show_polls_once_unless_paused simExternals quietInput w)
    as [_ [_ H]].
  destruct (H eq_refl eq_refl) as (_ & _ & _ & Hc & _).
  exact Hc.
Defined.

(** C7, as stated, fails on a paused panel: with the cameras and the IMU
    started, a call to [Show] reaches the device with no poll at all. *)
Lemma Show_paused_does_not_poll :
  let w := simWorld (simHardware true true [5; 6])
                    (defaultDeviceConfiguration simExternals) false true in
  Device_CamerasAreStarted simExternals (m_device simExternals w) = true
  /\ Device_ImuIsStarted simExternals (m_device simExternals w) = true
  /\ calls simExternals (m_device simExternals
                           (Show simExternals quietInput w)) = [].
Proof. repeat split. Qed.

Section StartFacts.

Variable ext : K4AExternals.

Local Abbreviation World := (World ext).
Local Abbreviation Call := (DeviceCall (k4a_device_configuration_t ext)).
Local Abbreviation devCalls w := (calls ext (m_device ext w)).
Local Abbreviation pending w := (m_pendingDeviceConfiguration ext w).

Lemma PollDevice_pending (w : World) :
  pending (PollDevice ext w) = pending w.
Proof.
  apply (PollDevice_step ext (fun _ => True) w); split; exact I.
Qed.

(** What [Show] as a whole adds to the device's call log. *)
Lemma Show_calls (P : Call -> Prop) io (w : World) :
  AllowsPoll P -> AllowsColor P -> AllowsSync P -> AllowsStop P ->
  AllowsCalibration P ->
  (activated io "Start" = true -> AllowsStart P (pending (Show ext io w))) ->
  callsAdded P w (Show ext io w).
Proof.
  intros Hpoll Hcolor Hsync Hstop Hcal. unfold Show.
  destruct (Button io "Close device");
    [intros _; apply callsAdded_same; destruct w; reflexivity | ].
  destruct (negb (m_paused ext w)); cbv zeta; intros Hstart.
  - eapply callsAdded_trans;
      [ apply (PollDevice_step ext P w); assumption
      | apply ShowControls_calls; assumption ].
  - apply ShowControls_calls; assumption.
Qed.

(** A frame that only edits the configuration changes, polling apart,
    nothing but the pending configuration and [m_firstRun]. *)
Lemma set_pending_twice c1 c2 (w : World) :
  set_m_pendingDeviceConfiguration ext c2
    (set_m_pendingDeviceConfiguration ext c1 w)
  = set_m_pendingDeviceConfiguration ext c2 w.
Proof. destruct w; reflexivity. Qed.

Lemma set_pending_same (w : World) :
  set_m_pendingDeviceConfiguration ext (pending w) w = w.
Proof. destruct w; reflexivity. Qed.

Lemma ShowExternalSync_edits_only io b (w : World) :
  activated io "Refresh" = false ->
  exists cfg,
    ShowExternalSync ext io b w = set_m_pendingDeviceConfiguration ext cfg w.
Proof.
  intros Hrefresh. unfold ShowExternalSync, Button. rewrite Hrefresh.
  destruct (TreeNode io "External Sync" _).
  - eexists. reflexivity.
  - exists (pending w). symmetry. apply set_pending_same.
Qed.

Lemma ShowSettingsButtons_idle io b (w : World) :
  activated io "Restore" = false -> activated io "Save" = false ->
  activated io "Reset" = false ->
  ShowSettingsButtons ext io b w = w.
Proof.
  intros Hrestore Hsave Hreset. unfold ShowSettingsButtons, K4AButton.
  rewrite Hrestore, Hsave, Hreset, !andb_false_r. reflexivity.
Qed.

Lemma ShowStartStop_idle io b (w : World) :
  activated io "Start" = false -> activated io "Stop" = false ->
  activated io "Pause" = false -> activated io "Resume" = false ->
  (forall viewType enabled pointCloud,
      ShowModeSelector ext io viewType enabled pointCloud = (viewType, None)) ->
  ShowStartStop ext io b w = w.
Proof.
  intros Hstart Hstop Hpause Hresume Hmode.
  unfold ShowStartStop, K4AButton, Button.
  rewrite Hstart, Hstop, Hpause, Hresume, !andb_false_r. cbv zeta.
  rewrite Hmode.
  destruct b; cbn [negb]; [ | reflexivity ].
  destruct w as [d mic cfg cache cc ic cds ids sin sout first paused vt
                 errs wins saved].
  destruct paused; reflexivity.
Qed.

Lemma ShowConfiguration_edits_only io b (w : World) :
  nodeOpen io "Color Controls" = false ->
  activated io "Refresh" = false ->
  activated io "Restore" = false -> activated io "Save" = false ->
  activated io "Reset" = false ->
  exists cfg,
    ShowConfiguration ext io b w = set_m_pendingDeviceConfiguration ext cfg w.
Proof.
  intros Hcolor Hrefresh Hrestore Hsave Hreset.
  unfold ShowConfiguration, ShowColorControlsNode, TreeNode. cbv zeta.
  rewrite Hcolor.
  rewrite ShowSettingsButtons_idle by assumption.
  match goal with
  | |- context [ShowExternalSync ext io b ?x] =>
      destruct (ShowExternalSync_edits_only io b x Hrefresh) as [cfg ->]
  end.
  unfold onPending. rewrite !set_pending_twice.
  eexists. reflexivity.
Qed.

Lemma ShowControls_edits_only io b (w : World) :
  editsConfigurationOnly ext io ->
  exists cfg,
    ShowControls ext io b w
    = set_m_firstRun ext false (set_m_pendingDeviceConfiguration ext cfg w).
Proof.
  intros (_ & Hcolor & Hrefresh & Hrestore & Hsave & Hreset & Hstart
          & Hstop & Hpause & Hresume & Hmode).
  unfold ShowControls. cbv zeta.
  rewrite ShowStartStop_idle by assumption.
  destruct (ShowConfiguration_edits_only io b w Hcolor Hrefresh Hrestore
              Hsave Hreset) as [cfg ->].
  exists cfg. reflexivity.
Qed.

(** C6. The widgets that edit the pending configuration act on that
    struct only: a frame in which the user does nothing but operate them
    changes, polling apart, only [m_pendingDeviceConfiguration] (and
    [m_firstRun]).  Whatever the widgets are doing, a frame in which the
    Start button is not pressed makes no [StartCameras] or [StartImu] call
    on the device; and any [StartCameras] call made during a frame is
    passed the conversion of the pending configuration as that frame
    leaves it. *)
Theorem Show_starts_only_on_Start io (w : World) :
  (editsConfigurationOnly ext io ->
   exists cfg,
     Show ext io w
     = set_m_firstRun ext false
         (set_m_pendingDeviceConfiguration ext cfg
            (if m_paused ext w then w else PollDevice ext w)))
  /\ (activated io "Start" = false ->
      callsAdded (fun c => isStart c = false) w (Show ext io w))
  /\ callsAdded
       (fun c => forall deviceConfig,
            c = CallStartCameras deviceConfig ->
            activated io "Start" = true
            /\ deviceConfig
               = ToK4ADeviceConfiguration ext (pending (Show ext io w)))
       w (Show ext io w).
Proof.
  split; [ | split ].
  - intros Hedit. pose proof Hedit as [Hclose _].
    unfold Show, Button. rewrite Hclose. cbv zeta.
    destruct (m_paused ext w); cbn [negb];
      apply ShowControls_edits_only; exact Hedit.
  - intros Hstart. apply Show_calls; try (repeat split; reflexivity).
    rewrite Hstart. discriminate.
  - apply Show_calls; try (repeat split; intros; discriminate).
    intros Hstart. split; intros; [ | discriminate ].
    match goal with H : CallStartCameras _ = CallStartCameras _ |- _ =>
      injection H as <- end.
    split; [exact Hstart | reflexivity].
Qed.

End StartFacts.

Lemma Show_starts_only_on_Start_witness :
  let w := simWorld (simHardware false false [])
                    (defaultDeviceConfiguration simExternals) true false in
  callsAdded (fun c => isStart c = false) w (Show simExternals quietInput w).
Proof.
  intros w.
  apply (proj1 (proj2 (Show_starts_only_on_Start simExternals quietInput w))).
  reflexivity.
Defined.

(** Pressing Start on the simulated device, with the default
    configuration pending: the cameras are started with the conversion of
    the pending configuration as the frame's widgets left it (with no
    microphone, [EnableMicrophone] was cleared), then the IMU. *)
Example Show_Start_pressed :
  let w := simWorld (simHardware false false [])
                    (defaultDeviceConfiguration simExternals) false false in
  calls simExternals
        (m_device simExternals (Show simExternals (pressOnly "Start") w))
  = [CallStartCameras
       (ToK4ADeviceConfiguration simExternals
          (set_EnableMicrophone false
             (defaultDeviceConfiguration simExternals)));
     CallStartImu].
Proof. reflexivity. Qed.

(* ================================================================== *)
(** ** The framerate limit and [SynchronizedImagesOnly] *)

Lemma depth_mode_eqb_eq a b : depth_mode_eqb a b = true <-> a = b.
Proof. destruct a, b; simpl; split; congruence. Qed.

Lemma color_resolution_eqb_eq a b : color_resolution_eqb a b = true <-> a = b.
Proof. destruct a, b; simpl; split; congruence. Qed.

Lemma radioOn_Framerate_30 io label vButton enabled acc :
  Framerate (snd (radioOn io label Framerate set_Framerate vButton enabled
                          acc)) = K4A_FRAMES_PER_SECOND_30 ->
  Framerate (snd acc) = K4A_FRAMES_PER_SECOND_30
  \/ (vButton = K4A_FRAMES_PER_SECOND_30 /\ enabled = true).
Proof.
  unfold radioOn, K4ARadioButton. destruct acc as [u cfg].
  destruct enabled; cbn; [ | tauto ].
  destruct (activated io label); cbn; [ | tauto ].
  intros ->. right. split; reflexivity.
Qed.

(** C8 (as amended). Inside the "Depth Configuration" node, which on
    the first frame is open exactly when the depth camera is enabled: if
    the depth mode was updated in this frame or it is the first frame, and
    the pending depth mode is WFOV Unbinned, the pending framerate is set
    to 15 FPS; with the node closed nothing of this happens.  The same
    holds inside the "Color Configuration" node for a pending color
    resolution of 3072p.  The 30 FPS button is selectable only when
    neither (color camera enabled with 3072p) nor (depth camera enabled
    with WFOV Unbinned) holds, and the framerate buttons cannot otherwise
    produce 30 FPS. *)
Theorem Framerate_limited_to_15 io deviceIsStarted firstRun cfg :
  (let toggled := checkboxOn io "Enable Depth Camera" EnableDepthCamera
                    set_EnableDepthCamera (negb deviceIsStarted) cfg in
   let changed := fst toggled in
   let cfg1 := snd toggled in
   let isOpen := depthNodeOpen io firstRun changed cfg1 in
   let updated :=
     fst (DepthModeButtons io (negb deviceIsStarted && EnableDepthCamera cfg1)
                           (changed, cfg1)) in
   let cfg' := ShowDepthCamera io deviceIsStarted firstRun cfg in
   (firstRun = true -> isOpen = EnableDepthCamera cfg1)
   /\ (isOpen = true -> updated || firstRun = true ->
       DepthMode cfg' = K4A_DEPTH_MODE_WFOV_UNBINNED ->
       Framerate cfg' = K4A_FRAMES_PER_SECOND_15)
   /\ (isOpen = false -> cfg' = cfg1))
  /\ (let toggled := checkboxOn io "Enable Color Camera" EnableColorCamera
                       set_EnableColorCamera (negb deviceIsStarted) cfg in
      let changed := fst toggled in
      let cfg1 := snd toggled in
      let isOpen := colorNodeOpen io firstRun changed cfg1 in
      let editable := negb deviceIsStarted && EnableColorCamera cfg1 in
      let cfg2 := ColorFormatPart io editable firstRun cfg1 in
      let updated :=
        fst (ColorResolutionButtons io editable
               (imageFormatSupportsHighResolution cfg2) (changed, cfg2)) in
      let cfg' := ShowColorCamera io deviceIsStarted firstRun cfg in
      (firstRun = true -> isOpen = EnableColorCamera cfg1)
      /\ (isOpen = true -> updated || firstRun = true ->
          ColorResolution cfg' = K4A_COLOR_RESOLUTION_3072P ->
          Framerate cfg' = K4A_FRAMES_PER_SECOND_15)
      /\ (isOpen = false -> cfg' = cfg1))
  /\ (fps30Selectable deviceIsStarted cfg = true ->
      ~ (EnableColorCamera cfg = true
         /\ ColorResolution cfg = K4A_COLOR_RESOLUTION_3072P)
      /\ ~ (EnableDepthCamera cfg = true
            /\ DepthMode cfg = K4A_DEPTH_MODE_WFOV_UNBINNED))
  /\ (Framerate (ShowFramerate io deviceIsStarted cfg)
      = K4A_FRAMES_PER_SECOND_30 ->
      Framerate cfg = K4A_FRAMES_PER_SECOND_30
      \/ fps30Selectable deviceIsStarted cfg = true).
Proof.
  split; [ | split; [ | split ] ].
  - cbv zeta. unfold ShowDepthCamera.
    destruct (checkboxOn io "Enable Depth Camera" _ _ _ cfg)
      as [changed cfg1]. cbn [fst snd].
    split; [ | split ].
    + unfold depthNodeOpen, TreeNode. intros ->. reflexivity.
    + intros -> Hupd. unfold DepthConfigurationNode.
      destruct (DepthModeButtons io _ (changed, cfg1)) as [updated cfg2].
      cbn [fst] in Hupd. rewrite Hupd.
      destruct (depth_mode_eqb (DepthMode cfg2) K4A_DEPTH_MODE_WFOV_UNBINNED)
        eqn:E; [reflexivity | ].
      intros Hmode. apply depth_mode_eqb_eq in Hmode. congruence.
    + intros ->. reflexivity.
  - cbv zeta. unfold ShowColorCamera.
    destruct (checkboxOn io "Enable Color Camera" _ _ _ cfg)
      as [changed cfg1]. cbn [fst snd].
    split; [ | split ].
    + unfold colorNodeOpen, TreeNode. intros ->. reflexivity.
    + intros -> Hupd. unfold ColorConfigurationNode. cbv zeta.
      destruct (ColorResolutionButtons io _ _ _) as [updated cfg3].
      cbn [fst] in Hupd. rewrite Hupd.
      destruct (color_resolution_eqb (ColorResolution cfg3)
                                     K4A_COLOR_RESOLUTION_3072P)
        eqn:E; [reflexivity | ].
      intros Hres. apply color_resolution_eqb_eq in Hres. congruence.
    + intros ->. reflexivity.
  - unfold fps30Selectable, supports30fps. intros H.
    apply andb_prop in H as [_ H]. apply andb_prop in H as [Hc Hd].
    apply negb_true_iff in Hc, Hd. split; intros [He Hv].
    + rewrite He, Hv in Hc. discriminate Hc.
    + rewrite He, Hv in Hd. discriminate Hd.
  - unfold ShowFramerate, fps30Selectable. cbv zeta. intros H.
    apply radioOn_Framerate_30 in H as [H | [H _]]; [ | discriminate H ].
    apply radioOn_Framerate_30 in H as [H | [H _]]; [ | discriminate H ].
    apply radioOn_Framerate_30 in H as [H | [_ H]]; [left | right];
      exact H.
Qed.

Lemma Framerate_limited_to_15_witness :
  Framerate (ShowDepthCamera quietInput false true wideDepthEnabled)
  = K4A_FRAMES_PER_SECOND_15.
Proof.
  apply (proj1 (proj2 (proj1 (Framerate_limited_to_15 quietInput false true
                                wideDepthEnabled))));
    reflexivity.
Defined.

(** C8, as stated, fails on the first frame when the depth camera is
    disabled: the "Depth Configuration" node is then closed, and a pending
    depth mode of WFOV Unbinned leaves the framerate at 30 FPS. *)
Lemma Show_first_frame_keeps_30fps :
  let w := simWorld (simHardware false false []) wideDepthDisabled
                    true false in
  let w' := Show simExternals quietInput w in
  m_firstRun simExternals w = true
  /\ DepthMode (m_pendingDeviceConfiguration simExternals w')
     = K4A_DEPTH_MODE_WFOV_UNBINNED
  /\ Framerate (m_pendingDeviceConfiguration simExternals w')
     = K4A_FRAMES_PER_SECOND_30.
Proof. repeat split. Qed.

Section SyncOnlyFacts.

Variable ext : K4AExternals.

Local Abbreviation World := (World ext).
Local Abbreviation pending w := (m_pendingDeviceConfiguration ext w).

(** The three fields [syncOnlyConsistent] reads. *)
Local Abbreviation syncFields cfg :=
  (SynchronizedImagesOnly cfg, EnableColorCamera cfg, EnableDepthCamera cfg).

Lemma syncOnlyConsistent_fields cfg cfg' :
  syncFields cfg' = syncFields cfg ->
  syncOnlyConsistent cfg' = syncOnlyConsistent cfg.
Proof.
  unfold syncOnlyConsistent, synchronizedImagesAvailable.
  intros H. injection H as -> -> ->. reflexivity.
Qed.

Lemma ShowSensorToggles_fields io b mic cfg :
  syncFields (ShowSensorToggles io b mic cfg)
  = (SynchronizedImagesOnly cfg
     && (EnableColorCamera cfg && EnableDepthCamera cfg),
     EnableColorCamera cfg, EnableDepthCamera cfg).
Proof.
  unfold ShowSensorToggles, checkboxOn, K4ACheckbox,
    clearSynchronizedImagesOnly, synchronizedImagesAvailable.
  destruct (negb b && activated io "Disable streaming LED"),
    (negb b && activated io "Enable IMU"), mic,
    (negb b && activated io "Enable Microphone"); reflexivity.
Qed.

Lemma ShowSensorToggles_consistent io b mic cfg :
  syncOnlyConsistent (ShowSensorToggles io b mic cfg) = true.
Proof.
  pose proof (ShowSensorToggles_fields io b mic cfg) as H.
  injection H as Hs Hc Hd.
  unfold syncOnlyConsistent, synchronizedImagesAvailable.
  rewrite Hs, Hc, Hd.
  destruct (SynchronizedImagesOnly cfg), (EnableColorCamera cfg),
    (EnableDepthCamera cfg); reflexivity.
Qed.

Lemma ShowInternalSync_consistent io b cfg :
  syncOnlyConsistent cfg = true ->
  syncOnlyConsistent (ShowInternalSync io b cfg) = true.
Proof.
  unfold ShowInternalSync, checkboxOn, K4ACheckbox, syncOnlyConsistent,
    synchronizedImagesAvailable.
  destruct (TreeNode io "Internal Sync" None); [ | trivial ].
  destruct cfg as [color depth ? ? ? ? ? ? ? ? sync ? ?].
  destruct b, (activated io "Synchronized images only"), sync, color, depth;
    cbn; trivial.
Qed.

Lemma radioOn_WiredSyncMode_fields io label vButton enabled acc :
  syncFields (snd (radioOn io label WiredSyncMode set_WiredSyncMode vButton
                           enabled acc))
  = syncFields (snd acc).
Proof.
  unfold radioOn, K4ARadioButton. destruct acc as [u cfg].
  destruct (enabled && activated io label); reflexivity.
Qed.

Lemma RefreshSyncCableStatus_pending (w : World) :
  pending (RefreshSyncCableStatus ext w) = pending w.
Proof. apply (RefreshSyncCableStatus_step ext (fun _ => True) w). exact I. Qed.

Lemma ShowExternalSync_consistent io b (w : World) :
  syncOnlyConsistent (pending w) = true ->
  syncOnlyConsistent (pending (ShowExternalSync ext io b w)) = true.
Proof.
  intros H. unfold ShowExternalSync.
  destruct (TreeNode io "External Sync" _); [ | exact H ]. cbv zeta.
  set (w1 := if Button io "Refresh" then RefreshSyncCableStatus ext w else w).
  assert (E : pending w1 = pending w).
  { subst w1. destruct (Button io "Refresh");
      [apply RefreshSyncCableStatus_pending | reflexivity]. }
  change (pending (set_m_pendingDeviceConfiguration ext ?c ?x)) with c.
  rewrite <- H. apply syncOnlyConsistent_fields.
  change (syncFields (set_SubordinateDelayOffMasterUsec ?v ?c))
    with (syncFields c).
  rewrite !radioOn_WiredSyncMode_fields. cbn [snd]. rewrite E.
  destruct (negb _); reflexivity.
Qed.

Lemma ShowSettingsButtons_pending io b (w : World) :
  K4AButton io "Restore" (negb b) = false ->
  K4AButton io "Reset" (negb b) = false ->
  pending (ShowSettingsButtons ext io b w) = pending w.
Proof.
  unfold ShowSettingsButtons. intros -> ->.
  destruct (K4AButton io "Save" (negb b)); reflexivity.
Qed.

Lemma ShowConfiguration_consistent io b (w : World) :
  K4AButton io "Restore" (negb b) = false ->
  K4AButton io "Reset" (negb b) = false ->
  syncOnlyConsistent (pending (ShowConfiguration ext io b w)) = true.
Proof.
  intros Hrestore Hreset. unfold ShowConfiguration. cbv zeta.
  rewrite ShowSettingsButtons_pending by assumption.
  apply ShowExternalSync_consistent.
  unfold onPending at 1.
  change (pending (set_m_pendingDeviceConfiguration ext ?c ?x)) with c.
  apply ShowInternalSync_consistent.
  unfold onPending at 1.
  change (pending (set_m_pendingDeviceConfiguration ext ?c ?x)) with c.
  apply ShowSensorToggles_consistent.
Qed.

(** C10 (as amended). In every frame that is not cut short by the
    "Close device" button, once the enable checkboxes (and the streaming
    LED and IMU ones) are processed, [SynchronizedImagesOnly] is cleared
    unless both the color and the depth camera are enabled; and at the end
    of such a call to [Show] in which neither "Restore" nor "Reset" takes
    effect, [SynchronizedImagesOnly] implies that both cameras are
    enabled. *)
Theorem Show_SynchronizedImagesOnly io (w : World) :
  (forall b mic cfg,
      let cfg' := ShowSensorToggles io b mic cfg in
      SynchronizedImagesOnly cfg'
      = SynchronizedImagesOnly cfg
        && (EnableColorCamera cfg && EnableDepthCamera cfg)
      /\ EnableColorCamera cfg' = EnableColorCamera cfg
      /\ EnableDepthCamera cfg' = EnableDepthCamera cfg)
  /\ (Button io "Close device" = false ->
      K4AButton io "Restore" (negb (DeviceIsStarted ext w)) = false ->
      K4AButton io "Reset" (negb (DeviceIsStarted ext w)) = false ->
      let cfg' := pending (Show ext io w) in
      SynchronizedImagesOnly cfg' = true ->
      EnableColorCamera cfg' = true /\ EnableDepthCamera cfg' = true).
Proof.
  split.
  - intros b mic cfg. cbv zeta.
    pose proof (ShowSensorToggles_fields io b mic cfg) as H.
    injection H as Hs Hc Hd. repeat split; assumption.
  - intros Hopen Hrestore Hreset. cbv zeta.
    assert (H : syncOnlyConsistent (pending (Show ext io w)) = true).
    { unfold Show. rewrite Hopen. cbv zeta.
      rewrite ShowControls_pending.
      apply ShowConfiguration_consistent; assumption. }
    unfold syncOnlyConsistent, synchronizedImagesAvailable in H.
    intros Hs. rewrite Hs in H. cbn in H.
    apply andb_prop in H. exact H.
Qed.

End SyncOnlyFacts.

Lemma Show_SynchronizedImagesOnly_witness :
  let w := simWorld (simHardware false false [])
                    (defaultDeviceConfiguration simExternals) true false in
  let cfg' := m_pendingDeviceConfiguration simExternals
                (Show simExternals quietInput w) in
  SynchronizedImagesOnly cfg' = true
  /\ EnableColorCamera cfg' = true /\ EnableDepthCamera cfg' = true.
Proof.
  intros w cfg'. split; [reflexivity | ].
  apply (proj2 (Show_SynchronizedImagesOnly simExternals quietInput w));
    reflexivity.
Defined.

(** C10, as stated, fails at the end of a call to [Show] in which
    "Restore" reloads a saved configuration that asks for synchronized
    images with the depth camera disabled, and of a call cut short by
    "Close device" on a panel holding such a configuration. *)
Lemma Show_can_end_with_SynchronizedImagesOnly_alone :
  let w := simWorld (simHardware false false []) syncOnlyWithoutDepth
                    false false in
  let restored := m_pendingDeviceConfiguration simExternals
                    (Show simExternals (pressOnly "Restore") w) in
  let closed := m_pendingDeviceConfiguration simExternals
                  (Show simExternals (pressOnly "Close device") w) in
  (SynchronizedImagesOnly restored = true
   /\ EnableDepthCamera restored = false)
  /\ (SynchronizedImagesOnly closed = true
      /\ EnableDepthCamera closed = false).
Proof. repeat split. Qed.

(* ================================================================== *)
(** * Further properties of the code *)

(* ================================================================== *)
(** ** The timeout counter over many polls *)

Lemma HasTimedOut_capped (r : k4a_wait_result_t) (n : nat) :
  snd (HasTimedOut r (Z.min 120 (Z.of_nat n)))
  = Z.min 120 (Z.of_nat match r with
                        | K4A_WAIT_RESULT_SUCCEEDED => O
                        | K4A_WAIT_RESULT_TIMEOUT => S n
                        | K4A_WAIT_RESULT_FAILED => n
                        end).
Proof.
  destruct r; unfold HasTimedOut, MaxTimeoutCount; cbn [wait_result_eqb snd].
  - reflexivity.
  - reflexivity.
  - destruct (Z.ltb_spec (Z.min 120 (Z.of_nat n)) 120); cbn [snd]; lia.
Qed.

Lemma counterAfter_capped (results : list k4a_wait_result_t) (n : nat) :
  counterAfter results (Z.min 120 (Z.of_nat n))
  = Z.min 120
      (Z.of_nat
         (fold_left (fun n r => match r with
                                | K4A_WAIT_RESULT_SUCCEEDED => O
                                | K4A_WAIT_RESULT_TIMEOUT => S n
                                | K4A_WAIT_RESULT_FAILED => n
                                end) results n)).
Proof.
  unfold counterAfter. revert n.
  induction results as [|r results IH]; intros n; [reflexivity | ].
  cbn [fold_left]. rewrite HasTimedOut_capped. apply IH.
Qed.

Lemma counterAfter_app (l1 l2 : list k4a_wait_result_t) (c : Z) :
  counterAfter (l1 ++ l2) c = counterAfter l2 (counterAfter l1 c).
Proof. unfold counterAfter. apply fold_left_app. Qed.

Lemma PollSensor_counter {Device T} (serial : Device -> string) (data0 : T)
    name (pollFn : PollFn Device T) (stopFn : StopFn Device) r :
  timeoutCounter (PollSensor serial data0 name pollFn stopFn r)
  = snd (HasTimedOut (poll_status (pollFn (device r) data0))
                     (timeoutCounter r)).
Proof.
  unfold PollSensor, poll_status.
  destruct (pollFn (device r) data0) as [[status data] d1]. cbn [fst].
  destruct (HasTimedOut status (timeoutCounter r)) as [timedOut c].
  destruct status, timedOut; reflexivity.
Qed.

Lemma PollSensor_device_scripted serial name stopFn
    (r : SensorRefs (list k4a_wait_result_t) Z) :
  (forall d, stopFn d = d) ->
  device (PollSensor serial 0 name scriptedPoll stopFn r) = tl (device r)
  /\ poll_status (scriptedPoll (device r) 0)
     = hd K4A_WAIT_RESULT_TIMEOUT (device r).
Proof.
  intros Hstop.
  destruct (PollSensor_device_cases serial 0 name scriptedPoll stopFn r)
    as [stopped E].
  rewrite E, Hstop. destruct stopped, (device r); split; reflexivity.
Qed.

Lemma firstn_skipn_step {A} (n : nat) (l : list A) (d : A) :
  (n < List.length l)%nat ->
  firstn (S n) l = firstn n l ++ [hd d (skipn n l)]
  /\ skipn (S n) l = tl (skipn n l).
Proof.
  revert l. induction n as [|n IH]; intros [|a l] Hn; simpl in Hn;
    try lia.
  - split; reflexivity.
  - destruct (IH l ltac:(lia)) as [E1 E2]. split.
    + change (firstn (S (S n)) (a :: l)) with (a :: firstn (S n) l).
      rewrite E1. reflexivity.
    + exact E2.
Qed.

Lemma PollFrames_scripted serial name stopFn script c (n : nat) :
  (forall d, stopFn d = d) ->
  (n <= List.length script)%nat ->
  let r := PollFrames serial 0 n name scriptedPoll stopFn
                      (scriptedRefs script c) in
  device r = skipn n script
  /\ timeoutCounter r = counterAfter (firstn n script) c.
Proof.
  intros Hstop. induction n as [|n IH]; intros Hn; cbv zeta.
  - split; reflexivity.
  - destruct (IH ltac:(lia)) as [Hd Hc]. cbn [PollFrames].
    destruct (PollSensor_device_scripted serial name stopFn
                (PollFrames serial 0 n name scriptedPoll stopFn
                            (scriptedRefs script c)) Hstop) as [Ed Es].
    destruct (firstn_skipn_step n script K4A_WAIT_RESULT_TIMEOUT
                ltac:(lia)) as [F1 F2].
    split.
    + rewrite Ed, Hd, F2. reflexivity.
    + rewrite PollSensor_counter, Es, Hd, Hc, F1, counterAfter_app.
      reflexivity.
Qed.

(** X1. Over any sequence of poll results, starting from a counter at
    zero, the timeout counter [PollSensor] keeps is the number of timeouts
    since the last success, capped at 120; a failed poll in between
    neither counts nor resets it.  So the next timeout is fatal exactly
    when 120 or more timeouts have come since the last success. *)
Theorem timeoutCounter_counts_since_success serial name
    (script : list k4a_wait_result_t) :
  let r := PollFrames serial 0 (List.length script) name scriptedPoll
                      (fun d => d) (scriptedRefs script 0) in
  timeoutCounter r = Z.min 120 (Z.of_nat (timeoutsSinceSuccess script))
  /\ fst (HasTimedOut K4A_WAIT_RESULT_TIMEOUT (timeoutCounter r))
     = (120 <=? timeoutsSinceSuccess script)%nat.
Proof.
  cbv zeta.
  destruct (PollFrames_scripted serial name (fun d => d) script 0
              (List.length script) (fun d => eq_refl) (le_n _)) as [_ Hc].
  rewrite firstn_all in Hc.
  assert (E : timeoutCounter
                (PollFrames serial 0 (List.length script) name scriptedPoll
                            (fun d => d) (scriptedRefs script 0))
              = Z.min 120 (Z.of_nat (timeoutsSinceSuccess script))).
  { rewrite Hc. exact (counterAfter_capped script 0). }
  split; [exact E | ]. rewrite E.
  unfold HasTimedOut, MaxTimeoutCount. cbn [wait_result_eqb].
  destruct (Z.ltb_spec (Z.min 120 (Z.of_nat (timeoutsSinceSuccess script)))
                       120);
    destruct (Nat.leb_spec 120 (timeoutsSinceSuccess script));
    cbn [fst]; try reflexivity; lia.
Qed.

Section PollSensorMore.

Context {Device T : Type}.
Variable GetSerialNumber : Device -> string.
Variable data0 : T.
Variable sensorFriendlyName : string.
Variable pollFn : PollFn Device T.
Variable stopFn : StopFn Device.

Local Abbreviation poll := (PollSensor GetSerialNumber data0
                                       sensorFriendlyName pollFn stopFn).
Local Abbreviation frames n := (PollFrames GetSerialNumber data0 n
                                           sensorFriendlyName pollFn stopFn).

Lemma HasTimedOut_range status c :
  0 <= c <= 120 -> 0 <= snd (HasTimedOut status c) <= 120.
Proof.
  intros Hc. unfold HasTimedOut, MaxTimeoutCount.
  destruct status; cbn [wait_result_eqb snd]; try lia.
  destruct (Z.ltb_spec c 120); cbn [snd]; lia.
Qed.

(** X2. Whatever the poll and stop functions do and whatever the polls
    return, a timeout counter that starts within 0..120 stays within
    0..120 through any number of [PollSensor] calls: the [int] never
    overflows and never goes negative. *)
Theorem timeoutCounter_stays_in_range r (n : nat) :
  0 <= timeoutCounter r <= 120 ->
  0 <= timeoutCounter (PollFrames GetSerialNumber data0 n
                                  sensorFriendlyName pollFn stopFn r) <= 120.
Proof.
  intros Hr. induction n as [|n IH]; [exact Hr | ].
  cbn [PollFrames]. rewrite PollSensor_counter.
  apply HasTimedOut_range. exact IH.
Qed.

(** X3. The three effects of the fatal path come together or not at
    all: either [PollSensor] leaves the device as the poll left it, sets
    no error status and broadcasts at most the one polled payload, or it
    calls [stopFn], sets exactly one error status and broadcasts exactly
    one termination.  It never stops a sensor silently and never notifies
    termination of a sensor it leaves running. *)
Theorem PollSensor_stops_only_with_error r :
  let polled := pollFn (device r) data0 in
  (device (poll r) = poll_device polled
   /\ errorManager (poll r) = errorManager r
   /\ (dataSource (poll r) = dataSource r
       \/ dataSource (poll r)
          = NotifyObservers (poll_data polled) (dataSource r)))
  \/ (device (poll r) = stopFn (poll_device polled)
      /\ (exists msg,
             errorManager (poll r) = SetErrorStatus msg (errorManager r))
      /\ dataSource (poll r) = NotifyTermination (dataSource r)).
Proof.
  cbv zeta. unfold PollSensor, poll_device, poll_data.
  destruct (pollFn (device r) data0) as [[status data] d1].
  destruct (HasTimedOut status (timeoutCounter r)) as [timedOut c].
  destruct status, timedOut; cbn;
    first [ left; repeat split; (now left) || (now right)
          | right; repeat split; eexists; reflexivity ].
Qed.

End PollSensorMore.

Lemma timeoutCounter_stays_in_range_witness :
  0 <= timeoutCounter
         (PollFrames journalSerial 0 300 "Cameras" silentPoll journalStop
                     (journalRefs 0)) <= 120.
Proof.
  apply (timeoutCounter_stays_in_range journalSerial 0 "Cameras" silentPoll
           journalStop (journalRefs 0) 300).
  simpl. lia.
Defined.

(* ================================================================== *)
(** ** Color settings: loading, idle frames, white balance *)

Section ColorControlFacts.

Variable ext : K4AExternals.

Local Abbreviation World := (World ext).
Local Abbreviation devCalls w := (calls ext (m_device ext w)).

Lemma ReadColorSetting_calls command cacheEntry (w : World) :
  devCalls (snd (ReadColorSetting ext command cacheEntry w))
  = devCalls w ++ [CallGetColorControl command].
Proof. rewrite ReadColorSetting_eq. destruct w; reflexivity. Qed.

Lemma read_applied entry command (w : World) :
  devCalls (onCacheEntry ext entry (ReadColorSetting ext command) w)
  = devCalls w ++ [CallGetColorControl command].
Proof. rewrite onCacheEntry_device. apply ReadColorSetting_calls. Qed.

Lemma ReadColorSetting_keeps command cacheEntry (w : World) :
  let w' := snd (ReadColorSetting ext command cacheEntry w) in
  m_pendingDeviceConfiguration ext w' = m_pendingDeviceConfiguration ext w
  /\ m_colorSettingsCache ext w' = m_colorSettingsCache ext w.
Proof.
  cbv zeta. rewrite ReadColorSetting_eq. destruct w; split; reflexivity.
Qed.

(** X4. [LoadColorSettingsCache] only reads: the device receives
    exactly ten [GetColorControl] calls, one for each color control
    command, in the order of the cache entries, and no write; the pending
    configuration is not touched. *)
Theorem LoadColorSettingsCache_only_reads (w : World) :
  devCalls (LoadColorSettingsCache ext w)
  = devCalls w ++
    [CallGetColorControl K4A_COLOR_CONTROL_EXPOSURE_TIME_ABSOLUTE;
     CallGetColorControl K4A_COLOR_CONTROL_WHITEBALANCE;
     CallGetColorControl K4A_COLOR_CONTROL_AUTO_EXPOSURE_PRIORITY;
     CallGetColorControl K4A_COLOR_CONTROL_BRIGHTNESS;
     CallGetColorControl K4A_COLOR_CONTROL_CONTRAST;
     CallGetColorControl K4A_COLOR_CONTROL_SATURATION;
     CallGetColorControl K4A_COLOR_CONTROL_SHARPNESS;
     CallGetColorControl K4A_COLOR_CONTROL_BACKLIGHT_COMPENSATION;
     CallGetColorControl K4A_COLOR_CONTROL_GAIN;
     CallGetColorControl K4A_COLOR_CONTROL_POWERLINE_FREQUENCY]
  /\ m_pendingDeviceConfiguration ext (LoadColorSettingsCache ext w)
     = m_pendingDeviceConfiguration ext w.
Proof.
  split.
  - unfold LoadColorSettingsCache. rewrite !read_applied.
    rewrite <- !app_assoc. reflexivity.
  - assert (H : deviceStep (fun _ => True) w (LoadColorSettingsCache ext w)).
    { unfold LoadColorSettingsCache.
      repeat (eapply deviceStep_trans;
              [ | apply onCacheEntry_step; intros e w0; split;
                  [ apply (ReadColorSetting_keeps _ e w0)
                  | eapply callsAdded_one;
                    [apply ReadColorSetting_calls | exact I] ] ]).
      apply deviceStep_refl. }
    exact (proj1 H).
Qed.

(* ------------------------------------------------------------------ *)
(** *** A frame that does not touch the color controls *)

Lemma onCacheEntry_idle entry f (w : World) :
  (forall e, f e w = (e, w)) ->
  (forall c, entry_set entry (entry_get entry c) c = c) ->
  onCacheEntry ext entry f w = w.
Proof.
  intros Hf Hlens. unfold onCacheEntry. rewrite Hf, Hlens.
  destruct w; reflexivity.
Qed.

Lemma ShowColorControl_idle command showControl e (w : World) :
  showControl e = (ColorControlAction.None, e) ->
  ShowColorControl ext command showControl e w = (e, w).
Proof. unfold ShowColorControl. intros ->. reflexivity. Qed.

Lemma showSlider_idle io label e :
  sliderValue io label = None ->
  showSlider io label e = (ColorControlAction.None, e).
Proof.
  unfold showSlider, SliderInt. intros ->. destruct e; reflexivity.
Qed.

Lemma showCheckbox_idle io label e :
  activated io label = false ->
  showCheckbox io label e = (ColorControlAction.None, e).
Proof.
  unfold showCheckbox, CheckboxOnInt32. intros ->. destruct e; reflexivity.
Qed.

Lemma showExposureTime_idle io e :
  sliderValue io "Exposure Time" = None ->
  activatedIn io "exposure" "A" = false ->
  activatedIn io "exposure" "M" = false ->
  showExposureTime io e = (ColorControlAction.None, e).
Proof.
  unfold showExposureTime, K4ASlider, SliderInt, ShowColorControlAutoButton.
  intros -> -> ->. destruct e as [[|] v]; reflexivity.
Qed.

Lemma showWhiteBalance_idle io e :
  sliderValue io "White Balance" = None ->
  activatedIn io "whitebalance" "A" = false ->
  activatedIn io "whitebalance" "M" = false ->
  showWhiteBalance io e = (ColorControlAction.None, e).
Proof.
  unfold showWhiteBalance, K4ASlider, SliderInt, ShowColorControlAutoButton.
  intros -> -> ->. destruct e as [[|] v]; reflexivity.
Qed.

Lemma showPowerlineFrequency_idle io e :
  activated io "50Hz" = false -> activated io "60Hz" = false ->
  showPowerlineFrequency io e = (ColorControlAction.None, e).
Proof.
  unfold showPowerlineFrequency, RadioButton. intros -> ->.
  destruct e; reflexivity.
Qed.

(** X5. A frame in which the user touches none of the color control
    widgets makes no hardware round trip for them: the open "Color
    Controls" node leaves the whole state, device and cache included, as it
    was. *)
Theorem ShowColorControls_untouched io (w : World) :
  colorControlsUntouched io -> ShowColorControls ext io w = w.
Proof.
  intros ((He & Hw & Hb & Hc & Hs & Hsh & Hg)
          & (HeA & HeM & HwA & HwM)
          & (Hp & Hbl & H50 & H60 & Hreset)).
  unfold ShowColorControls, Button. rewrite Hreset. cbv zeta.
  repeat (rewrite onCacheEntry_idle;
          [ | intros e; apply ShowColorControl_idle;
              first [ apply showExposureTime_idle; assumption
                    | apply showWhiteBalance_idle; assumption
                    | apply showSlider_idle; assumption
                    | apply showCheckbox_idle; assumption
                    | apply showPowerlineFrequency_idle; assumption ]
            | intros c; destruct c; reflexivity ]).
  reflexivity.
Qed.

(* ------------------------------------------------------------------ *)
(** *** White balance and the automatic mode *)

Lemma rem_stepped (v : Z) : Z.rem (v - Z.rem v 10) 10 = 0.
Proof.
  pose proof (Z.quot_rem' v 10) as H.
  replace (v - Z.rem v 10) with (Z.quot v 10 * 10) by lia.
  apply Z.rem_mul. discriminate.
Qed.

(** X6. Whatever the user does to the white balance control, the value
    it hands on is the cached value or a multiple of 10 (the slider's
    value rounded toward zero), so that every white balance the panel
    writes to the camera from this control is one of the two; and without
    an action the entry is left as it was. *)
Theorem showWhiteBalance_steps_of_10 io e (w : World) :
  let shown := showWhiteBalance io e in
  (Value (snd shown) = Value e \/ Z.rem (Value (snd shown)) 10 = 0)
  /\ (fst shown = ColorControlAction.None -> snd shown = e)
  /\ (devCalls (snd (ShowColorControl ext K4A_COLOR_CONTROL_WHITEBALANCE
                       (showWhiteBalance io) e w)) = devCalls w
      \/ exists mode v,
          devCalls (snd (ShowColorControl ext K4A_COLOR_CONTROL_WHITEBALANCE
                           (showWhiteBalance io) e w))
          = devCalls w ++
            [CallSetColorControl K4A_COLOR_CONTROL_WHITEBALANCE mode v;
             CallGetColorControl K4A_COLOR_CONTROL_WHITEBALANCE]
          /\ (v = Value e \/ Z.rem v 10 = 0)).
Proof.
  cbv zeta.
  assert (Hv : Value (snd (showWhiteBalance io e)) = Value e
               \/ Z.rem (Value (snd (showWhiteBalance io e))) 10 = 0).
  { unfold showWhiteBalance, K4ASlider, SliderInt.
    destruct (color_mode_eqb (Mode e) K4A_COLOR_CONTROL_MODE_MANUAL);
      [ | left; reflexivity ].
    destruct (sliderValue io "White Balance") as [v|]; cbn;
      [right; apply rem_stepped | left; reflexivity]. }
  split; [exact Hv | ]. split.
  - unfold showWhiteBalance, K4ASlider, SliderInt,
      ShowColorControlAutoButton.
    destruct e as [[|] v0]; cbn.
    + destruct (activatedIn io "whitebalance" "M"); [discriminate | reflexivity].
    + destruct (sliderValue io "White Balance"); cbn;
        destruct (activatedIn io "whitebalance" "A"); cbn;
        first [discriminate | reflexivity].
  - unfold ShowColorControl.
    destruct (showWhiteBalance io e) as [[ | | ] e'] eqn:E; cbn [snd] in Hv.
    + left. reflexivity.
    + right. do 2 eexists. split;
        [apply ApplyColorSetting_calls | exact Hv].
    + right. do 2 eexists. split;
        [apply ApplyColorSetting_calls | exact Hv].
Qed.

(** X7. While a control is in automatic mode its slider is disabled:
    whatever the user does to it, the exposure and the white balance
    control then leave the cached value as it is, and the only action
    either can report is the switch to manual mode (button "M").  In that
    case [ShowColorControl] sends the cached value in manual mode and
    reads the setting back; otherwise it makes no call on the device. *)
Theorem automatic_mode_keeps_value io e (w : World) :
  Mode e = K4A_COLOR_CONTROL_MODE_AUTO ->
  (snd (showExposureTime io e) = e
   /\ fst (showExposureTime io e)
      = if activatedIn io "exposure" "M"
        then ColorControlAction.SetManual else ColorControlAction.None)
  /\ (snd (showWhiteBalance io e) = e
      /\ fst (showWhiteBalance io e)
         = if activatedIn io "whitebalance" "M"
           then ColorControlAction.SetManual else ColorControlAction.None)
  /\ devCalls (snd (ShowColorControl ext
                      K4A_COLOR_CONTROL_EXPOSURE_TIME_ABSOLUTE
                      (showExposureTime io) e w))
     = devCalls w ++
       (if activatedIn io "exposure" "M"
        then [CallSetColorControl K4A_COLOR_CONTROL_EXPOSURE_TIME_ABSOLUTE
                                  K4A_COLOR_CONTROL_MODE_MANUAL (Value e);
              CallGetColorControl K4A_COLOR_CONTROL_EXPOSURE_TIME_ABSOLUTE]
        else [])
  /\ devCalls (snd (ShowColorControl ext K4A_COLOR_CONTROL_WHITEBALANCE
                      (showWhiteBalance io) e w))
     = devCalls w ++
       (if activatedIn io "whitebalance" "M"
        then [CallSetColorControl K4A_COLOR_CONTROL_WHITEBALANCE
                                  K4A_COLOR_CONTROL_MODE_MANUAL (Value e);
              CallGetColorControl K4A_COLOR_CONTROL_WHITEBALANCE]
        else []).
Proof.
  intros Hauto. destruct e as [m v]. cbn in Hauto. subst m.
  split; [ | split; [ | split ] ].
  - unfold showExposureTime, K4ASlider, ShowColorControlAutoButton. cbn.
    destruct (activatedIn io "exposure" "M"); split; reflexivity.
  - unfold showWhiteBalance, K4ASlider, ShowColorControlAutoButton. cbn.
    destruct (activatedIn io "whitebalance" "M"); split; reflexivity.
  - unfold ShowColorControl, showExposureTime, K4ASlider,
      ShowColorControlAutoButton. cbn.
    destruct (activatedIn io "exposure" "M").
    + apply ApplyColorSetting_calls.
    + rewrite app_nil_r. reflexivity.
  - unfold ShowColorControl, showWhiteBalance, K4ASlider,
      ShowColorControlAutoButton. cbn.
    destruct (activatedIn io "whitebalance" "M").
    + apply ApplyColorSetting_calls.
    + rewrite app_nil_r. reflexivity.
Qed.

End ColorControlFacts.

Lemma ShowColorControls_untouched_witness :
  ShowColorControls simExternals quietInput
    (simWorld (simHardware false false [])
              (defaultDeviceConfiguration simExternals) true false)
  = simWorld (simHardware false false [])
             (defaultDeviceConfiguration simExternals) true false.
Proof.
  apply (ShowColorControls_untouched simExternals quietInput).
  repeat split.
Defined.

Lemma automatic_mode_keeps_value_witness :
  let auto := MkColorSetting K4A_COLOR_CONTROL_MODE_AUTO 4500 in
  let manual := MkColorSetting K4A_COLOR_CONTROL_MODE_MANUAL 4500 in
  let w := simWorld (simHardware false false [])
                    (defaultDeviceConfiguration simExternals) true false in
  snd (showWhiteBalance slidersDragged manual)
  = MkColorSetting K4A_COLOR_CONTROL_MODE_MANUAL 5000
  /\ snd (showWhiteBalance slidersDragged auto) = auto
  /\ snd (showExposureTime slidersDragged auto) = auto
  /\ calls simExternals
       (m_device simExternals
          (snd (ShowColorControl simExternals K4A_COLOR_CONTROL_WHITEBALANCE
                  (showWhiteBalance slidersDragged) auto w)))
     = [CallSetColorControl K4A_COLOR_CONTROL_WHITEBALANCE
          K4A_COLOR_CONTROL_MODE_MANUAL 4500;
        CallGetColorControl K4A_COLOR_CONTROL_WHITEBALANCE].
Proof.
  intros auto manual w. split; [reflexivity | ].
  destruct (automatic_mode_keeps_value simExternals slidersDragged auto w
              eq_refl)
    as ((Hexposure & _) & (Hbalance & _) & _ & Hcalls).
  split; [exact Hbalance | split; [exact Hexposure | exact Hcalls] ].
Defined.

(* ================================================================== *)
(** ** What the widgets leave alone *)

Section IgnoreFacts.

Variable ext : K4AExternals.
Variable A : Type.
Variable proj : World ext -> A.

Local Abbreviation World := (World ext).

Hypothesis Hdevice : ignores (set_m_device ext) proj.
Hypothesis Herrors : ignores (set_errorStatus ext) proj.

Lemma proj_pushError msg (w : World) : proj (pushError ext msg w) = proj w.
Proof. apply Herrors. Qed.

Lemma proj_ReadColorSetting command e (w : World) :
  proj (snd (ReadColorSetting ext command e w)) = proj w.
Proof.
  rewrite ReadColorSetting_eq. cbn [snd]. rewrite Herrors, Hdevice.
  reflexivity.
Qed.

Lemma proj_ApplyColorSetting command e (w : World) :
  proj (snd (ApplyColorSetting ext command e w)) = proj w.
Proof.
  rewrite ApplyColorSetting_eq. cbn [snd]. rewrite Herrors, Hdevice.
  reflexivity.
Qed.

Lemma proj_StartCameras (w : World) :
  proj (snd (StartCameras ext w)) = proj w.
Proof.
  unfold StartCameras, pushError.
  destruct (Device_CamerasAreStarted ext (m_device ext w)); [reflexivity | ].
  destruct (Device_StartCameras ext _ _) as [r d].
  destruct (negb (result_eqb r K4A_RESULT_SUCCEEDED)); cbn [snd];
    rewrite ?Herrors, Hdevice; reflexivity.
Qed.

Lemma proj_StartImu (w : World) : proj (snd (StartImu ext w)) = proj w.
Proof.
  unfold StartImu, pushError.
  destruct (Device_ImuIsStarted ext (m_device ext w)); [reflexivity | ].
  destruct (Device_StartImu ext _) as [r d].
  destruct (negb (result_eqb r K4A_RESULT_SUCCEEDED)); cbn [snd];
    rewrite ?Herrors, Hdevice; reflexivity.
Qed.

Hypothesis Hcache : ignores (set_m_colorSettingsCache ext) proj.

Lemma proj_onCacheEntry entry f (w : World) :
  (forall e w0, proj (snd (f e w0)) = proj w0) ->
  proj (onCacheEntry ext entry f w) = proj w.
Proof.
  intros Hf. unfold onCacheEntry.
  specialize (Hf (entry_get entry (m_colorSettingsCache ext w)) w).
  destruct (f (entry_get entry (m_colorSettingsCache ext w)) w) as [e w'].
  rewrite Hcache. exact Hf.
Qed.

Lemma proj_ShowColorControl command showControl e (w : World) :
  proj (snd (ShowColorControl ext command showControl e w)) = proj w.
Proof.
  unfold ShowColorControl. destruct (showControl e) as [[ | | ] e'];
    [reflexivity | apply proj_ApplyColorSetting ..].
Qed.

Lemma proj_ApplyDefaultColorSettings (w : World) :
  proj (ApplyDefaultColorSettings ext w) = proj w.
Proof.
  unfold ApplyDefaultColorSettings, assignCacheEntry.
  repeat (rewrite proj_onCacheEntry by (intros; apply proj_ApplyColorSetting);
          rewrite Hcache).
  reflexivity.
Qed.

Lemma proj_ShowColorControlsNode io (w : World) :
  proj (ShowColorControlsNode ext io w) = proj w.
Proof.
  unfold ShowColorControlsNode, ShowColorControls.
  destruct (TreeNode io "Color Controls" None); [ | reflexivity ].
  destruct (Button io "Reset to default##RGB");
    rewrite ?proj_ApplyDefaultColorSettings;
    repeat (rewrite proj_onCacheEntry
             by (intros; apply proj_ShowColorControl));
    reflexivity.
Qed.

Hypothesis Hpending : ignores (set_m_pendingDeviceConfiguration ext) proj.

Lemma proj_onPending edit (w : World) : proj (onPending ext edit w) = proj w.
Proof. apply Hpending. Qed.

Hypothesis HsyncIn : ignores (set_m_syncInConnected ext) proj.
Hypothesis HsyncOut : ignores (set_m_syncOutConnected ext) proj.

Lemma proj_RefreshSyncCableStatus (w : World) :
  proj (RefreshSyncCableStatus ext w) = proj w.
Proof.
  unfold RefreshSyncCableStatus, pushError.
  destruct (Device_GetSyncCablesConnected ext _ _ _) as [[r [i o]] d].
  destruct (negb (result_eqb r K4A_RESULT_SUCCEEDED));
    rewrite ?Herrors, HsyncOut, HsyncIn, Hdevice; reflexivity.
Qed.

Lemma proj_ShowExternalSync io b (w : World) :
  proj (ShowExternalSync ext io b w) = proj w.
Proof.
  unfold ShowExternalSync.
  destruct (TreeNode io "External Sync" _); [ | reflexivity ]. cbv zeta.
  rewrite Hpending.
  destruct (Button io "Refresh");
    [apply proj_RefreshSyncCableStatus | reflexivity].
Qed.

Lemma proj_before_settings io b (w : World) :
  proj (ShowExternalSync ext io b
          (onPending ext (fun _ => ShowInternalSync io b)
             (onPending ext
                (fun w => ShowSensorToggles io b (haveMicrophone ext w))
                (onPending ext (fun _ => ShowFramerate io b)
                   (ShowColorControlsNode ext io
                      (onPending ext
                         (fun w => ShowColorCamera io b (m_firstRun ext w))
                         (onPending ext
                            (fun w => ShowDepthCamera io b (m_firstRun ext w))
                            w)))))))
  = proj w.
Proof.
  rewrite proj_ShowExternalSync, !proj_onPending, proj_ShowColorControlsNode,
    !proj_onPending.
  reflexivity.
Qed.

End IgnoreFacts.

Section IgnoreStartStop.

Variable ext : K4AExternals.
Variable A : Type.
Variable proj : World ext -> A.

Local Abbreviation World := (World ext).

Hypothesis Hdevice : ignores (set_m_device ext) proj.
Hypothesis Herrors : ignores (set_errorStatus ext) proj.
Hypothesis Hwindows : ignores (set_windows ext) proj.
Hypothesis Hmic : ignores (set_m_microphone ext) proj.
Hypothesis Hview : ignores (set_m_currentViewType ext) proj.
Hypothesis Hpaused : ignores (set_m_paused ext) proj.

Lemma proj_StopMicrophone (w : World) :
  proj (StopMicrophone ext w) = proj w.
Proof.
  unfold StopMicrophone. destruct (m_microphone ext w);
    [apply Hmic | reflexivity].
Qed.

Lemma proj_Stop (w : World) : proj (Stop ext w) = proj w.
Proof.
  unfold Stop, pushWindowEvent.
  rewrite proj_StopMicrophone, !Hdevice, Hwindows. reflexivity.
Qed.

Lemma proj_SetViewType viewType (w : World) :
  proj (SetViewType ext viewType w) = proj w.
Proof.
  unfold SetViewType, pushWindowEvent, pushError. destruct viewType.
  - destruct (EnableMicrophone _); [destruct (m_microphone ext _) | ];
      rewrite Hview, Hwindows, ?Hmic, Hwindows; reflexivity.
  - destruct (Device_GetCalibrationTransformData ext _ _ _) as [r d].
    destruct (negb (result_eqb r K4A_RESULT_SUCCEEDED));
      rewrite ?Hview, ?Hwindows, ?Herrors, Hdevice, Hwindows; reflexivity.
Qed.

Lemma proj_StartMicrophone (w : World) :
  proj (snd (StartMicrophone ext w)) = proj w.
Proof.
  unfold StartMicrophone, pushError.
  destruct (m_microphone ext w) as [mic|]; [ | apply Herrors ].
  destruct (Mic_IsStarted ext mic); [reflexivity | ].
  destruct (Mic_Start ext mic) as [r mic'].
  destruct (negb (r =? SoundIoErrorNone)); cbn [snd];
    rewrite ?Herrors, Hmic; reflexivity.
Qed.

Lemma proj_Start (w : World) : proj (Start ext w) = proj w.
Proof.
  unfold Start. rewrite Hpaused, proj_SetViewType.
  repeat match goal with
         | |- context [if ?c then _ else _] => destruct c
         end;
    rewrite ?proj_StartMicrophone by assumption;
    rewrite ?(proj_StartImu ext A proj Hdevice Herrors);
    rewrite ?(proj_StartCameras ext A proj Hdevice Herrors);
    reflexivity.
Qed.

Lemma proj_ShowStartStop io b (w : World) :
  proj (ShowStartStop ext io b w) = proj w.
Proof.
  unfold ShowStartStop. destruct (negb b).
  - destruct (K4AButton io "Start" _); [apply proj_Start | reflexivity].
  - cbv zeta.
    destruct (ShowModeSelector ext io _ true _) as [viewType change].
    assert (E : proj (match change with
                      | Some t =>
                          SetViewType ext t
                            (set_m_currentViewType ext viewType
                               (if K4AButton io "Stop" true
                                then Stop ext w else w))
                      | None =>
                          set_m_currentViewType ext viewType
                            (if K4AButton io "Stop" true
                             then Stop ext w else w)
                      end) = proj w).
    { destruct change; rewrite ?proj_SetViewType, Hview;
        destruct (K4AButton io "Stop" true);
        rewrite ?proj_Stop; reflexivity. }
    repeat match goal with
           | |- context [if ?c then _ else _] =>
               lazymatch c with
               | K4AButton _ _ _ => fail
               | _ => destruct c
               end
           end;
      rewrite ?Hpaused; exact E.
Qed.

Hypothesis HfirstRun : ignores (set_m_firstRun ext) proj.

Lemma proj_ShowControls_after_configuration io b (w : World) :
  proj (ShowControls ext io b w) = proj (ShowConfiguration ext io b w).
Proof.
  unfold ShowControls. cbv zeta. rewrite HfirstRun.
  apply proj_ShowStartStop.
Qed.

End IgnoreStartStop.

Section IgnorePolling.

Variable ext : K4AExternals.
Variable A : Type.
Variable proj : World ext -> A.

Local Abbreviation World := (World ext).

Hypothesis Hdevice : ignores (set_m_device ext) proj.
Hypothesis Herrors : ignores (set_errorStatus ext) proj.
Hypothesis Hmic : ignores (set_m_microphone ext) proj.
Hypothesis HcameraCounter : ignores (set_m_cameraTimeoutCounter ext) proj.
Hypothesis HimuCounter : ignores (set_m_imuTimeoutCounter ext) proj.
Hypothesis HcameraSource : ignores (set_m_cameraDataSource ext) proj.
Hypothesis HimuSource : ignores (set_m_imuDataSource ext) proj.

Lemma proj_PollDevice (w : World) : proj (PollDevice ext w) = proj w.
Proof.
  unfold PollDevice, checkMicrophone, pollCameras, pollImu, pushError.
  cbv zeta.
  repeat match goal with
         | |- context [match m_microphone ext ?x with _ => _ end] =>
             destruct (m_microphone ext x)
         | |- context [if ?c then _ else _] => destruct c
         end;
    rewrite ?(proj_StopMicrophone ext A proj Hmic), ?Herrors,
      ?HimuSource, ?HimuCounter, ?Hdevice, ?Herrors,
      ?HcameraSource, ?HcameraCounter, ?Hdevice;
    reflexivity.
Qed.

End IgnorePolling.

Section FrameMore.

Variable ext : K4AExternals.

Local Abbreviation World := (World ext).
Local Abbreviation devCalls w := (calls ext (m_device ext w)).
Local Abbreviation pending w := (m_pendingDeviceConfiguration ext w).
Local Abbreviation saved w := (savedDeviceConfiguration ext w).

Ltac ignored := intros ? ?; reflexivity.

Lemma sensorState_ShowSettingsButtons io b (w : World) :
  sensorState (ShowSettingsButtons ext io b w) = sensorState w.
Proof.
  unfold ShowSettingsButtons.
  destruct (K4AButton io "Restore" _), (K4AButton io "Save" _),
    (K4AButton io "Reset" _); reflexivity.
Qed.

Lemma sensorState_ShowControls io b (w : World) :
  sensorState (ShowControls ext io b w) = sensorState w.
Proof.
  rewrite (proj_ShowControls_after_configuration ext _ sensorState)
    by ignored.
  unfold ShowConfiguration. cbv zeta.
  rewrite sensorState_ShowSettingsButtons.
  apply proj_before_settings; ignored.
Qed.

(** X8. Only polling touches the timeout counters and the data sources:
    whatever the user does in a frame, the widgets neither notify
    observers nor change a counter, so that a frame that is paused or cut
    short by "Close device" leaves all four as they were, and any other
    frame leaves them as [PollDevice] left them. *)
Theorem Show_sensor_state io (w : World) :
  sensorState (Show ext io w)
  = sensorState (if Button io "Close device" || m_paused ext w
                 then w else PollDevice ext w).
Proof.
  unfold Show. destruct (Button io "Close device"); [reflexivity | ].
  cbv zeta. cbn [orb].
  destruct (m_paused ext w); cbn [negb]; apply sensorState_ShowControls.
Qed.

(* ------------------------------------------------------------------ *)
(** *** The saved configuration *)

Lemma saved_before_settings io b (w : World) :
  saved (ShowExternalSync ext io b
          (onPending ext (fun _ => ShowInternalSync io b)
             (onPending ext
                (fun w => ShowSensorToggles io b (haveMicrophone ext w))
                (onPending ext (fun _ => ShowFramerate io b)
                   (ShowColorControlsNode ext io
                      (onPending ext
                         (fun w => ShowColorCamera io b (m_firstRun ext w))
                         (onPending ext
                            (fun w => ShowDepthCamera io b (m_firstRun ext w))
                            w)))))))
  = saved w.
Proof.
  apply (proj_before_settings ext _ (savedDeviceConfiguration ext));
    ignored.
Qed.

Lemma saved_ShowControls io b (w : World) :
  saved (ShowControls ext io b w) = saved (ShowConfiguration ext io b w).
Proof.
  apply (proj_ShowControls_after_configuration ext _
           (savedDeviceConfiguration ext)); ignored.
Qed.

Lemma saved_PollDevice (w : World) : saved (PollDevice ext w) = saved w.
Proof. apply (proj_PollDevice ext _ (savedDeviceConfiguration ext)); ignored. Qed.

Lemma Show_not_closed io (w : World) :
  Button io "Close device" = false ->
  Show ext io w
  = ShowControls ext io (DeviceIsStarted ext w)
      (if negb (m_paused ext w) then PollDevice ext w else w).
Proof. unfold Show. intros ->. reflexivity. Qed.

Lemma Show_saved_kept io (w : World) :
  K4AButton io "Save" (negb (DeviceIsStarted ext w)) = false ->
  K4AButton io "Reset" (negb (DeviceIsStarted ext w)) = false ->
  saved (Show ext io w) = saved w.
Proof.
  intros Hsave Hreset.
  destruct (Button io "Close device") eqn:Hclose.
  - unfold Show. rewrite Hclose. reflexivity.
  - rewrite (Show_not_closed io w Hclose).
    rewrite saved_ShowControls. unfold ShowConfiguration. cbv zeta.
    unfold ShowSettingsButtons at 1. rewrite Hsave, Hreset.
    assert (E : forall w0 : World,
               saved (if K4AButton io "Restore" (negb (DeviceIsStarted ext w))
                      then ApplyDefaultConfiguration ext w0 else w0)
               = saved w0).
    { intros w0. destruct (K4AButton io "Restore" _); reflexivity. }
    rewrite E, saved_before_settings.
    destruct (negb (m_paused ext w)); [apply saved_PollDevice | reflexivity].
Qed.

(** X9. The saved configuration changes only through the "Save" and
    "Reset" buttons: a call to [Show] in which neither takes effect (in
    particular any call while the device is started, when both are
    disabled) leaves it as it was, whatever else the user does. *)
Theorem Show_keeps_saved_configuration io (w : World) :
  K4AButton io "Save" (negb (DeviceIsStarted ext w)) = false ->
  K4AButton io "Reset" (negb (DeviceIsStarted ext w)) = false ->
  saved (Show ext io w) = saved w.
Proof. apply Show_saved_kept. Qed.

Lemma pending_settings_restored io b (w : World) :
  K4AButton io "Restore" (negb b) = true ->
  K4AButton io "Reset" (negb b) = false ->
  pending (ShowSettingsButtons ext io b w) = saved w.
Proof.
  unfold ShowSettingsButtons. intros -> ->.
  destruct (K4AButton io "Save" (negb b)); reflexivity.
Qed.

Lemma settings_saved io b (w : World) :
  K4AButton io "Save" (negb b) = true ->
  K4AButton io "Reset" (negb b) = false ->
  saved (ShowSettingsButtons ext io b w)
  = pending (ShowSettingsButtons ext io b w).
Proof.
  unfold ShowSettingsButtons. intros -> ->.
  destruct (K4AButton io "Restore" (negb b)); reflexivity.
Qed.

Lemma Show_restores io (w : World) :
  Button io "Close device" = false ->
  K4AButton io "Restore" (negb (DeviceIsStarted ext w)) = true ->
  K4AButton io "Reset" (negb (DeviceIsStarted ext w)) = false ->
  pending (Show ext io w) = saved w.
Proof.
  intros Hclose Hrestore Hreset.
  rewrite (Show_not_closed io w Hclose).
  rewrite ShowControls_pending. unfold ShowConfiguration. cbv zeta.
  rewrite pending_settings_restored by assumption.
  rewrite saved_before_settings.
  destruct (negb (m_paused ext w)); [apply saved_PollDevice | reflexivity].
Qed.

Lemma Show_saves io (w : World) :
  Button io "Close device" = false ->
  K4AButton io "Save" (negb (DeviceIsStarted ext w)) = true ->
  K4AButton io "Reset" (negb (DeviceIsStarted ext w)) = false ->
  saved (Show ext io w) = pending (Show ext io w).
Proof.
  intros Hclose Hsave Hreset.
  rewrite (Show_not_closed io w Hclose).
  rewrite saved_ShowControls, ShowControls_pending.
  unfold ShowConfiguration. cbv zeta.
  apply settings_saved; assumption.
Qed.

Lemma ShowFrames_keeps_saved ios (w : World) :
  Forall (fun io => activated io "Save" = false
                    /\ activated io "Reset" = false) ios ->
  saved (ShowFrames ext ios w) = saved w.
Proof.
  unfold ShowFrames. intros H. revert w.
  induction H as [|io ios [Hsave Hreset] _ IH]; intros w; [reflexivity | ].
  cbn [fold_left]. rewrite IH.
  apply Show_saved_kept; unfold K4AButton;
    rewrite ?Hsave, ?Hreset; apply andb_false_r.
Qed.

(** X10. "Restore" brings back what "Save" stored: if a frame in which
    Save takes effect (and Reset does not) is followed by any number of
    frames without Save or Reset, however the configuration is edited in
    them, then a frame in which Restore takes effect (and Reset does not)
    ends with the pending configuration the Save frame ended with. *)
Theorem Save_then_Restore io1 ios io2 (w : World) :
  let w1 := Show ext io1 w in
  let w2 := ShowFrames ext ios w1 in
  Button io1 "Close device" = false ->
  K4AButton io1 "Save" (negb (DeviceIsStarted ext w)) = true ->
  K4AButton io1 "Reset" (negb (DeviceIsStarted ext w)) = false ->
  Forall (fun io => activated io "Save" = false
                    /\ activated io "Reset" = false) ios ->
  Button io2 "Close device" = false ->
  K4AButton io2 "Restore" (negb (DeviceIsStarted ext w2)) = true ->
  K4AButton io2 "Reset" (negb (DeviceIsStarted ext w2)) = false ->
  pending (Show ext io2 w2) = pending w1.
Proof.
  cbv zeta. intros Hc1 Hs1 Hr1 Hmid Hc2 Hre2 Hr2.
  rewrite (Show_restores io2 _ Hc2 Hre2 Hr2).
  rewrite (ShowFrames_keeps_saved ios _ Hmid).
  apply Show_saves; assumption.
Qed.

(* ------------------------------------------------------------------ *)
(** *** The microphone in [PollDevice] *)

Lemma microphone_after_sensor_polls (w : World) :
  let w1 := if Device_CamerasAreStarted ext (m_device ext w)
            then pollCameras ext w else w in
  let w2 := if Device_ImuIsStarted ext (m_device ext w1)
            then pollImu ext w1 else w1 in
  m_microphone ext w2 = m_microphone ext w.
Proof.
  cbv zeta. destruct (Device_CamerasAreStarted ext (m_device ext w)),
    (Device_ImuIsStarted ext _); reflexivity.
Qed.

(** X11. A microphone that reports an error is stopped by the next
    poll, with an error status naming the device; one that reports no
    error is left alone, and so is the rest of what the microphone check
    could touch: the device is as the sensor polls left it. *)
Theorem PollDevice_stops_failed_microphone (w : World) mic :
  m_microphone ext w = Some mic ->
  let w' := PollDevice ext w in
  (Mic_GetStatusCode ext mic <> SoundIoErrorNone ->
   m_microphone ext w' = Some (Mic_Stop ext mic)
   /\ last (statuses (errorStatus ext w')) ""%string
      = ("Microphone on device " ++
         Device_GetSerialNumber ext (m_device ext w') ++ " failed!")%string)
  /\ (Mic_GetStatusCode ext mic = SoundIoErrorNone ->
      m_microphone ext w' = Some mic
      /\ errorStatus ext w'
         = errorStatus ext
             (let w1 := if Device_CamerasAreStarted ext (m_device ext w)
                        then pollCameras ext w else w in
              if Device_ImuIsStarted ext (m_device ext w1)
              then pollImu ext w1 else w1)).
Proof.
  intros Hmic. pose proof (microphone_after_sensor_polls w) as Hkeep.
  cbv zeta in *. unfold PollDevice. cbv zeta.
  set (w2 := if Device_ImuIsStarted ext _ then _ else _) in *.
  rewrite Hmic in Hkeep. unfold checkMicrophone. rewrite Hkeep.
  split; intros Hstatus.
  - apply Z.eqb_neq in Hstatus. rewrite Hstatus. cbn [negb].
    unfold StopMicrophone, pushError.
    change (m_microphone ext (set_errorStatus ext ?e w2))
      with (m_microphone ext w2).
    rewrite Hkeep. cbn. split; [reflexivity | ].
    apply last_last.
  - apply Z.eqb_eq in Hstatus. rewrite Hstatus. cbn [negb].
    split; [exact Hkeep | reflexivity].
Qed.

(* ------------------------------------------------------------------ *)
(** *** [Start] and [SetViewType] *)

Lemma SetViewType_Normal (w : World) :
  let cfg := pending w in
  let w' := SetViewType ext Normal w in
  m_currentViewType ext w' = Normal
  /\ windows ext w'
     = windows ext w ++
       [ClearWindows;
        StartNormalWindows (EnableMicrophone cfg && haveMicrophone ext w)
          (EnableDepthCamera cfg) (DepthMode cfg)
          (EnableColorCamera cfg) (ColorFormat cfg) (ColorResolution cfg)]
  /\ m_device ext w' = m_device ext w.
Proof.
  cbv zeta. unfold SetViewType, pushWindowEvent, haveMicrophone.
  destruct w as [d [mic|] cfg cache cc ic cds ids sin sout first paused vt
                 errs wins saved0]; cbn;
    destruct (EnableMicrophone cfg); cbn; rewrite <- app_assoc;
    repeat split; reflexivity.
Qed.

Lemma haveMicrophone_StartMicrophone (w : World) :
  haveMicrophone ext (snd (StartMicrophone ext w)) = haveMicrophone ext w.
Proof.
  unfold StartMicrophone, haveMicrophone, pushError.
  destruct (m_microphone ext w) as [mic|] eqn:E.
  - destruct (Mic_IsStarted ext mic); [cbn [snd]; rewrite E; reflexivity | ].
    destruct (Mic_Start ext mic) as [r mic'].
    destruct (negb (r =? SoundIoErrorNone)); reflexivity.
  - cbn [snd]. change (m_microphone ext (set_errorStatus ext ?e w))
      with (m_microphone ext w). rewrite E. reflexivity.
Qed.

Lemma StartCameras_calls (w : World) :
  devCalls (snd (StartCameras ext w))
  = devCalls w ++
    if Device_CamerasAreStarted ext (m_device ext w) then []
    else [CallStartCameras (ToK4ADeviceConfiguration ext (pending w))].
Proof.
  unfold StartCameras, Device_StartCameras, called.
  destruct (Device_CamerasAreStarted ext (m_device ext w));
    [rewrite app_nil_r; reflexivity | ].
  destruct (sdk_StartCameras ext _ _) as [r h].
  destruct r; destruct w; reflexivity.
Qed.

Lemma StartImu_calls (w : World) :
  devCalls (snd (StartImu ext w))
  = devCalls w ++
    if Device_ImuIsStarted ext (m_device ext w) then [] else [CallStartImu].
Proof.
  unfold StartImu, Device_StartImu, called.
  destruct (Device_ImuIsStarted ext (m_device ext w));
    [rewrite app_nil_r; reflexivity | ].
  destruct (sdk_StartImu ext _) as [r h].
  destruct r; destruct w; reflexivity.
Qed.

Lemma Start_summary (w : World) :
  let cfg := pending w in
  let w' := Start ext w in
  m_paused ext w' = false
  /\ m_currentViewType ext w' = Normal
  /\ pending w' = cfg
  /\ windows ext w'
     = windows ext w ++
       [ClearWindows;
        StartNormalWindows (EnableMicrophone cfg && haveMicrophone ext w)
          (EnableDepthCamera cfg) (DepthMode cfg)
          (EnableColorCamera cfg) (ColorFormat cfg) (ColorResolution cfg)]
  /\ exists cameras imu : bool,
      devCalls w'
      = devCalls w ++
        (if cameras
         then [CallStartCameras (ToK4ADeviceConfiguration ext cfg)] else [])
        ++ (if imu then [CallStartImu] else [])
      /\ (cameras = true ->
          EnableColorCamera cfg || EnableDepthCamera cfg = true
          /\ Device_CamerasAreStarted ext (m_device ext w) = false)
      /\ (imu = true -> EnableImu cfg = true).
Proof.
  cbv zeta. unfold Start. cbv zeta.
  set (w1 := if EnableColorCamera (pending w) || EnableDepthCamera (pending w)
             then snd (StartCameras ext w) else w).
  assert (P1 : pending w1 = pending w).
  { subst w1. destruct (_ || _); [ | reflexivity ].
    apply (proj_StartCameras ext _ (m_pendingDeviceConfiguration ext));
      ignored. }
  assert (W1 : windows ext w1 = windows ext w
               /\ haveMicrophone ext w1 = haveMicrophone ext w).
  { subst w1. destruct (_ || _); [ | split; reflexivity ]. split.
    - apply (proj_StartCameras ext _ (windows ext)); ignored.
    - apply (proj_StartCameras ext _ (haveMicrophone ext)); ignored. }
  rewrite P1.
  set (w2 := if EnableImu (pending w) then snd (StartImu ext w1) else w1).
  assert (P2 : pending w2 = pending w).
  { subst w2. rewrite <- P1. destruct (EnableImu (pending w1));
      [ | reflexivity ].
    apply (proj_StartImu ext _ (m_pendingDeviceConfiguration ext)); ignored. }
  assert (W2 : windows ext w2 = windows ext w
               /\ haveMicrophone ext w2 = haveMicrophone ext w).
  { destruct W1 as [Ww Wm]. rewrite <- Ww, <- Wm. subst w2.
    destruct (EnableImu (pending w)); [ | split; reflexivity ]. split.
    - apply (proj_StartImu ext _ (windows ext)); ignored.
    - apply (proj_StartImu ext _ (haveMicrophone ext)); ignored. }
  rewrite P2.
  set (w3 := if EnableMicrophone (pending w)
             then snd (StartMicrophone ext w2) else w2).
  assert (P3 : pending w3 = pending w
               /\ windows ext w3 = windows ext w
               /\ haveMicrophone ext w3 = haveMicrophone ext w
               /\ m_device ext w3 = m_device ext w2).
  { destruct W2 as [Ww Wm]. rewrite <- P2, <- Ww, <- Wm. subst w3.
    destruct (EnableMicrophone (pending w));
      [ | repeat split; reflexivity ].
    repeat split.
    - apply (proj_StartMicrophone ext _ (m_pendingDeviceConfiguration ext));
        ignored.
    - apply (proj_StartMicrophone ext _ (windows ext)); ignored.
    - apply haveMicrophone_StartMicrophone.
    - apply (proj_StartMicrophone ext _ (m_device ext)); ignored. }
  destruct P3 as (P3 & Ww3 & Wm3 & D3).
  destruct (SetViewType_Normal w3) as (Hview & Hwin & Hdev).
  cbv zeta in Hview, Hwin, Hdev. rewrite P3, Ww3, Wm3 in Hwin.
  split; [reflexivity | ].
  split; [exact Hview | ].
  split.
  { change (pending (set_m_paused ext false ?x)) with (pending x).
    rewrite <- P3.
    apply (proj_SetViewType ext _ (m_pendingDeviceConfiguration ext));
      ignored. }
  split; [exact Hwin | ].
  exists ((EnableColorCamera (pending w) || EnableDepthCamera (pending w))
          && negb (Device_CamerasAreStarted ext (m_device ext w))),
         (EnableImu (pending w)
          && negb (Device_ImuIsStarted ext (m_device ext w1))).
  split; [ | split ].
  - change (devCalls (set_m_paused ext false ?x)) with (devCalls x).
    rewrite Hdev, D3. subst w2 w1.
    destruct (EnableColorCamera (pending w) || EnableDepthCamera (pending w)),
      (EnableImu (pending w)); cbn [andb];
      rewrite ?StartImu_calls, ?StartCameras_calls;
      try destruct (Device_CamerasAreStarted ext (m_device ext w));
      try destruct (Device_ImuIsStarted ext _);
      cbn [negb]; rewrite <- ?app_assoc, ?app_nil_r; reflexivity.
  - intros H. apply andb_prop in H as [H1 H2].
    apply negb_true_iff in H2. split; assumption.
  - intros H. apply andb_prop in H as [H1 _]. exact H1.
Qed.

(** X12. Where a microphone is present whenever the pending
    configuration enables it (without one the C++ dereferences a null
    pointer when it creates the listener), [Start] never gives up half
    way: whatever the start calls return, it goes on to clear the windows,
    open the normal view (with a microphone listener exactly if the
    microphone is enabled), record [Normal] as the view type and leave the
    panel unpaused.  It reaches the device with at most one [StartCameras]
    call, passed the converted pending configuration and made only if a
    camera is enabled and the cameras are not started, followed by at most
    one [StartImu] call, made only if the IMU is enabled; and it leaves
    the pending configuration as it was. *)
Theorem Start_always_opens_normal_view (w : World) :
  listenerAvailable w = true ->
  let cfg := pending w in
  let w' := Start ext w in
  m_paused ext w' = false
  /\ m_currentViewType ext w' = Normal
  /\ pending w' = cfg
  /\ windows ext w'
     = windows ext w ++
       [ClearWindows;
        StartNormalWindows (EnableMicrophone cfg)
          (EnableDepthCamera cfg) (DepthMode cfg)
          (EnableColorCamera cfg) (ColorFormat cfg) (ColorResolution cfg)]
  /\ exists cameras imu : bool,
      devCalls w'
      = devCalls w ++
        (if cameras
         then [CallStartCameras (ToK4ADeviceConfiguration ext cfg)] else [])
        ++ (if imu then [CallStartImu] else [])
      /\ (cameras = true ->
          EnableColorCamera cfg || EnableDepthCamera cfg = true
          /\ Device_CamerasAreStarted ext (m_device ext w) = false)
      /\ (imu = true -> EnableImu cfg = true).
Proof.
  intros Hmic. pose proof (Start_summary w) as H. cbv zeta in *.
  destruct H as (H1 & H2 & H3 & H4 & H5).
  repeat split; try assumption.
  rewrite H4. unfold listenerAvailable in Hmic.
  destruct (EnableMicrophone (pending w)), (haveMicrophone ext w);
    try reflexivity; discriminate.
Qed.

(** X13. Switching to the point cloud view clears the windows before it
    asks the device for calibration data.  If that fails, no window is
    started, the recorded view type stays as it was and an error status is
    set; if it succeeds, the point cloud window is started for the pending
    depth mode and the view type recorded.  Either way the device receives
    exactly the one calibration request, for the pending depth mode and
    color resolution. *)
Theorem SetViewType_PointCloudViewer (w : World) :
  let cfg := pending w in
  let w' := SetViewType ext PointCloudViewer w in
  let result :=
    fst (sdk_GetCalibrationTransformData ext (DepthMode cfg)
           (ColorResolution cfg) (hw ext (m_device ext w))) in
  devCalls w'
  = devCalls w ++
    [CallGetCalibrationTransformData (DepthMode cfg) (ColorResolution cfg)]
  /\ if result_eqb result K4A_RESULT_SUCCEEDED then
       windows ext w'
       = windows ext w ++ [ClearWindows; StartPointCloudWindow (DepthMode cfg)]
       /\ m_currentViewType ext w' = PointCloudViewer
       /\ errorStatus ext w' = errorStatus ext w
     else
       windows ext w' = windows ext w ++ [ClearWindows]
       /\ m_currentViewType ext w' = m_currentViewType ext w
       /\ statuses (errorStatus ext w')
          = statuses (errorStatus ext w)
            ++ ["Failed to get calibration data!"%string].
Proof.
  cbv zeta. unfold SetViewType, Device_GetCalibrationTransformData, called,
    pushWindowEvent, pushError.
  destruct w as [d mic cfg cache cc ic cds ids sin sout first paused vt
                 errs wins saved0]; cbn.
  destruct (sdk_GetCalibrationTransformData ext _ _ _) as [r h].
  destruct r; cbn; rewrite <- ?app_assoc; repeat split; reflexivity.
Qed.

End FrameMore.

(* ================================================================== *)
(** ** The configuration widgets *)

Section ConfigurationWidgets.

Local Abbreviation fits := resolutionFitsFormat.
Local Abbreviation is30 cfg :=
  (fps_eqb (Framerate cfg) K4A_FRAMES_PER_SECOND_30).
Local Abbreviation depthLimited cfg :=
  (EnableDepthCamera cfg
   && depth_mode_eqb (DepthMode cfg) K4A_DEPTH_MODE_WFOV_UNBINNED).
Local Abbreviation colorLimited cfg :=
  (EnableColorCamera cfg
   && color_resolution_eqb (ColorResolution cfg) K4A_COLOR_RESOLUTION_3072P).

Lemma radioOn_eq {A} io label (get : K4ADeviceConfiguration -> A) set
    vButton enabled updated cfg :
  radioOn io label get set vButton enabled (updated, cfg)
  = (updated || (enabled && activated io label),
     set (if enabled && activated io label then vButton else get cfg) cfg).
Proof.
  unfold radioOn, K4ARadioButton.
  destruct (enabled && activated io label); reflexivity.
Qed.

Lemma checkboxOn_eq io label get set enabled cfg :
  checkboxOn io label get set enabled cfg
  = (enabled && activated io label,
     set (if enabled && activated io label then negb (get cfg) else get cfg)
         cfg).
Proof.
  unfold checkboxOn, K4ACheckbox.
  destruct (enabled && activated io label); reflexivity.
Qed.

Ltac radio_cases :=
  repeat match goal with
         | |- context [?e && activated ?io ?l] =>
             destruct (e && activated io l) eqn:?
         end.

Lemma DepthModeButtons_shape io e u cfg :
  exists pressed m,
    DepthModeButtons io e (u, cfg) = (u || pressed, set_DepthMode m cfg)
    /\ (pressed = false -> m = DepthMode cfg)
    /\ (e = false -> pressed = false).
Proof.
  unfold DepthModeButtons. cbv zeta. rewrite !radioOn_eq.
  exists ((e && activated io "NFOV Binned")
          || (e && activated io "NFOV Unbinned  ")
          || (e && activated io "WFOV Binned")
          || (e && activated io "WFOV Unbinned  ")
          || (e && activated io "Passive IR")).
  eexists. split; [ | split ].
  - rewrite !orb_assoc. reflexivity.
  - cbn. radio_cases; cbn; intros; try discriminate; reflexivity.
  - intros ->. reflexivity.
Qed.

Lemma ColorFormatButtons_shape io e cfg :
  exists pressed f,
    ColorFormatButtons io e (false, cfg) = (pressed, set_ColorFormat f cfg)
    /\ (pressed = false -> f = ColorFormat cfg)
    /\ (e = false -> pressed = false).
Proof.
  unfold ColorFormatButtons. cbv zeta. rewrite !radioOn_eq.
  eexists. eexists. split; [ | split ].
  - reflexivity.
  - cbn. radio_cases; cbn; intros; try discriminate; reflexivity.
  - intros ->. reflexivity.
Qed.

Lemma ColorResolutionButtons_shape io e h u cfg :
  exists pressed r,
    ColorResolutionButtons io e h (u, cfg)
    = (u || pressed, set_ColorResolution r cfg)
    /\ (pressed = false -> r = ColorResolution cfg)
    /\ (h = false ->
        r = ColorResolution cfg \/ r = K4A_COLOR_RESOLUTION_720P)
    /\ (e = false -> pressed = false).
Proof.
  unfold ColorResolutionButtons. cbv zeta. rewrite !radioOn_eq.
  exists ((e && activated io " 720p")
          || (e && h && activated io "1080p")
          || (e && h && activated io "1440p")
          || (e && h && activated io "2160p")
          || (e && h && activated io "1536p")
          || (e && h && activated io "3072p")).
  eexists. split; [ | split; [ | split ] ].
  - rewrite !orb_assoc. reflexivity.
  - cbn. radio_cases; cbn; intros; try discriminate; reflexivity.
  - intros ->. rewrite !andb_false_r. cbn.
    destruct (e && activated io " 720p"); [right | left]; reflexivity.
  - intros ->. reflexivity.
Qed.

(* ------------------------------------------------------------------ *)
(** *** Uncompressed formats only at 720p *)

Lemma ColorFormatPart_fits io e first cfg :
  fits cfg = true \/ first = true ->
  fits (ColorFormatPart io e first cfg) = true.
Proof.
  intros H. unfold ColorFormatPart.
  destruct (ColorFormatButtons_shape io e cfg) as (pressed & f & E & Hf & _).
  rewrite E.
  destruct (pressed || first) eqn:U.
  - destruct (imageFormatSupportsHighResolution (set_ColorFormat f cfg))
      eqn:Hh; cbn [negb]; unfold resolutionFitsFormat.
    + rewrite Hh. reflexivity.
    + apply orb_true_r.
  - apply orb_false_elim in U as [-> ->].
    rewrite (Hf eq_refl).
    destruct H as [H | H]; [exact H | discriminate].
Qed.

Lemma ColorResolutionButtons_fits io e u cfg :
  fits cfg = true ->
  fits (snd (ColorResolutionButtons io e
               (imageFormatSupportsHighResolution cfg) (u, cfg))) = true.
Proof.
  intros H.
  destruct (ColorResolutionButtons_shape io e
              (imageFormatSupportsHighResolution cfg) u cfg)
    as (pressed & r & E & _ & Hr & _).
  rewrite E. cbn [snd]. unfold resolutionFitsFormat in *.
  change (imageFormatSupportsHighResolution (set_ColorResolution r cfg))
    with (imageFormatSupportsHighResolution cfg).
  destruct (imageFormatSupportsHighResolution cfg); [reflexivity | ].
  destruct (Hr eq_refl) as [-> | ->]; [exact H | reflexivity].
Qed.

Lemma ColorConfigurationNode_fits io b first changed cfg :
  fits cfg = true \/ first = true ->
  fits (ColorConfigurationNode io b first changed cfg) = true.
Proof.
  intros H. unfold ColorConfigurationNode. cbv zeta.
  set (e := negb b && EnableColorCamera cfg).
  pose proof (ColorFormatPart_fits io e first cfg H) as H2.
  pose proof (ColorResolutionButtons_fits io e changed _ H2) as H3.
  destruct (ColorResolutionButtons io e _ _) as [updated cfg3].
  cbn [snd] in H3.
  destruct (updated || first); [ | exact H3 ].
  destruct (color_resolution_eqb _ _); exact H3.
Qed.

Lemma ShowColorCamera_fits io b first cfg :
  let cfg' := ShowColorCamera io b first cfg in
  fits cfg = true \/ (first = true /\ EnableColorCamera cfg' = true) ->
  fits cfg' = true.
Proof.
  cbv zeta. unfold ShowColorCamera. rewrite checkboxOn_eq.
  set (cfg1 := set_EnableColorCamera _ cfg).
  assert (E : fits cfg1 = fits cfg) by reflexivity.
  unfold colorNodeOpen, TreeNode.
  destruct first; cbn [orb].
  - destruct (EnableColorCamera cfg1) eqn:En.
    + intros _. apply ColorConfigurationNode_fits. right. reflexivity.
    + rewrite En, E. intros [H | [_ H]]; [exact H | discriminate].
  - intros [H | [H _]]; [ | discriminate ]. rewrite <- E in H.
    destruct (if negb b && activated io "Enable Color Camera"
              then Some (EnableColorCamera cfg1) else None) as [[|]|];
      try destruct (nodeOpen io "Color Configuration");
      try exact H; apply ColorConfigurationNode_fits; left; exact H.
Qed.

(** What the steps around the color camera touch of the two fields. *)
Local Abbreviation formatFields cfg := (ColorFormat cfg, ColorResolution cfg).

Lemma fits_fields cfg cfg' :
  formatFields cfg' = formatFields cfg -> fits cfg' = fits cfg.
Proof.
  unfold resolutionFitsFormat, imageFormatSupportsHighResolution.
  intros H. injection H as -> ->. reflexivity.
Qed.

Lemma ShowDepthCamera_formatFields io b first cfg :
  formatFields (ShowDepthCamera io b first cfg) = formatFields cfg
  /\ EnableColorCamera (ShowDepthCamera io b first cfg)
     = EnableColorCamera cfg.
Proof.
  unfold ShowDepthCamera. rewrite checkboxOn_eq.
  set (cfg1 := set_EnableDepthCamera _ cfg).
  destruct (depthNodeOpen io first _ cfg1); [ | split; reflexivity ].
  unfold DepthConfigurationNode. cbv zeta.
  destruct (DepthModeButtons_shape io (negb b && EnableDepthCamera cfg1)
              (negb b && activated io "Enable Depth Camera") cfg1)
    as (pressed & m & E & _). rewrite E.
  destruct (_ || first); [ | split; reflexivity ].
  destruct (depth_mode_eqb _ _); split; reflexivity.
Qed.

Lemma ShowFramerate_eq io b cfg :
  exists fr,
    ShowFramerate io b cfg = set_Framerate fr cfg
    /\ (fr = K4A_FRAMES_PER_SECOND_30 ->
        Framerate cfg = K4A_FRAMES_PER_SECOND_30
        \/ supports30fps cfg = true)
    /\ (b = true -> fr = Framerate cfg).
Proof.
  unfold ShowFramerate. cbv zeta. rewrite !radioOn_eq. cbn [snd].
  eexists. split; [reflexivity | split ].
  - cbn. unfold enableFramerate.
    destruct (supports30fps cfg); [right; reflexivity | ].
    rewrite andb_false_r. cbn.
    radio_cases; intros; try discriminate. left. assumption.
  - intros ->. reflexivity.
Qed.

Lemma ShowSensorToggles_eq io b mic cfg :
  exists led imu microphone,
    ShowSensorToggles io b mic cfg
    = set_EnableMicrophone microphone
        (set_SynchronizedImagesOnly
           (SynchronizedImagesOnly cfg
            && (EnableColorCamera cfg && EnableDepthCamera cfg))
           (set_EnableImu imu (set_DisableStreamingIndicator led cfg)))
    /\ (mic = false -> microphone = false)
    /\ (b = true ->
        led = DisableStreamingIndicator cfg /\ imu = EnableImu cfg
        /\ (microphone = true -> EnableMicrophone cfg = true)).
Proof.
  unfold ShowSensorToggles. cbv zeta. rewrite !checkboxOn_eq. cbn [snd].
  unfold clearSynchronizedImagesOnly, synchronizedImagesAvailable.
  destruct mic.
  - eexists _, _, _. split; [reflexivity | split ].
    + discriminate.
    + intros ->. cbn. repeat split. trivial.
  - eexists _, _, _. split; [reflexivity | split ].
    + reflexivity.
    + intros ->. cbn. repeat split. discriminate.
Qed.

Lemma ShowInternalSync_eq io b cfg :
  exists sync delay,
    ShowInternalSync io b cfg
    = set_DepthDelayOffColorUsec delay (set_SynchronizedImagesOnly sync cfg)
    /\ (b = true ->
        sync = SynchronizedImagesOnly cfg
        /\ delay = DepthDelayOffColorUsec cfg).
Proof.
  unfold ShowInternalSync.
  destruct (TreeNode io "Internal Sync" None).
  - cbv zeta. rewrite checkboxOn_eq. cbn [snd]. unfold K4AInputScalar.
    eexists _, _. split; [reflexivity | ].
    intros ->. cbn. destruct (scalarValue io "Depth delay (us)");
      split; reflexivity.
  - exists (SynchronizedImagesOnly cfg), (DepthDelayOffColorUsec cfg).
    split; [destruct cfg; reflexivity | split; reflexivity].
Qed.

(* ------------------------------------------------------------------ *)
(** *** 30 FPS only where the cameras support it *)

Lemma DepthConfigurationNode_rate io b first changed cfg :
  let cfg' := DepthConfigurationNode io b first changed cfg in
  colorLimited cfg' = colorLimited cfg
  /\ (is30 cfg' = true -> is30 cfg = true)
  /\ (depthLimited cfg' && is30 cfg' = true ->
      first = false /\ changed = false
      /\ depthLimited cfg && is30 cfg = true).
Proof.
  cbv zeta. unfold DepthConfigurationNode. cbv zeta.
  destruct (DepthModeButtons_shape io (negb b && EnableDepthCamera cfg)
              changed cfg) as (pressed & m & E & Hm & _).
  rewrite E. destruct (changed || pressed || first) eqn:U.
  - change (DepthMode (set_DepthMode m cfg)) with m.
    destruct (depth_mode_eqb m K4A_DEPTH_MODE_WFOV_UNBINNED) eqn:M.
    + split; [reflexivity | split ].
      * discriminate.
      * change (is30 (set_Framerate K4A_FRAMES_PER_SECOND_15
                        (set_DepthMode m cfg))) with false.
        rewrite andb_false_r. discriminate.
    + split; [reflexivity | split ]; [trivial | ].
      change (depthLimited (set_DepthMode m cfg))
        with (EnableDepthCamera cfg
              && depth_mode_eqb m K4A_DEPTH_MODE_WFOV_UNBINNED).
      rewrite M, andb_false_r. discriminate.
  - apply orb_false_elim in U as [U ->].
    apply orb_false_elim in U as [-> ->].
    rewrite (Hm eq_refl).
    split; [reflexivity | split ]; [trivial | ].
    intros H. repeat split. exact H.
Qed.

Lemma ShowDepthCamera_rate io b first cfg :
  let cfg' := ShowDepthCamera io b first cfg in
  colorLimited cfg' = colorLimited cfg
  /\ (is30 cfg' = true -> is30 cfg = true)
  /\ (depthLimited cfg' && is30 cfg' = true ->
      first = false /\ depthLimited cfg && is30 cfg = true).
Proof.
  cbv zeta. unfold ShowDepthCamera. rewrite checkboxOn_eq.
  unfold depthNodeOpen, TreeNode.
  destruct (negb b && activated io "Enable Depth Camera") eqn:C.
  - rewrite orb_true_r.
    set (cfg1 := set_EnableDepthCamera _ cfg).
    destruct (EnableDepthCamera cfg1) eqn:En.
    + destruct (DepthConfigurationNode_rate io b first true cfg1)
        as (H1 & H2 & H3).
      split; [exact H1 | split ]; [exact H2 | ].
      intros H. apply H3 in H as (_ & H & _). discriminate.
    + split; [reflexivity | split ]; [trivial | ].
      rewrite En. discriminate.
  - set (cfg1 := set_EnableDepthCamera _ cfg).
    assert (Hsame : depthLimited cfg1 = depthLimited cfg) by reflexivity.
    rewrite orb_false_r.
    pose proof (DepthConfigurationNode_rate io b first false cfg1)
      as (H1 & H2 & H3).
    cbv zeta in H1, H2, H3. rewrite Hsame in H3.
    destruct first.
    + destruct (EnableDepthCamera cfg1) eqn:En.
      * split; [exact H1 | split ]; [exact H2 | ].
        intros H. apply H3 in H as (H & _). discriminate.
      * split; [reflexivity | split ]; [trivial | ].
        rewrite En. discriminate.
    + destruct (nodeOpen io "Depth Configuration").
      * split; [exact H1 | split ]; [exact H2 | ].
        intros H. apply H3 in H as (_ & _ & H). split; [reflexivity | exact H].
      * split; [reflexivity | split ]; [trivial | ].
        rewrite Hsame. intros H. split; [reflexivity | exact H].
Qed.

Lemma ColorFormatPart_shape io e first cfg :
  exists f r,
    ColorFormatPart io e first cfg
    = set_ColorResolution r (set_ColorFormat f cfg)
    /\ (r = ColorResolution cfg \/ r = K4A_COLOR_RESOLUTION_720P)
    /\ (e = false -> f = ColorFormat cfg)
    /\ (first = false -> e = false -> r = ColorResolution cfg).
Proof.
  unfold ColorFormatPart.
  destruct (ColorFormatButtons_shape io e cfg) as (pressed & f & E & Hf & He).
  rewrite E.
  destruct (pressed || first) eqn:U;
    [destruct (negb (imageFormatSupportsHighResolution _)) | ].
  - exists f, K4A_COLOR_RESOLUTION_720P.
    split; [reflexivity | split; [right; reflexivity | split ] ].
    + intros H. apply Hf, He, H.
    + intros -> H. rewrite (He H) in U. discriminate.
  - exists f, (ColorResolution cfg).
    split; [destruct cfg; reflexivity | split; [left; reflexivity | split ] ].
    + intros H. apply Hf, He, H.
    + reflexivity.
  - exists f, (ColorResolution cfg).
    split; [destruct cfg; reflexivity | split; [left; reflexivity | split ] ].
    + intros H. apply Hf, He, H.
    + reflexivity.
Qed.

Lemma ColorConfigurationNode_rate io b first changed cfg :
  let cfg' := ColorConfigurationNode io b first changed cfg in
  depthLimited cfg' = depthLimited cfg
  /\ (is30 cfg' = true -> is30 cfg = true)
  /\ (colorLimited cfg' && is30 cfg' = true ->
      first = false /\ changed = false
      /\ colorLimited cfg && is30 cfg = true).
Proof.
  cbv zeta. unfold ColorConfigurationNode. cbv zeta.
  set (e := negb b && EnableColorCamera cfg).
  destruct (ColorFormatPart_shape io e first cfg) as (f & r & E & Hr & _).
  rewrite E. set (cfg2 := set_ColorResolution r (set_ColorFormat f cfg)).
  destruct (ColorResolutionButtons_shape io e
              (imageFormatSupportsHighResolution cfg2) changed cfg2)
    as (pressed & r2 & E2 & Hr2 & _).
  rewrite E2. destruct (changed || pressed || first) eqn:U.
  - change (ColorResolution (set_ColorResolution r2 cfg2)) with r2.
    destruct (color_resolution_eqb r2 K4A_COLOR_RESOLUTION_3072P) eqn:M.
    + split; [reflexivity | split ].
      * discriminate.
      * change (is30 (set_Framerate K4A_FRAMES_PER_SECOND_15
                        (set_ColorResolution r2 cfg2))) with false.
        rewrite andb_false_r. discriminate.
    + split; [reflexivity | split ]; [trivial | ].
      change (colorLimited (set_ColorResolution r2 cfg2))
        with (EnableColorCamera cfg
              && color_resolution_eqb r2 K4A_COLOR_RESOLUTION_3072P).
      rewrite M, andb_false_r. discriminate.
  - apply orb_false_elim in U as [U ->].
    apply orb_false_elim in U as [-> ->].
    rewrite (Hr2 eq_refl).
    split; [reflexivity | split ]; [trivial | ].
    change (colorLimited (set_ColorResolution (ColorResolution cfg2) cfg2))
      with (EnableColorCamera cfg
            && color_resolution_eqb r K4A_COLOR_RESOLUTION_3072P).
    change (is30 (set_ColorResolution (ColorResolution cfg2) cfg2))
      with (is30 cfg).
    destruct Hr as [-> | ->].
    + intros H. repeat split. exact H.
    + rewrite andb_false_r. discriminate.
Qed.

Lemma ShowColorCamera_rate io b first cfg :
  let cfg' := ShowColorCamera io b first cfg in
  depthLimited cfg' = depthLimited cfg
  /\ (is30 cfg' = true -> is30 cfg = true)
  /\ (colorLimited cfg' && is30 cfg' = true ->
      first = false /\ colorLimited cfg && is30 cfg = true).
Proof.
  cbv zeta. unfold ShowColorCamera. rewrite checkboxOn_eq.
  unfold colorNodeOpen, TreeNode.
  destruct (negb b && activated io "Enable Color Camera") eqn:C.
  - rewrite orb_true_r.
    set (cfg1 := set_EnableColorCamera _ cfg).
    destruct (EnableColorCamera cfg1) eqn:En.
    + destruct (ColorConfigurationNode_rate io b first true cfg1)
        as (H1 & H2 & H3).
      split; [exact H1 | split ]; [exact H2 | ].
      intros H. apply H3 in H as (_ & H & _). discriminate.
    + split; [reflexivity | split ]; [trivial | ].
      rewrite En. discriminate.
  - set (cfg1 := set_EnableColorCamera _ cfg).
    assert (Hsame : colorLimited cfg1 = colorLimited cfg) by reflexivity.
    rewrite orb_false_r.
    pose proof (ColorConfigurationNode_rate io b first false cfg1)
      as (H1 & H2 & H3).
    cbv zeta in H1, H2, H3. rewrite Hsame in H3.
    destruct first.
    + destruct (EnableColorCamera cfg1) eqn:En.
      * split; [exact H1 | split ]; [exact H2 | ].
        intros H. apply H3 in H as (H & _). discriminate.
      * split; [reflexivity | split ]; [trivial | ].
        rewrite En. discriminate.
    + destruct (nodeOpen io "Color Configuration").
      * split; [exact H1 | split ]; [exact H2 | ].
        intros H. apply H3 in H as (_ & _ & H). split; [reflexivity | exact H].
      * split; [reflexivity | split ]; [trivial | ].
        rewrite Hsame. intros H. split; [reflexivity | exact H].
Qed.

Lemma framerateSupported_iff cfg :
  framerateSupported cfg = false
  <-> is30 cfg = true /\ (colorLimited cfg = true \/ depthLimited cfg = true).
Proof.
  unfold framerateSupported, supports30fps.
  destruct (is30 cfg), (colorLimited cfg), (depthLimited cfg); cbn;
    intuition discriminate.
Qed.

(** The cameras and the framerate buttons keep, and the first run
    establishes, a framerate the enabled cameras support. *)
Lemma cameras_framerateSupported io b first cfg :
  first = true \/ framerateSupported cfg = true ->
  framerateSupported
    (ShowFramerate io b
       (ShowColorCamera io b first (ShowDepthCamera io b first cfg)))
  = true.
Proof.
  intros H.
  destruct (ShowDepthCamera_rate io b first cfg) as (D1 & D2 & D3).
  set (cfg1 := ShowDepthCamera io b first cfg) in *.
  destruct (ShowColorCamera_rate io b first cfg1) as (C1 & C2 & C3).
  set (cfg2 := ShowColorCamera io b first cfg1) in *.
  destruct (ShowFramerate_eq io b cfg2) as (fr & E & Hfr & _).
  rewrite E. clearbody cfg1 cfg2.
  destruct (framerateSupported (set_Framerate fr cfg2)) eqn:V;
    [reflexivity | exfalso ].
  apply framerateSupported_iff in V as [V30 Vlim].
  change (colorLimited (set_Framerate fr cfg2)) with (colorLimited cfg2)
    in Vlim.
  change (depthLimited (set_Framerate fr cfg2)) with (depthLimited cfg2)
    in Vlim.
  change (is30 (set_Framerate fr cfg2)) with (fps_eqb fr K4A_FRAMES_PER_SECOND_30)
    in V30.
  assert (Efr : fr = K4A_FRAMES_PER_SECOND_30) by (destruct fr; trivial; discriminate).
  assert (V2 : is30 cfg2 = true).
  { destruct (Hfr Efr) as [-> | S]; [reflexivity | ].
    unfold supports30fps in S.
    destruct Vlim as [L | L]; rewrite L in S; cbn in S;
      try discriminate. rewrite andb_false_r in S. discriminate. }
  assert (V0 : first = false /\ is30 cfg = true
               /\ (colorLimited cfg = true \/ depthLimited cfg = true)).
  { destruct Vlim as [L | L].
    - destruct C3 as [F C3]; [rewrite L, V2; reflexivity | ].
      apply andb_prop in C3 as [L1 T1].
      split; [exact F | split ].
      + apply D2. exact T1.
      + left. rewrite <- D1. exact L1.
    - rewrite C1 in L. destruct D3 as [F D3];
        [rewrite L, (C2 V2); reflexivity | ].
      apply andb_prop in D3 as [L0 T0].
      split; [exact F | split ]; [exact T0 | right; exact L0]. }
  destruct V0 as (F & T0 & L0).
  destruct H as [H | H]; [congruence | ].
  assert (X : framerateSupported cfg = false)
    by (apply framerateSupported_iff; split; assumption).
  congruence.
Qed.

(* ------------------------------------------------------------------ *)
(** *** The widgets of a started device *)

Lemma ShowDepthCamera_started io first cfg :
  exists fr,
    ShowDepthCamera io true first cfg = set_Framerate fr cfg
    /\ (first = false -> fr = Framerate cfg).
Proof.
  unfold ShowDepthCamera. rewrite checkboxOn_eq. cbn [negb andb].
  assert (E1 : set_EnableDepthCamera (EnableDepthCamera cfg) cfg = cfg)
    by (destruct cfg; reflexivity).
  rewrite E1.
  destruct (depthNodeOpen io first false cfg).
  - unfold DepthConfigurationNode. cbv zeta. cbn [negb andb].
    destruct (DepthModeButtons_shape io false false cfg)
      as (pressed & m & E & Hm & He).
    rewrite E, (He eq_refl). rewrite (Hm (He eq_refl)). cbn [orb].
    assert (E2 : set_DepthMode (DepthMode cfg) cfg = cfg)
      by (destruct cfg; reflexivity).
    rewrite E2.
    destruct first; [destruct (depth_mode_eqb _ _) | ].
    + eexists. split; [reflexivity | discriminate].
    + exists (Framerate cfg). split; [destruct cfg | ]; reflexivity.
    + exists (Framerate cfg). split; [destruct cfg | ]; reflexivity.
  - exists (Framerate cfg). split; [destruct cfg | ]; reflexivity.
Qed.

Lemma ShowColorCamera_started io first cfg :
  exists r fr,
    ShowColorCamera io true first cfg
    = set_Framerate fr (set_ColorResolution r cfg)
    /\ (first = false -> r = ColorResolution cfg /\ fr = Framerate cfg).
Proof.
  unfold ShowColorCamera. rewrite checkboxOn_eq. cbn [negb andb].
  assert (E1 : set_EnableColorCamera (EnableColorCamera cfg) cfg = cfg)
    by (destruct cfg; reflexivity).
  rewrite E1.
  destruct (colorNodeOpen io first false cfg).
  - unfold ColorConfigurationNode. cbv zeta. cbn [negb andb].
    destruct (ColorFormatPart_shape io false first cfg)
      as (f & r & E & _ & Hf & Hr).
    rewrite E, (Hf eq_refl).
    assert (E2 : set_ColorFormat (ColorFormat cfg) cfg = cfg)
      by (destruct cfg; reflexivity).
    rewrite E2. set (cfg2 := set_ColorResolution r cfg).
    destruct (ColorResolutionButtons_shape io false
                (imageFormatSupportsHighResolution cfg2) false cfg2)
      as (pressed & r2 & E3 & Hr2 & _ & He).
    rewrite E3, (He eq_refl), (Hr2 (He eq_refl)). cbn [orb].
    assert (E4 : set_ColorResolution (ColorResolution cfg2) cfg2 = cfg2)
      by reflexivity.
    rewrite E4.
    destruct first; [destruct (color_resolution_eqb _ _) | ].
    + eexists _, _. split; [reflexivity | discriminate].
    + exists r, (Framerate cfg).
      split; [destruct cfg; reflexivity | discriminate].
    + exists r, (Framerate cfg).
      split; [destruct cfg; reflexivity | ].
      intros _. split; [apply Hr | ]; reflexivity.
  - exists (ColorResolution cfg), (Framerate cfg).
    split; [destruct cfg | ]; split; reflexivity.
Qed.

End ConfigurationWidgets.

(* ================================================================== *)
(** ** The pending configuration over a frame *)

Section ConfigurationFrames.

Variable ext : K4AExternals.

Local Abbreviation World := (World ext).
Local Abbreviation pending w := (m_pendingDeviceConfiguration ext w).
Local Abbreviation syncConnected w :=
  (m_syncInConnected ext w || m_syncOutConnected ext w).

(** The state as the "External Sync" node finds it. *)
Local Abbreviation beforeExternalSync io b w :=
  (onPending ext (fun _ => ShowInternalSync io b)
     (onPending ext
        (fun w => ShowSensorToggles io b (haveMicrophone ext w))
        (onPending ext (fun _ => ShowFramerate io b)
           (ShowColorControlsNode ext io
              (onPending ext
                 (fun w => ShowColorCamera io b (m_firstRun ext w))
                 (onPending ext
                    (fun w => ShowDepthCamera io b (m_firstRun ext w))
                    w)))))).

Ltac ignored := intros ? ?; reflexivity.

Lemma ShowColorControlsNode_pending io (w : World) :
  pending (ShowColorControlsNode ext io w) = pending w.
Proof.
  apply (ShowColorControlsNode_step ext (fun _ => True) io w).
  split; intros; exact I.
Qed.

Lemma pending_beforeExternalSync io b (w : World) :
  pending (beforeExternalSync io b w)
  = editedConfiguration io b (m_firstRun ext w) (haveMicrophone ext w)
      (pending w).
Proof.
  unfold editedConfiguration.
  set (w2 := onPending ext
               (fun w => ShowColorCamera io b (m_firstRun ext w))
               (onPending ext
                  (fun w => ShowDepthCamera io b (m_firstRun ext w)) w)).
  assert (P2 : pending w2
               = ShowColorCamera io b (m_firstRun ext w)
                   (ShowDepthCamera io b (m_firstRun ext w) (pending w)))
    by reflexivity.
  assert (M2 : haveMicrophone ext w2 = haveMicrophone ext w) by reflexivity.
  clearbody w2.
  set (w3 := ShowColorControlsNode ext io w2).
  assert (P3 : pending w3 = pending w2)
    by apply ShowColorControlsNode_pending.
  assert (M3 : haveMicrophone ext w3 = haveMicrophone ext w2)
    by (apply (proj_ShowColorControlsNode ext _ (haveMicrophone ext));
        ignored).
  clearbody w3.
  change (ShowInternalSync io b
            (ShowSensorToggles io b (haveMicrophone ext w3)
               (ShowFramerate io b (pending w3)))
          = ShowInternalSync io b
              (ShowSensorToggles io b (haveMicrophone ext w)
                 (ShowFramerate io b
                    (ShowColorCamera io b (m_firstRun ext w)
                       (ShowDepthCamera io b (m_firstRun ext w)
                          (pending w)))))).
  rewrite M3, M2, P3, P2. reflexivity.
Qed.

Lemma ShowExternalSync_shape io b (w : World) :
  let w' := ShowExternalSync ext io b w in
  exists m d,
    pending w'
    = set_SubordinateDelayOffMasterUsec d (set_WiredSyncMode m (pending w))
    /\ (b = true ->
        d = SubordinateDelayOffMasterUsec (pending w)
        /\ (m = WiredSyncMode (pending w)
            \/ m = K4A_WIRED_SYNC_MODE_STANDALONE))
    /\ (TreeNode io "External Sync"
          (if m_firstRun ext w && syncConnected w then Some true else None)
        = true ->
        syncConnected w'
        && (EnableColorCamera (pending w) || EnableDepthCamera (pending w))
        = false ->
        m = K4A_WIRED_SYNC_MODE_STANDALONE).
Proof.
  cbv zeta. unfold ShowExternalSync.
  destruct (TreeNode io "External Sync" _).
  - cbv zeta.
    set (w1 := if Button io "Refresh" then RefreshSyncCableStatus ext w
               else w).
    assert (E : pending w1 = pending w).
    { subst w1. destruct (Button io "Refresh");
        [apply RefreshSyncCableStatus_pending | reflexivity]. }
    clearbody w1.
    change (pending (set_m_pendingDeviceConfiguration ext ?c ?x)) with c.
    change (syncConnected (set_m_pendingDeviceConfiguration ext ?c ?x))
      with (syncConnected x).
    rewrite !radioOn_eq. cbn [snd]. rewrite E. unfold K4AInputScalar.
    destruct (syncConnected w1
              && (EnableColorCamera (pending w)
                  || EnableDepthCamera (pending w))) eqn:S; cbn [negb].
    + eexists _, _. split; [reflexivity | split ].
      * intros ->. cbn.
        split; [destruct (scalarValue io "Delay off master (us)");
                reflexivity | left; reflexivity ].
      * intros _ H. discriminate.
    + eexists _, _. split; [reflexivity | split ].
      * intros ->. cbn.
        split; [destruct (scalarValue io "Delay off master (us)");
                reflexivity | right; reflexivity ].
      * intros _ _. rewrite !andb_false_r. cbn.
        destruct (negb b && activated io "Standalone"); reflexivity.
  - exists (WiredSyncMode (pending w)),
      (SubordinateDelayOffMasterUsec (pending w)).
    split; [destruct (pending w); reflexivity | split ].
    + intros _. split; [ | left ]; reflexivity.
    + discriminate.
Qed.

Lemma haveMicrophone_PollDevice (w : World) :
  haveMicrophone ext (PollDevice ext w) = haveMicrophone ext w.
Proof.
  pose proof (microphone_after_sensor_polls ext w) as H. cbv zeta in H.
  unfold PollDevice. cbv zeta.
  set (w2 := if Device_ImuIsStarted ext _ then _ else _) in *.
  clearbody w2. unfold haveMicrophone at 2. rewrite <- H.
  unfold checkMicrophone, haveMicrophone.
  destruct (m_microphone ext w2) as [mic|] eqn:E; [ | rewrite E; reflexivity ].
  destruct (negb _); [ | rewrite E; reflexivity ].
  unfold StopMicrophone, pushError.
  change (m_microphone ext (set_errorStatus ext ?e w2))
    with (m_microphone ext w2).
  rewrite E. reflexivity.
Qed.

(** What a frame that is not cut short, and in which neither "Restore" nor
    "Reset" takes effect, does to the pending configuration. *)
Lemma Show_pending_shape io (w : World) :
  let b := DeviceIsStarted ext w in
  let cfg := editedConfiguration io b (m_firstRun ext w)
               (haveMicrophone ext w) (pending w) in
  Button io "Close device" = false ->
  K4AButton io "Restore" (negb b) = false ->
  K4AButton io "Reset" (negb b) = false ->
  exists m d,
    pending (Show ext io w)
    = set_SubordinateDelayOffMasterUsec d (set_WiredSyncMode m cfg)
    /\ (b = true ->
        d = SubordinateDelayOffMasterUsec cfg
        /\ (m = WiredSyncMode cfg \/ m = K4A_WIRED_SYNC_MODE_STANDALONE)).
Proof.
  cbv zeta. intros Hclose Hrestore Hreset.
  rewrite (Show_not_closed ext io w Hclose).
  set (b := DeviceIsStarted ext w) in *.
  set (w0 := if negb (m_paused ext w) then PollDevice ext w else w).
  assert (E : pending w0 = pending w
              /\ m_firstRun ext w0 = m_firstRun ext w
              /\ haveMicrophone ext w0 = haveMicrophone ext w).
  { subst w0. destruct (negb (m_paused ext w));
      [ | repeat split; reflexivity ].
    split; [apply PollDevice_pending | split ].
    - apply (proj_PollDevice ext _ (m_firstRun ext)); ignored.
    - apply haveMicrophone_PollDevice. }
  destruct E as (E1 & E2 & E3). rewrite <- E1, <- E2, <- E3. clearbody w0.
  rewrite ShowControls_pending. unfold ShowConfiguration. cbv zeta.
  rewrite ShowSettingsButtons_pending by assumption.
  destruct (ShowExternalSync_shape io b (beforeExternalSync io b w0))
    as (m & d & E & Hb & _).
  rewrite pending_beforeExternalSync in E, Hb.
  exists m, d. split; assumption.
Qed.

(** X14. Uncompressed color formats stay at 720p.  A frame that is not
    cut short by "Close device", and in which neither "Restore" nor
    "Reset" takes effect, ends with a color resolution the color format
    supports (any resolution for MJPG and BGRA, 720p for NV12 and YUY2)
    if it began with one, and also on the first frame whenever the color
    camera ends up enabled. *)
Theorem Show_keeps_resolution_within_format io (w : World) :
  let b := DeviceIsStarted ext w in
  let cfg' := pending (Show ext io w) in
  Button io "Close device" = false ->
  K4AButton io "Restore" (negb b) = false ->
  K4AButton io "Reset" (negb b) = false ->
  resolutionFitsFormat (pending w) = true
  \/ (m_firstRun ext w = true /\ EnableColorCamera cfg' = true) ->
  resolutionFitsFormat cfg' = true.
Proof.
  cbv zeta. intros Hclose Hrestore Hreset.
  destruct (Show_pending_shape io w Hclose Hrestore Hreset)
    as (m & d & -> & _).
  unfold editedConfiguration.
  set (b := DeviceIsStarted ext w).
  set (cfg1 := ShowDepthCamera io b (m_firstRun ext w) (pending w)).
  set (cfg2 := ShowColorCamera io b (m_firstRun ext w) cfg1).
  destruct (ShowFramerate_eq io b cfg2) as (fr & -> & _).
  destruct (ShowSensorToggles_eq io b (haveMicrophone ext w)
              (set_Framerate fr cfg2)) as (led & imu & mic & -> & _).
  destruct (ShowInternalSync_eq io b
              (set_EnableMicrophone mic
                 (set_SynchronizedImagesOnly
                    (SynchronizedImagesOnly (set_Framerate fr cfg2)
                     && (EnableColorCamera (set_Framerate fr cfg2)
                         && EnableDepthCamera (set_Framerate fr cfg2)))
                    (set_EnableImu imu
                       (set_DisableStreamingIndicator led
                          (set_Framerate fr cfg2))))))
    as (sync & delay & -> & _).
  match goal with
  | |- _ \/ (_ /\ EnableColorCamera ?c = true) -> resolutionFitsFormat ?c = true =>
      change (EnableColorCamera c) with (EnableColorCamera cfg2);
      change (resolutionFitsFormat c) with (resolutionFitsFormat cfg2)
  end.
  intros H. apply ShowColorCamera_fits. fold cfg2.
  destruct H as [H | H]; [left | right; exact H].
  rewrite <- H. apply fits_fields.
  apply (ShowDepthCamera_formatFields io b (m_firstRun ext w) (pending w)).
Qed.

(** X15. 30 FPS is kept away from cameras that cannot run at it.  A
    frame that is not cut short by "Close device", and in which neither
    "Restore" nor "Reset" takes effect, ends with a pending framerate the
    enabled cameras support (not 30 FPS with the color camera enabled at
    3072p or the depth camera enabled in WFOV Unbinned mode) if it is the
    first frame or began with such a framerate. *)
Theorem Show_keeps_framerate_supported io (w : World) :
  let b := DeviceIsStarted ext w in
  Button io "Close device" = false ->
  K4AButton io "Restore" (negb b) = false ->
  K4AButton io "Reset" (negb b) = false ->
  m_firstRun ext w = true \/ framerateSupported (pending w) = true ->
  framerateSupported (pending (Show ext io w)) = true.
Proof.
  cbv zeta. intros Hclose Hrestore Hreset H.
  destruct (Show_pending_shape io w Hclose Hrestore Hreset)
    as (m & d & -> & _).
  unfold editedConfiguration.
  set (b := DeviceIsStarted ext w).
  pose proof (cameras_framerateSupported io b _ _ H) as V.
  set (cfg3 := ShowFramerate io b _) in *. clearbody cfg3.
  destruct (ShowSensorToggles_eq io b (haveMicrophone ext w) cfg3)
    as (led & imu & mic & -> & _).
  destruct (ShowInternalSync_eq io b
              (set_EnableMicrophone mic
                 (set_SynchronizedImagesOnly
                    (SynchronizedImagesOnly cfg3
                     && (EnableColorCamera cfg3 && EnableDepthCamera cfg3))
                    (set_EnableImu imu
                       (set_DisableStreamingIndicator led cfg3)))))
    as (sync & delay & -> & _).
  exact V.
Qed.

(** X16. Without a microphone the pending configuration never ends a
    frame asking for one: a frame that is not cut short by "Close
    device", and in which neither "Restore" nor "Reset" takes effect,
    ends with [EnableMicrophone] cleared. *)
Theorem Show_without_microphone io (w : World) :
  let b := DeviceIsStarted ext w in
  m_microphone ext w = None ->
  Button io "Close device" = false ->
  K4AButton io "Restore" (negb b) = false ->
  K4AButton io "Reset" (negb b) = false ->
  EnableMicrophone (pending (Show ext io w)) = false.
Proof.
  cbv zeta. intros Hmic Hclose Hrestore Hreset.
  destruct (Show_pending_shape io w Hclose Hrestore Hreset)
    as (m & d & -> & _).
  unfold editedConfiguration, haveMicrophone. rewrite Hmic.
  set (b := DeviceIsStarted ext w).
  set (cfg3 := ShowFramerate io b _). clearbody cfg3.
  destruct (ShowSensorToggles_eq io b false cfg3)
    as (led & imu & mic & -> & Hoff & _).
  rewrite (Hoff eq_refl).
  destruct (ShowInternalSync_eq io b
              (set_EnableMicrophone false
                 (set_SynchronizedImagesOnly
                    (SynchronizedImagesOnly cfg3
                     && (EnableColorCamera cfg3 && EnableDepthCamera cfg3))
                    (set_EnableImu imu
                       (set_DisableStreamingIndicator led cfg3)))))
    as (sync & delay & -> & _).
  reflexivity.
Qed.

(** X17. While the device is started the configuration is locked.
    Whatever the user clicks or types, a call to [Show] on a started
    device leaves the camera enable flags, the depth mode, the color
    format, the streaming LED and IMU flags and both delays of the
    pending configuration as they were, and after the first frame the
    color resolution and the framerate too; it can only clear
    [SynchronizedImagesOnly] and [EnableMicrophone], never set them, and
    can change the wired sync mode only to standalone. *)
Theorem Show_started_locks_configuration io (w : World) :
  DeviceIsStarted ext w = true ->
  let cfg := pending w in
  let cfg' := pending (Show ext io w) in
  EnableColorCamera cfg' = EnableColorCamera cfg
  /\ EnableDepthCamera cfg' = EnableDepthCamera cfg
  /\ DepthMode cfg' = DepthMode cfg
  /\ ColorFormat cfg' = ColorFormat cfg
  /\ DisableStreamingIndicator cfg' = DisableStreamingIndicator cfg
  /\ EnableImu cfg' = EnableImu cfg
  /\ DepthDelayOffColorUsec cfg' = DepthDelayOffColorUsec cfg
  /\ SubordinateDelayOffMasterUsec cfg' = SubordinateDelayOffMasterUsec cfg
  /\ (m_firstRun ext w = false ->
      ColorResolution cfg' = ColorResolution cfg
      /\ Framerate cfg' = Framerate cfg)
  /\ (SynchronizedImagesOnly cfg' = true -> SynchronizedImagesOnly cfg = true)
  /\ (EnableMicrophone cfg' = true -> EnableMicrophone cfg = true)
  /\ (WiredSyncMode cfg' = WiredSyncMode cfg
      \/ WiredSyncMode cfg' = K4A_WIRED_SYNC_MODE_STANDALONE).
Proof.
  intros Hstarted. cbv zeta.
  destruct (Button io "Close device") eqn:Hclose.
  { unfold Show. rewrite Hclose.
    change (pending (pushWindowEvent ext ?e w)) with (pending w).
    repeat split; trivial. left. reflexivity. }
  pose proof (Show_pending_shape io w Hclose) as H. cbv zeta in H.
  rewrite Hstarted in H.
  destruct (H eq_refl eq_refl) as (m & d & -> & Hmd). clear H.
  destruct (Hmd eq_refl) as [-> Hm]. clear Hmd. revert Hm.
  unfold editedConfiguration in *.
  destruct (ShowDepthCamera_started io (m_firstRun ext w) (pending w))
    as (fr1 & -> & Hfr1).
  destruct (ShowColorCamera_started io (m_firstRun ext w)
              (set_Framerate fr1 (pending w)))
    as (r & fr2 & -> & Hfr2).
  set (cfg2 := set_Framerate fr2
                 (set_ColorResolution r (set_Framerate fr1 (pending w))))
    in *.
  destruct (ShowFramerate_eq io true cfg2) as (fr3 & E3 & _ & Hfr3).
  rewrite E3 in *. rewrite (Hfr3 eq_refl) in *. clear E3 Hfr3 fr3.
  set (cfg3 := set_Framerate (Framerate cfg2) cfg2) in *.
  destruct (ShowSensorToggles_eq io true (haveMicrophone ext w) cfg3)
    as (led & imu & mic & E4 & _ & H4).
  rewrite E4 in *. clear E4.
  destruct (H4 eq_refl) as (-> & -> & Hmic). clear H4.
  set (cfg4 := set_EnableMicrophone mic _) in *.
  destruct (ShowInternalSync_eq io true cfg4) as (sync & delay & E5 & H5).
  rewrite E5 in *. clear E5.
  destruct (H5 eq_refl) as (-> & ->). clear H5.
  intros Hm. repeat split; try reflexivity.
  - apply Hfr2 in H. destruct H as [-> _]. reflexivity.
  - pose proof (Hfr1 H) as ->.
    destruct (Hfr2 H) as [_ ->]. reflexivity.
  - change (SynchronizedImagesOnly (pending w)
            && (EnableColorCamera (pending w)
                && EnableDepthCamera (pending w)) = true
            -> SynchronizedImagesOnly (pending w) = true).
    intros H. apply andb_prop in H as [H _]. exact H.
  - exact Hmic.
  - destruct Hm as [-> | ->]; [left | right]; reflexivity.
Qed.

(** X18. Master and subordinate modes need a sync cable and a camera.
    When the "External Sync" node is open in a frame that is not cut
    short by "Close device", and in which neither "Restore" nor "Reset"
    takes effect, and at the end of the frame no sync cable is recorded
    as connected or neither camera is enabled, the frame ends in
    standalone mode. *)
Theorem Show_standalone_without_sync io (w : World) :
  let b := DeviceIsStarted ext w in
  let w' := Show ext io w in
  Button io "Close device" = false ->
  K4AButton io "Restore" (negb b) = false ->
  K4AButton io "Reset" (negb b) = false ->
  TreeNode io "External Sync"
    (if m_firstRun ext w && syncConnected w then Some true else None)
  = true ->
  syncConnected w'
  && (EnableColorCamera (pending w') || EnableDepthCamera (pending w'))
  = false ->
  WiredSyncMode (pending w') = K4A_WIRED_SYNC_MODE_STANDALONE.
Proof.
  cbv zeta. intros Hclose Hrestore Hreset.
  rewrite (Show_not_closed ext io w Hclose).
  set (b := DeviceIsStarted ext w) in *.
  set (w0 := if negb (m_paused ext w) then PollDevice ext w else w).
  assert (E : m_firstRun ext w0 = m_firstRun ext w
              /\ m_syncInConnected ext w0 = m_syncInConnected ext w
              /\ m_syncOutConnected ext w0 = m_syncOutConnected ext w).
  { subst w0. destruct (negb (m_paused ext w));
      [ | repeat split; reflexivity ].
    repeat split.
    - apply (proj_PollDevice ext _ (m_firstRun ext)); ignored.
    - apply (proj_PollDevice ext _ (m_syncInConnected ext)); ignored.
    - apply (proj_PollDevice ext _ (m_syncOutConnected ext)); ignored. }
  destruct E as (E1 & E2 & E3). rewrite <- E1, <- E2, <- E3. clearbody w0.
  rewrite ShowControls_pending.
  rewrite (proj_ShowControls_after_configuration ext _
             (m_syncInConnected ext)) by ignored.
  rewrite (proj_ShowControls_after_configuration ext _
             (m_syncOutConnected ext)) by ignored.
  unfold ShowConfiguration. cbv zeta.
  rewrite ShowSettingsButtons_pending by assumption.
  set (w7 := beforeExternalSync io b w0).
  assert (F : m_firstRun ext w7 = m_firstRun ext w0
              /\ m_syncInConnected ext w7 = m_syncInConnected ext w0
              /\ m_syncOutConnected ext w7 = m_syncOutConnected ext w0).
  { subst w7. repeat split.
    - change (m_firstRun ext (ShowColorControlsNode ext io
                (onPending ext
                   (fun w => ShowColorCamera io b (m_firstRun ext w))
                   (onPending ext
                      (fun w => ShowDepthCamera io b (m_firstRun ext w))
                      w0)))
              = m_firstRun ext w0).
      etransitivity;
        [apply (proj_ShowColorControlsNode ext _ (m_firstRun ext)); ignored
        | reflexivity ].
    - change (m_syncInConnected ext (ShowColorControlsNode ext io
                (onPending ext
                   (fun w => ShowColorCamera io b (m_firstRun ext w))
                   (onPending ext
                      (fun w => ShowDepthCamera io b (m_firstRun ext w))
                      w0)))
              = m_syncInConnected ext w0).
      etransitivity;
        [apply (proj_ShowColorControlsNode ext _ (m_syncInConnected ext)); ignored
        | reflexivity ].
    - change (m_syncOutConnected ext (ShowColorControlsNode ext io
                (onPending ext
                   (fun w => ShowColorCamera io b (m_firstRun ext w))
                   (onPending ext
                      (fun w => ShowDepthCamera io b (m_firstRun ext w))
                      w0)))
              = m_syncOutConnected ext w0).
      etransitivity;
        [apply (proj_ShowColorControlsNode ext _ (m_syncOutConnected ext)); ignored
        | reflexivity ]. }
  destruct F as (F1 & F2 & F3). rewrite <- F1, <- F2, <- F3. clearbody w7.
  assert (S : forall x : World,
             m_syncInConnected ext (ShowSettingsButtons ext io b x)
             = m_syncInConnected ext x
             /\ m_syncOutConnected ext (ShowSettingsButtons ext io b x)
                = m_syncOutConnected ext x).
  { intros x. unfold ShowSettingsButtons.
    destruct (K4AButton io "Restore" _), (K4AButton io "Save" _),
      (K4AButton io "Reset" _); split; reflexivity. }
  destruct (S (ShowExternalSync ext io b w7)) as [-> ->].
  destruct (ShowExternalSync_shape io b w7) as (m & d & E & _ & Hm).
  rewrite E. intros Hopen Hunsupported. cbn. apply Hm; assumption.
Qed.

End ConfigurationFrames.

(* ================================================================== *)
(** ** Device calls and the state of the device *)

Section DeviceStateFacts.

Variable ext : K4AExternals.

Local Abbreviation World := (World ext).
Local Abbreviation Call := (DeviceCall (k4a_device_configuration_t ext)).
Local Abbreviation devCalls w := (calls ext (m_device ext w)).
Local Abbreviation pending w := (m_pendingDeviceConfiguration ext w).

Lemma ShowStartStop_started (P : Call -> Prop) io (w : World) :
  AllowsStop P -> AllowsCalibration P ->
  deviceStep P w (ShowStartStop ext io true w).
Proof.
  intros Hstop Hcal. unfold ShowStartStop. cbn [negb]. cbv zeta.
  set (w1 := if K4AButton io "Stop" true then Stop ext w else w).
  assert (H1 : deviceStep P w w1).
  { apply deviceStep_if; [apply Stop_step, Hstop | apply deviceStep_refl]. }
  destruct (ShowModeSelector ext io (m_currentViewType ext w1) true _)
    as [viewType change].
  set (w2 := set_m_currentViewType ext viewType w1).
  assert (H2 : deviceStep P w1 w2)
    by (apply deviceStep_same; destruct w1; reflexivity).
  set (w3 := match change with
             | Some t => SetViewType ext t w2
             | None => w2
             end).
  assert (H3 : deviceStep P w2 w3).
  { subst w3. destruct change;
      [apply SetViewType_step, Hcal | apply deviceStep_refl]. }
  eapply deviceStep_trans; [exact H1 | ].
  eapply deviceStep_trans; [exact H2 | ].
  eapply deviceStep_trans; [exact H3 | ].
  destruct (m_paused ext w3), (Button io "Resume"), (Button io "Pause");
    first [ apply deviceStep_refl
          | apply deviceStep_same; destruct w3; reflexivity ].
Qed.

(** X19. A started device is not started again: whatever the user
    does, a call to [Show] on a started device (cameras, IMU or
    microphone running) makes no [StartCameras] and no [StartImu] call. *)
Theorem Show_never_restarts io (w : World) :
  DeviceIsStarted ext w = true ->
  callsAdded (fun c => isStart c = false) w (Show ext io w).
Proof.
  intros Hstarted. unfold Show.
  destruct (Button io "Close device");
    [apply callsAdded_same; destruct w; reflexivity | ].
  cbv zeta. rewrite Hstarted.
  apply callsAdded_trans
    with (w2 := if negb (m_paused ext w) then PollDevice ext w else w).
  - destruct (negb (m_paused ext w)); [ | apply callsAdded_refl ].
    apply (PollDevice_step ext _ w); split; reflexivity.
  - unfold ShowControls. cbv zeta.
    eapply callsAdded_trans; [ | apply callsAdded_same; reflexivity ].
    eapply callsAdded_trans.
    + apply ShowConfiguration_calls; repeat split; reflexivity.
    + apply ShowStartStop_started; repeat split; intros; reflexivity.
Qed.

Lemma PollDevice_idle (w : World) :
  Device_CamerasAreStarted ext (m_device ext w) = false ->
  Device_ImuIsStarted ext (m_device ext w) = false ->
  m_device ext (PollDevice ext w) = m_device ext w.
Proof.
  intros Hc Hi. unfold PollDevice. cbv zeta. rewrite Hc, Hi.
  apply checkMicrophone_same.
Qed.

Lemma Start_only_starts (w : World) :
  callsAdded (fun c : Call => startedOnly c = false) w (Start ext w).
Proof.
  destruct (Start_summary ext w) as (_ & _ & _ & _ & H).
  destruct H as (cameras & imu & E & _).
  eexists. split; [exact E | ].
  destruct cameras, imu; repeat constructor.
Qed.

(** X20. A device that is not started is neither polled nor stopped:
    whatever the user does, a call to [Show] while neither the cameras,
    nor the IMU, nor the microphone is started makes no poll, no stop and
    no calibration request on the device. *)
Theorem Show_leaves_idle_device_alone io (w : World) :
  DeviceIsStarted ext w = false ->
  callsAdded (fun c => startedOnly c = false) w (Show ext io w).
Proof.
  intros Hidle. unfold Show.
  destruct (Button io "Close device");
    [apply callsAdded_same; destruct w; reflexivity | ].
  cbv zeta. rewrite Hidle.
  unfold DeviceIsStarted in Hidle.
  apply orb_false_elim in Hidle as [Hidle _].
  apply orb_false_elim in Hidle as [Hc Hi].
  apply callsAdded_trans
    with (w2 := if negb (m_paused ext w) then PollDevice ext w else w).
  - apply callsAdded_same.
    destruct (negb (m_paused ext w));
      [apply PollDevice_idle; assumption | reflexivity].
  - set (w0 := if negb (m_paused ext w) then PollDevice ext w else w).
    unfold ShowControls. cbv zeta.
    apply callsAdded_trans with (w2 := ShowConfiguration ext io false w0);
      [apply ShowConfiguration_calls; repeat split; reflexivity | ].
    apply callsAdded_trans
      with (w2 := ShowStartStop ext io false
                    (ShowConfiguration ext io false w0));
      [ | apply callsAdded_same; reflexivity ].
    unfold ShowStartStop. cbn [negb]. cbv zeta.
    destruct (K4AButton io "Start" _);
      [apply Start_only_starts | apply callsAdded_refl].
Qed.

End DeviceStateFacts.

(* ================================================================== *)
(** ** Invariants over successive frames *)

Section FrameInvariants.

Variable ext : K4AExternals.

Local Abbreviation World := (World ext).
Local Abbreviation pending w := (m_pendingDeviceConfiguration ext w).
Local Abbreviation saved w := (savedDeviceConfiguration ext w).
Local Abbreviation countersInRange w :=
  (0 <= m_cameraTimeoutCounter ext w <= 120
   /\ 0 <= m_imuTimeoutCounter ext w <= 120).

Lemma sensorState_counters (w w' : World) :
  sensorState w' = sensorState w -> countersInRange w -> countersInRange w'.
Proof.
  unfold sensorState. intros E. injection E as -> -> _ _. trivial.
Qed.

Lemma pollCameras_counters (w : World) :
  countersInRange w -> countersInRange (pollCameras ext w).
Proof.
  intros [Hc Hi]. unfold pollCameras. cbv zeta. split; [ | exact Hi ].
  change (m_cameraTimeoutCounter ext (set_errorStatus ext ?e
            (set_m_cameraDataSource ext ?s
               (set_m_cameraTimeoutCounter ext ?c ?x)))) with c.
  rewrite PollSensor_counter. apply HasTimedOut_range. exact Hc.
Qed.

Lemma pollImu_counters (w : World) :
  countersInRange w -> countersInRange (pollImu ext w).
Proof.
  intros [Hc Hi]. unfold pollImu. cbv zeta. split; [exact Hc | ].
  change (m_imuTimeoutCounter ext (set_errorStatus ext ?e
            (set_m_imuDataSource ext ?s
               (set_m_imuTimeoutCounter ext ?c ?x)))) with c.
  rewrite PollSensor_counter. apply HasTimedOut_range. exact Hi.
Qed.

Lemma checkMicrophone_sensorState (w : World) :
  sensorState (checkMicrophone ext w) = sensorState w.
Proof.
  unfold checkMicrophone, StopMicrophone, pushError.
  destruct (m_microphone ext w) as [mic|] eqn:E; [ | reflexivity ].
  destruct (negb _); [ | reflexivity ].
  change (m_microphone ext (set_errorStatus ext ?e w))
    with (m_microphone ext w).
  rewrite E. reflexivity.
Qed.

Lemma PollDevice_counters (w : World) :
  countersInRange w -> countersInRange (PollDevice ext w).
Proof.
  intros H. unfold PollDevice. cbv zeta.
  set (w1 := if Device_CamerasAreStarted ext (m_device ext w)
             then pollCameras ext w else w).
  assert (H1 : countersInRange w1).
  { subst w1. destruct (Device_CamerasAreStarted ext _);
      [apply pollCameras_counters | ]; exact H. }
  clearbody w1.
  set (w2 := if Device_ImuIsStarted ext (m_device ext w1)
             then pollImu ext w1 else w1).
  assert (H2 : countersInRange w2).
  { subst w2. destruct (Device_ImuIsStarted ext _);
      [apply pollImu_counters | ]; exact H1. }
  clearbody w2.
  apply (sensorState_counters w2); [apply checkMicrophone_sensorState | ].
  exact H2.
Qed.

Lemma Show_counters io (w : World) :
  countersInRange w -> countersInRange (Show ext io w).
Proof.
  intros H. unfold Show.
  destruct (Button io "Close device"); [exact H | ]. cbv zeta.
  eapply sensorState_counters; [apply sensorState_ShowControls | ].
  destruct (negb (m_paused ext w)); [apply PollDevice_counters | ]; exact H.
Qed.

(** X21. Both timeout counters stay within 0..120 for the life of the
    panel: if they are in that range (as they are at zero), they are
    still in it after any number of frames, whatever the user does in
    them and whatever the device returns. *)
Theorem ShowFrames_counters_in_range ios (w : World) :
  0 <= m_cameraTimeoutCounter ext w <= 120 ->
  0 <= m_imuTimeoutCounter ext w <= 120 ->
  let w' := ShowFrames ext ios w in
  0 <= m_cameraTimeoutCounter ext w' <= 120
  /\ 0 <= m_imuTimeoutCounter ext w' <= 120.
Proof.
  intros Hc Hi. cbv zeta. unfold ShowFrames.
  assert (H : countersInRange w) by (split; assumption). clear Hc Hi.
  revert w H. induction ios as [|io ios IH]; intros w H; [exact H | ].
  cbn [fold_left]. apply IH, Show_counters, H.
Qed.

(** X22. "Reset" has the last word: in a frame that is not cut short
    by "Close device" and in which Reset takes effect, the pending and the
    saved configuration both end as the default configuration, whether or
    not "Restore" or "Save" were activated too and whatever was edited
    before. *)
Theorem Show_reset io (w : World) :
  Button io "Close device" = false ->
  K4AButton io "Reset" (negb (DeviceIsStarted ext w)) = true ->
  pending (Show ext io w) = defaultDeviceConfiguration ext
  /\ saved (Show ext io w) = defaultDeviceConfiguration ext.
Proof.
  intros Hclose Hreset. rewrite (Show_not_closed ext io w Hclose).
  rewrite ShowControls_pending, saved_ShowControls.
  unfold ShowConfiguration. cbv zeta.
  unfold ShowSettingsButtons at 1 2. rewrite Hreset.
  split; reflexivity.
Qed.

End FrameInvariants.

(* ================================================================== *)
(** ** Instances on the simulated device *)

Lemma Show_keeps_saved_configuration_witness :
  let w := simWorld (simHardware false false [])
                    (defaultDeviceConfiguration simExternals) false false in
  let w' := Show simExternals (pressOnly "Enable IMU") w in
  EnableImu (m_pendingDeviceConfiguration simExternals w') = false
  /\ savedDeviceConfiguration simExternals w'
     = defaultDeviceConfiguration simExternals.
Proof.
  intros w w'. split; [reflexivity | ].
  apply (Show_keeps_saved_configuration simExternals
           (pressOnly "Enable IMU") w); reflexivity.
Defined.

Lemma Save_then_Restore_witness :
  let w := simWorld (simHardware false false []) wideDepthDisabled
                    true false in
  let w1 := Show simExternals (pressOnly "Save") w in
  let w2 := ShowFrames simExternals [pressOnly "Enable IMU"] w1 in
  m_pendingDeviceConfiguration simExternals w2
  = set_EnableImu true (m_pendingDeviceConfiguration simExternals w1)
  /\ m_pendingDeviceConfiguration simExternals
       (Show simExternals (pressOnly "Restore") w2)
     = m_pendingDeviceConfiguration simExternals w1.
Proof.
  intros w w1 w2. split; [vm_compute; reflexivity | ].
  refine (Save_then_Restore simExternals (pressOnly "Save")
            [pressOnly "Enable IMU"] (pressOnly "Restore") w
            _ _ _ _ _ _ _);
    try (vm_compute; reflexivity).
  repeat constructor.
Defined.

Lemma PollDevice_stops_failed_microphone_witness :
  let w := simWorldWithMicrophone (simHardware false false [])
             (defaultDeviceConfiguration simExternals) false false 1 in
  let w' := PollDevice simExternals w in
  m_microphone simExternals w'
  = Some (MkMicrophone ((false, 1) : MicHardware simExternals) [CallMicStop])
  /\ last (statuses (errorStatus simExternals w')) ""%string
     = "Microphone on device 000123 failed!"%string.
Proof.
  intros w w'.
  apply (PollDevice_stops_failed_microphone simExternals w
           (MkMicrophone ((false, 1) : MicHardware simExternals) [])
           eq_refl).
  discriminate.
Defined.

Lemma Start_always_opens_normal_view_witness :
  let w := simWorldWithMicrophone (simHardware false false [])
             (defaultDeviceConfiguration simExternals) false false 0 in
  let w' := Start simExternals w in
  m_paused simExternals w' = false
  /\ windows simExternals w'
     = [ClearWindows;
        StartNormalWindows true true K4A_DEPTH_MODE_NFOV_UNBINNED
          true K4A_IMAGE_FORMAT_COLOR_MJPG K4A_COLOR_RESOLUTION_720P].
Proof.
  intros w w'.
  destruct (Start_always_opens_normal_view simExternals w eq_refl)
    as (Hpaused & _ & _ & Hwindows & _).
  split; [exact Hpaused | exact Hwindows].
Defined.

Lemma Show_keeps_resolution_within_format_witness :
  let w := simWorld (simHardware false false []) uncompressed1080p
                    true false in
  let cfg' := m_pendingDeviceConfiguration simExternals
                (Show simExternals quietInput w) in
  resolutionFitsFormat uncompressed1080p = false
  /\ resolutionFitsFormat cfg' = true.
Proof.
  intros w cfg'. split; [reflexivity | ].
  apply (Show_keeps_resolution_within_format simExternals quietInput w);
    try reflexivity.
  right. split; reflexivity.
Defined.

Lemma Show_keeps_framerate_supported_witness :
  let w := simWorld (simHardware false false []) wideDepthEnabled
                    true false in
  framerateSupported wideDepthEnabled = false
  /\ framerateSupported
       (m_pendingDeviceConfiguration simExternals
          (Show simExternals quietInput w)) = true.
Proof.
  intros w. split; [reflexivity | ].
  apply (Show_keeps_framerate_supported simExternals quietInput w);
    try reflexivity.
  left. reflexivity.
Defined.

Lemma Show_without_microphone_witness :
  let w := simWorld (simHardware false false [])
                    (defaultDeviceConfiguration simExternals) false false in
  EnableMicrophone (defaultDeviceConfiguration simExternals) = true
  /\ EnableMicrophone
       (m_pendingDeviceConfiguration simExternals
          (Show simExternals (pressOnly "Enable Microphone") w)) = false.
Proof.
  intros w. split; [reflexivity | ].
  apply (Show_without_microphone simExternals
           (pressOnly "Enable Microphone") w); reflexivity.
Defined.

Lemma Show_started_locks_configuration_witness :
  let w := simWorld (simHardware true true [])
                    (defaultDeviceConfiguration simExternals) false false in
  let cfg' := m_pendingDeviceConfiguration simExternals
                (Show simExternals (pressOnly "Enable Depth Camera") w) in
  EnableDepthCamera cfg' = true
  /\ DepthMode cfg' = K4A_DEPTH_MODE_NFOV_UNBINNED.
Proof.
  intros w cfg'.
  destruct (Show_started_locks_configuration simExternals
              (pressOnly "Enable Depth Camera") w eq_refl)
    as (_ & Hdepth & Hmode & _).
  split; [exact Hdepth | exact Hmode].
Defined.

Lemma Show_standalone_without_sync_witness :
  let w := simWorld (simHardware false false []) masterMode false false in
  WiredSyncMode
    (m_pendingDeviceConfiguration simExternals
       (Show simExternals (openOnly "External Sync") w))
  = K4A_WIRED_SYNC_MODE_STANDALONE.
Proof.
  intros w.
  apply (Show_standalone_without_sync simExternals
           (openOnly "External Sync") w); reflexivity.
Defined.

Lemma Show_never_restarts_witness :
  let w := simWorld (simHardware true false [])
                    (defaultDeviceConfiguration simExternals) false false in
  callsAdded (fun c => isStart c = false) w
             (Show simExternals (pressOnly "Start") w).
Proof.
  intros w.
  apply (Show_never_restarts simExternals (pressOnly "Start") w).
  reflexivity.
Defined.

Lemma Show_leaves_idle_device_alone_witness :
  let w := simWorld (simHardware false false [])
                    (defaultDeviceConfiguration simExternals) false false in
  callsAdded (fun c => startedOnly c = false) w
             (Show simExternals (pressOnly "Stop") w).
Proof.
  intros w.
  apply (Show_leaves_idle_device_alone simExternals (pressOnly "Stop") w).
  reflexivity.
Defined.

Lemma ShowFrames_counters_in_range_witness :
  let w := simWorld (simHardware true true [5; 6])
                    (defaultDeviceConfiguration simExternals) true false in
  let w' := ShowFrames simExternals [quietInput; pressOnly "Pause"] w in
  0 <= m_cameraTimeoutCounter simExternals w' <= 120
  /\ 0 <= m_imuTimeoutCounter simExternals w' <= 120.
Proof.
  intros w w'.
  apply (ShowFrames_counters_in_range simExternals
           [quietInput; pressOnly "Pause"] w); cbn; lia.
Defined.

Lemma Show_reset_witness :
  let w := simWorld (simHardware false false []) wideDepthDisabled
                    false false in
  m_pendingDeviceConfiguration simExternals
    (Show simExternals (pressOnly "Reset") w)
  = defaultDeviceConfiguration simExternals.
Proof.
  intros w.
  apply (Show_reset simExternals (pressOnly "Reset") w); reflexivity.
Defined.
